(** * GEN3 tactile sensor serial protocol: a shallow embedding

  The two example scripts shipped with the sensor documentation,
  [Read_Single_Sensor_Hand.py] (high-speed integration board) and
  [Read_Single_Sensor_Usb.py] (single-channel serial adapter), are
  embedded function by function.  Python [bytes] are [list byte], Python
  [int] is [Z], a Python exception is a value of [exn] threaded through a
  small error monad, and the serial port is an explicit state. *)

From Stdlib Require Import ZArith List Bool Lia String Ascii.
From Stdlib Require Import Strings.Byte.
From Stdlib Require Import Sorting.Permutation.
Import ListNotations.
Open Scope Z_scope.

(** ** Python runtime pieces used by the scripts *)
Module Py.

Definition bytes := list byte.

(** The exceptions the embedded code can raise. *)
Inductive exn : Type :=
| IndexError
| OverflowError
| ValueError
| SerialException.

(** A computation either raises or returns. *)
Definition M (A : Type) : Type := (exn + A)%type.

Definition ret {A} (a : A) : M A := inr a.
Definition raise {A} (e : exn) : M A := inl e.
Definition bind {A B} (m : M A) (k : A -> M B) : M B :=
  match m with
  | inl e => inl e
  | inr a => k a
  end.

(** [try: body except Exception: handler] *)
Definition try_except {A} (m : M A) (handler : exn -> A) : A :=
  match m with
  | inl e => handler e
  | inr a => a
  end.

(** The value of a byte as a Python [int]. *)
Definition byte_val (b : byte) : Z := Z.of_N (Byte.to_N b).

(** [n.to_bytes(1, "big")]: [OverflowError] outside 0..255. *)
Definition to_bytes1 (n : Z) : M bytes :=
  if (0 <=? n) && (n <? 256) then
    match Byte.of_N (Z.to_N n) with
    | Some b => ret [b]
    | None => raise OverflowError
    end
  else raise OverflowError.

(** [n.to_bytes(2, byteorder="little")]: [OverflowError] outside 0..65535. *)
Definition to_bytes2_le (n : Z) : M bytes :=
  if (0 <=? n) && (n <? 65536) then
    match Byte.of_N (Z.to_N (n mod 256)), Byte.of_N (Z.to_N (n / 256)) with
    | Some lo, Some hi => ret [lo; hi]
    | _, _ => raise OverflowError
    end
  else raise OverflowError.

(** [int.from_bytes(bs, "little")] *)
Fixpoint from_bytes_le (bs : bytes) : Z :=
  match bs with
  | [] => 0
  | b :: rest => byte_val b + 256 * from_bytes_le rest
  end.

(** [bs[i]] for a non-negative index: [IndexError] out of range. *)
Definition index (bs : bytes) (i : nat) : M Z :=
  match nth_error bs i with
  | Some b => ret (byte_val b)
  | None => raise IndexError
  end.

(** [bs[-1]] *)
Definition index_last (bs : bytes) : M Z :=
  match bs with
  | [] => raise IndexError
  | b :: rest => ret (byte_val (last rest b))
  end.

(** Slices never raise: [bs[a:b]], [bs[a:]], [bs[:-1]], [bs[a:-1]]. *)
Definition slice (a b : nat) (bs : bytes) : bytes := firstn (b - a) (skipn a bs).
Definition slice_from (a : nat) (bs : bytes) : bytes := skipn a bs.
Definition drop_last (bs : bytes) : bytes := removelast bs.
Definition slice_to_last (a : nat) (bs : bytes) : bytes := skipn a (removelast bs).

(** [len(bs)] as a Python [int]. *)
Definition len (bs : bytes) : Z := Z.of_nat (List.length bs).

Definition bytes_eqb (x y : bytes) : bool :=
  if list_eq_dec Byte.byte_eq_dec x y then true else false.

(** [bs.startswith(sub)] *)
Fixpoint starts_with (sub bs : bytes) : bool :=
  match sub, bs with
  | [], _ => true
  | _ :: _, [] => false
  | s :: sub', b :: bs' => Byte.eqb s b && starts_with sub' bs'
  end.

(** [bs.find(sub)]: position of the first occurrence, [None] for -1. *)
Fixpoint find (sub bs : bytes) : option nat :=
  if starts_with sub bs then Some 0%nat
  else match bs with
       | [] => None
       | _ :: bs' => option_map S (find sub bs')
       end.

(** [sub in bs] *)
Definition contains (sub bs : bytes) : bool :=
  match find sub bs with
  | Some _ => true
  | None => false
  end.

(** Truthiness of a bytes object. *)
Definition truthy (bs : bytes) : bool :=
  match bs with
  | [] => false
  | _ :: _ => true
  end.

(** *** Hexadecimal text *)

Definition hex_digit (upper : bool) (n : N) : ascii :=
  if (n <? 10)%N then ascii_of_N (48 + n)
  else ascii_of_N ((if upper then 55 else 87) + n).

Definition hex_of_byte (upper : bool) (b : byte) : string :=
  let n := Byte.to_N b in
  String (hex_digit upper (n / 16)%N) (String (hex_digit upper (n mod 16)%N) EmptyString).

(** [bs.hex()] (lower case) and [bs.hex().upper()]. *)
Fixpoint hex_with (upper : bool) (bs : bytes) : string :=
  match bs with
  | [] => EmptyString
  | b :: rest => (hex_of_byte upper b ++ hex_with upper rest)%string
  end.
Definition hex (bs : bytes) : string := hex_with false bs.
Definition hex_upper (bs : bytes) : string := hex_with true bs.

Definition hex_value (c : ascii) : option N :=
  let n := N_of_ascii c in
  if (48 <=? n)%N && (n <=? 57)%N then Some (n - 48)%N
  else if (65 <=? n)%N && (n <=? 70)%N then Some (n - 55)%N
  else if (97 <=? n)%N && (n <=? 102)%N then Some (n - 87)%N
  else None.

Definition is_space (c : ascii) : bool :=
  let n := N_of_ascii c in
  (n =? 32)%N || ((9 <=? n)%N && (n <=? 13)%N).

(** [bytes.fromhex(s)]: pairs of hex digits of either case, ASCII white
    space allowed between pairs, [ValueError] on anything else. *)
Fixpoint fromhex (s : string) : M bytes :=
  match s with
  | EmptyString => ret []
  | String c rest =>
      if is_space c then fromhex rest
      else
        match rest with
        | EmptyString => raise ValueError
        | String d rest' =>
            match hex_value c, hex_value d with
            | Some h, Some l =>
                match Byte.of_N (16 * h + l) with
                | Some b => bind (fromhex rest') (fun bs => ret (b :: bs))
                | None => raise ValueError
                end
            | _, _ => raise ValueError
            end
        end
  end.

(** [s.replace(" ", "")] *)
Fixpoint remove_spaces (s : string) : string :=
  match s with
  | EmptyString => EmptyString
  | String c rest =>
      if Ascii.eqb c " "%char then remove_spaces rest
      else String c (remove_spaces rest)
  end.

(** *** The serial port

    [rx] is the schedule of incoming data: its n-th element is what
    [ser.in_waiting] / [ser.read] deliver at the n-th poll of the port
    (an empty element: nothing waiting); after the schedule nothing more
    arrives.  A write hands at most [tx_room] bytes to the line, or raises
    when [tx_fault] is set. *)
Record Serial : Type := mkSerial {
  tx_fault : bool;
  tx_room : nat;
  outbox : bytes;
  rx : list bytes
}.

(** [ser.write(data)]: the number of bytes written. *)
Definition write (ser : Serial) (data : bytes) : M Z * Serial :=
  if tx_fault ser then (raise SerialException, ser)
  else
    let sent := firstn (tx_room ser) data in
    (ret (len sent),
     mkSerial (tx_fault ser) (tx_room ser) (outbox ser ++ sent) (rx ser)).

Definition set_rx (ser : Serial) (rx' : list bytes) : Serial :=
  mkSerial (tx_fault ser) (tx_room ser) (outbox ser) rx'.

End Py.

Notation "x <- m ;; k" := (Py.bind m (fun x => k))
(at level 61, m at next level, right associativity).

(** ** Read_Single_Sensor_Hand.py *)
Module Hand.
Import Py.

(** Protocol configuration *)
Definition AUTO_PUSH_REG : Z := 0x0017.
Definition AUTO_PUSH_FRAME_HEAD : bytes := [xaa; x56].
Definition VERSION_REG : Z := 0x0000.
Definition VERSION_DATA_LEN : Z := 0x000F.
(** Time-outs, in milliseconds (the script writes 1.0 and 0.05 seconds). *)
Definition TIMEOUT_CMD : nat := 1000.
Definition TIMEOUT_AUTO_PUSH : nat := 50.

Definition REQ_HEAD : bytes := [x55; xaa].
Definition RESP_HEAD_GENERAL : bytes := [xaa; x55].
Definition RESP_HEAD_AUTO_PUSH : bytes := [xaa; x56].
Definition RESERVED : bytes := [x00].
Definition FUNC_READ : Z := 0x03.
Definition FUNC_WRITE : Z := 0x10.

Definition CMD_EXAMPLE_AUTO_PUSH : string := "55AA00101700010001D8".
Definition CMD_EXAMPLE_VERSION : string := "55AA000300000F00EF".

(** *** send_hex_cmd *)
Definition send_hex_cmd (ser : Serial) (hex_cmd : string) : bool * Serial :=
  match fromhex hex_cmd with
  | inl _ => (false, ser)
  | inr cmd_bytes =>
      let '(sent, ser') := write ser cmd_bytes in
      match sent with
      | inl _ => (false, ser')
      | inr sent_len =>
          if negb (sent_len =? len cmd_bytes) then (false, ser')
          else (true, ser')
      end
  end.

(** *** read_serial_data

    The clock is counted in milliseconds and advances only by the
    script's own [time.sleep] calls: 1 ms per idle poll, 5 ms + 1 ms after
    a chunk that did not complete the expected head (where [start_time] is
    reset first). *)
Definition POLL_MS : nat := 1.
Definition SETTLE_MS : nat := 5.

(** [expected_head and expected_head in recv_data] *)
Definition head_seen (expected_head : option bytes) (recv_data : bytes) : bool :=
  match expected_head with
  | None => false
  | Some h => truthy h && contains h recv_data
  end.

(** [recv_data[recv_data.find(expected_head):]] *)
Definition from_head (expected_head : option bytes) (recv_data : bytes) : bytes :=
  match expected_head with
  | None => recv_data
  | Some h =>
      match find h recv_data with
      | Some head_pos => slice_from head_pos recv_data
      | None => recv_data
      end
  end.

(** The [while] loop.  [elapsed] is [time.time() - start_time] at the loop
    test, [polls] counts the iterations run so far.  Once the schedule is
    used up every further iteration is an idle poll, so the loop runs
    [timeout - elapsed] more times and leaves [recv_data] as it is. *)
Fixpoint read_loop (timeout : nat) (expected_head : option bytes)
    (elapsed : nat) (recv_data : bytes) (polls : nat) (sched : list bytes)
    : bytes * nat * list bytes :=
  if (elapsed <? timeout)%nat then
    match sched with
    | [] => (recv_data, (polls + (timeout - elapsed))%nat, [])
    | chunk :: sched' =>
        if truthy chunk then
          let recv_data' := recv_data ++ chunk in
          if head_seen expected_head recv_data' then
            (from_head expected_head recv_data', S polls, sched')
          else
            read_loop timeout expected_head (SETTLE_MS + POLL_MS)%nat
              recv_data' (S polls) sched'
        else
          read_loop timeout expected_head (elapsed + POLL_MS)%nat
            recv_data (S polls) sched'
    end
  else (recv_data, polls, sched).

Record read_outcome : Type := mkRead {
  rd_data : option bytes;
  rd_polls : nat;
  rd_serial : Serial
}.

Definition read_serial_data (ser : Serial) (timeout : nat)
    (expected_head : option bytes) : read_outcome :=
  let '(recv_data, polls, sched') :=
    read_loop timeout expected_head 0 [] 0 (rx ser) in
  mkRead (if truthy recv_data then Some recv_data else None)
         polls (set_rx ser sched').

(** *** calc_lrc

    Nothing in the body can raise, so the handler returning 0 is dead. *)
Definition calc_lrc_body (data : bytes) : M Z :=
  let lrc_sum := fold_left (fun lrc_sum b => Z.land (lrc_sum + byte_val b) 0xFF) data 0 in
  let lrc := Z.land (Z.lnot lrc_sum + 1) 0xFF in
  ret lrc.

Definition calc_lrc (data : bytes) : Z :=
  try_except (calc_lrc_body data) (fun _ => 0).

(** *** build_request_frame

    [request_frame_bytes] is the script's [full_frame]; the comparison
    with the two example commands only logs a warning. *)
Definition request_frame_bytes (func_code reg_addr data_len : Z)
    (write_data : bytes) : M bytes :=
  reg_addr_bytes <- to_bytes2_le reg_addr ;;
  data_len_bytes <- to_bytes2_le data_len ;;
  func_byte <- to_bytes1 func_code ;;
  let frame_without_lrc :=
    REQ_HEAD ++ RESERVED ++ func_byte ++ reg_addr_bytes ++ data_len_bytes ++ write_data in
  lrc <- to_bytes1 (calc_lrc frame_without_lrc) ;;
  ret (frame_without_lrc ++ lrc).

Definition build_request_frame (func_code reg_addr data_len : Z)
    (write_data : bytes) : option string :=
  try_except
    (full_frame <- request_frame_bytes func_code reg_addr data_len write_data ;;
     ret (Some (hex_upper full_frame)))
    (fun _ => None).

(** *** parse_response

    The script returns [None] on every failure; the tag records which
    [logger.error] precedes that [return None]. *)
Inductive parse_failure : Type :=
| FrameTooShort                 (* "响应帧过短" / "自动回传响应帧过短" *)
| BadHead                       (* "帧头不匹配" / "自动回传响应帧头错误" *)
| UnknownFunction               (* "无效功能码" *)
| ParseException (e : exn).     (* the [except Exception] handler *)

Record parsed : Type := mkParsed {
  is_error : bool;
  reserved : Z;
  func_code : Z;
  reg_addr : Z;
  data_len : Z;
  actual_data_len : Z;
  data : bytes;
  lrc_valid : bool;
  lrc_calc : Z;
  lrc_recv : Z;
  error_code : option Z         (* the key exists only in an error response *)
}.

Definition parse_result : Type := (parse_failure + parsed)%type.

(** What the Python caller receives. *)
Definition returned {A} (r : parse_failure + A) : option A :=
  match r with
  | inl _ => None
  | inr p => Some p
  end.

(** The "提取有效数据" step. *)
Definition extract_data (response : bytes) (data_len : Z) : bytes :=
  if (data_len >? 0) && (len response >=? 8 + data_len + 1) then
    slice 8 (8 + Z.to_nat data_len) response
  else if data_len >? 0 then
    (if len response >? 8 then slice_to_last 8 response else [])
  else [].

(** The "LRC校验" step: the new [lrc_calc] and [lrc_valid]. *)
Definition verify_lrc (response : bytes) (lrc_recv : Z) : Z * bool :=
  if len response >=? 9 then
    let lrc_calc := calc_lrc (drop_last response) in
    (lrc_calc, lrc_calc =? lrc_recv)
  else (0, false).

(** From "错误响应处理" to the final [return parsed], given the three
    indexed reads of the dict literal. *)
Definition decode (response : bytes) (reserved func_code lrc_recv : Z)
    : parse_result :=
  let reg_addr := from_bytes_le (slice 4 6 response) in
  let data_len := from_bytes_le (slice 6 8 response) in
  let actual_data_len := if len response >? 8 then len response - 9 else 0 in
  if negb (Z.land func_code 0x80 =? 0) then
    inr (mkParsed true reserved func_code reg_addr data_len actual_data_len
           [] false 0 lrc_recv (Some (Z.land func_code 0x7F)))
  else if negb ((func_code =? FUNC_READ) || (func_code =? FUNC_WRITE)) then
    inl UnknownFunction
  else
    let data := extract_data response data_len in
    let '(lrc_calc, lrc_valid) := verify_lrc response lrc_recv in
    inr (mkParsed false reserved func_code reg_addr data_len actual_data_len
           data lrc_valid lrc_calc lrc_recv None).

Definition parse_response_body (response : bytes) : M parse_result :=
  if len response <? 8 then ret (inl FrameTooShort)
  else if negb (bytes_eqb (slice 0 2 response) RESP_HEAD_GENERAL) then ret (inl BadHead)
  else
    reserved <- index response 2 ;;
    func_code <- index response 3 ;;
    lrc_recv <- (if len response >=? 9 then index_last response else ret 0) ;;
    ret (decode response reserved func_code lrc_recv).

Definition parse_response (response : bytes) : parse_result :=
  try_except (parse_response_body response) (fun e => inl (ParseException e)).

(** *** parse_auto_response *)
Record auto_parsed : Type := mkAuto {
  head : string;
  a_reserved : Z;
  valid_frame_len : Z;
  a_error_code : Z;
  valid_data : bytes;
  valid_data_len : Z;
  a_lrc_valid : bool;
  a_lrc_calc : Z;
  a_lrc_recv : Z
}.

Definition parse_auto_response_body (response : bytes) : M (parse_failure + auto_parsed) :=
  if len response <? 7 then ret (inl FrameTooShort)
  else if negb (bytes_eqb (slice 0 2 response) RESP_HEAD_AUTO_PUSH) then ret (inl BadHead)
  else
    let head := hex (slice 0 2 response) in
    reserved <- index response 2 ;;
    let valid_frame_len := from_bytes_le (slice 3 5 response) in
    error_code <- index response 5 ;;
    lrc_recv <- (if len response >=? 7 then index_last response else ret 0) ;;
    let valid_data_len := valid_frame_len - 1 in
    let valid_data :=
      if valid_data_len >? 0 then
        let data_end_pos := 6 + valid_data_len in
        if data_end_pos <=? len response - 1 then slice 6 (Z.to_nat data_end_pos) response
        else slice_to_last 6 response
      else [] in
    let '(lrc_calc, lrc_valid) :=
      if len response >=? 6 + valid_data_len + 1 then
        let c := calc_lrc (drop_last response) in (c, c =? lrc_recv)
      else (0, false) in
    ret (inr (mkAuto head reserved valid_frame_len error_code valid_data
                valid_data_len lrc_valid lrc_calc lrc_recv)).

Definition parse_auto_response (response : bytes) : parse_failure + auto_parsed :=
  try_except (parse_auto_response_body response) (fun e => inl (ParseException e)).

(** *** read_register and write_register

    Both return [None] / [False] on every failure; the tag records the
    branch taken. *)
Inductive access_failure : Type :=
| InvalidLength                       (* "无效读取长度" / "无效写入长度" *)
| BuildFailed                         (* "构建读请求失败" / "构建写请求失败" *)
| SendFailed                          (* "发送读请求失败" / "发送写请求失败" *)
| NoResponse                          (* "未收到读响应" / "未收到写响应" *)
| ProtocolError (f : parse_failure)   (* [not parsed] *)
| DeviceError (code : option Z)       (* [parsed["is_error"]] *)
| WrongFunction (fc : Z)              (* [parsed["func_code"] != FUNC_...] *)
| WriteRejected (status : Z).         (* non-zero status or error code *)

Definition string_truthy (s : string) : bool :=
  match s with
  | EmptyString => false
  | String _ _ => true
  end.

Definition read_register (ser : Serial) (reg_addr read_len : Z)
    : (access_failure + bytes) * Serial :=
  if negb ((1 <=? read_len) && (read_len <=? 512)) then (inl InvalidLength, ser)
  else
    match build_request_frame FUNC_READ reg_addr read_len [] with
    | None => (inl BuildFailed, ser)
    | Some read_frame =>
        if negb (string_truthy read_frame) then (inl BuildFailed, ser)
        else
          let '(sent, ser1) := send_hex_cmd ser read_frame in
          if negb sent then (inl SendFailed, ser1)
          else
            let rd := read_serial_data ser1 TIMEOUT_CMD (Some RESP_HEAD_GENERAL) in
            match rd_data rd with
            | None => (inl NoResponse, rd_serial rd)
            | Some response =>
                match parse_response response with
                | inl f => (inl (ProtocolError f), rd_serial rd)
                | inr p =>
                    if is_error p then (inl (DeviceError (error_code p)), rd_serial rd)
                    else if negb (func_code p =? FUNC_READ) then
                      (inl (WrongFunction (func_code p)), rd_serial rd)
                    else (inr (data p), rd_serial rd)
                end
            end
    end.

Definition write_register (ser : Serial) (reg_addr : Z) (write_data : bytes)
    (is_auto_push : bool) : (access_failure + unit) * Serial :=
  let write_len := len write_data in
  if negb ((1 <=? write_len) && (write_len <=? 10)) then (inl InvalidLength, ser)
  else
    match build_request_frame FUNC_WRITE reg_addr write_len write_data with
    | None => (inl BuildFailed, ser)
    | Some write_frame =>
        if negb (string_truthy write_frame) then (inl BuildFailed, ser)
        else
          let '(sent, ser1) := send_hex_cmd ser write_frame in
          if negb sent then (inl SendFailed, ser1)
          else
            let expected_head :=
              if is_auto_push then RESP_HEAD_AUTO_PUSH else RESP_HEAD_GENERAL in
            let rd := read_serial_data ser1 TIMEOUT_CMD (Some expected_head) in
            match rd_data rd with
            | None => (inl NoResponse, rd_serial rd)
            | Some response =>
                if is_auto_push then
                  match parse_auto_response response with
                  | inl f => (inl (ProtocolError f), rd_serial rd)
                  | inr p =>
                      if negb (a_error_code p =? 0) then
                        (inl (WriteRejected (a_error_code p)), rd_serial rd)
                      else (inr tt, rd_serial rd)
                  end
                else
                  match parse_response response with
                  | inl f => (inl (ProtocolError f), rd_serial rd)
                  | inr p =>
                      if is_error p then (inl (DeviceError (error_code p)), rd_serial rd)
                      else if negb (func_code p =? FUNC_WRITE) then
                        (inl (WrongFunction (func_code p)), rd_serial rd)
                      else if (len (data p) >? 0)
                              && negb (from_bytes_le (data p) =? 0) then
                        (inl (WriteRejected (from_bytes_le (data p))), rd_serial rd)
                      else (inr tt, rd_serial rd)
                  end
            end
    end.

(** The values the Python callers see. *)
Definition read_value (r : access_failure + bytes) : option bytes :=
  match r with
  | inl _ => None
  | inr d => Some d
  end.

Definition write_value (r : access_failure + unit) : bool :=
  match r with
  | inl _ => false
  | inr _ => true
  end.

(** *** disable_auto_push and enable_auto_push

    The disable command is sent without waiting for an answer; the 0.1 s
    sleep that follows a successful send leaves the port as it is. *)
Definition disable_auto_push (ser : Serial) : bool * Serial :=
  match build_request_frame FUNC_WRITE AUTO_PUSH_REG 1 [x00] with
  | None => (false, ser)
  | Some disable_cmd =>
      if negb (string_truthy disable_cmd) then (false, ser)
      else
        let '(sent, ser') := send_hex_cmd ser disable_cmd in
        if sent then (true, ser') else (false, ser')
  end.

Definition enable_auto_push (ser : Serial) : (access_failure + unit) * Serial :=
  write_register ser AUTO_PUSH_REG [x01] true.

(** *** parse_auto_push_data *)
Record push_parsed : Type := mkPush {
  p_head : string;
  p_reserved : Z;
  p_valid_frame_len : Z;
  p_error_code : Z;
  p_valid_data : bytes;
  p_valid_data_len : Z;
  p_expected_data_len : Z;
  p_length_match : bool;
  p_lrc_valid : bool;
  p_lrc_calc : Z;
  p_lrc_recv : Z
}.

Definition parse_auto_push_data_body (data : bytes) (expected_length : Z)
    : M (parse_failure + push_parsed) :=
  if len data <? 7 then ret (inl FrameTooShort)
  else if negb (bytes_eqb (slice 0 2 data) AUTO_PUSH_FRAME_HEAD) then ret (inl BadHead)
  else
    let head := hex (slice 0 2 data) in
    reserved <- index data 2 ;;
    let valid_frame_len := from_bytes_le (slice 3 5 data) in
    error_code <- index data 5 ;;
    lrc_recv <- (if len data >=? 7 then index_last data else ret 0) ;;
    let valid_data_len := valid_frame_len - 1 in
    let valid_data :=
      if valid_data_len >? 0 then
        let data_end_pos := 6 + valid_data_len in
        if data_end_pos <=? len data - 1 then slice 6 (Z.to_nat data_end_pos) data
        else slice_to_last 6 data
      else [] in
    let length_match :=
      if expected_length >? 0 then valid_data_len =? expected_length else false in
    let '(lrc_calc, lrc_valid) :=
      if len data >=? 6 + valid_data_len + 1 then
        let c := calc_lrc (drop_last data) in (c, c =? lrc_recv)
      else (0, false) in
    ret (inr (mkPush head reserved valid_frame_len error_code valid_data
                valid_data_len expected_length length_match
                lrc_valid lrc_calc lrc_recv)).

Definition parse_auto_push_data (data : bytes) (expected_length : Z)
    : parse_failure + push_parsed :=
  try_except (parse_auto_push_data_body data expected_length)
             (fun e => inl (ParseException e)).

(** *** get_device_version

    A Python [str] is held as its UTF-8 bytes.  Decoding with
    [errors="ignore"] drops every byte above 0x7F and cannot raise, so the
    bare [except] of the script is dead. *)
Definition decode_ascii_ignore (bs : bytes) : string :=
  string_of_list_ascii
    (map (fun b => ascii_of_N (Byte.to_N b))
         (filter (fun b => (Byte.to_N b <? 128)%N) bs)).

(** [str.isspace] on a character below 128. *)
Definition isspace (c : ascii) : bool :=
  let n := N_of_ascii c in
  ((9 <=? n)%N && (n <=? 13)%N) || ((28 <=? n)%N && (n <=? 32)%N).

Fixpoint lstrip (cs : list ascii) : list ascii :=
  match cs with
  | [] => []
  | c :: rest => if isspace c then lstrip rest else cs
  end.

(** [s.strip()] *)
Definition strip (s : string) : string :=
  string_of_list_ascii (rev (lstrip (rev (lstrip (list_ascii_of_string s))))).

Definition get_device_version (ser : Serial) : option string * Serial :=
  let '(r, ser') := read_register ser VERSION_REG VERSION_DATA_LEN in
  match read_value r with
  | Some version_data =>
      if truthy version_data then
        let ascii_version := strip (decode_ascii_ignore version_data) in
        (Some ("ASCII: " ++ ascii_version ++ " | 16进制: "
               ++ hex_upper version_data)%string, ser')
      else (None, ser')
  | None => (None, ser')
  end.

End Hand.

(** ** Read_Single_Sensor_Usb.py *)
Module Usb.
Import Py.

(** *** send_hex_data: the number of bytes written is only logged. *)
Definition send_hex_data (ser : Serial) (hex_data : string) : bool * Serial :=
  match fromhex hex_data with
  | inl _ => (false, ser)
  | inr data_bytes =>
      let '(sent, ser') := write ser data_bytes in
      match sent with
      | inl _ => (false, ser')
      | inr _ => (true, ser')
      end
  end.

(** *** read_serial_response

    Same clock as in the Hand script; the loop is entered after an
    initial 100 ms sleep taken after [start_time] was read. *)
Fixpoint response_loop (timeout elapsed : nat) (response : bytes)
    (sched : list bytes) : bytes * list bytes :=
  if (elapsed <? timeout)%nat then
    match sched with
    | [] => (response, [])
    | chunk :: sched' =>
        if truthy chunk then response_loop timeout 6 (response ++ chunk) sched'
        else response_loop timeout (elapsed + 1) response sched'
    end
  else (response, sched).

Definition read_serial_response (ser : Serial) (timeout : nat)
    : option bytes * Serial :=
  let '(response, sched') := response_loop timeout 100 [] (rx ser) in
  (if truthy response then Some response else None, set_rx ser sched').

(** [ser.read_all()]: whatever is waiting at this poll. *)
Definition read_all (ser : Serial) : bytes * Serial :=
  match rx ser with
  | [] => ([], ser)
  | chunk :: sched' => (chunk, set_rx ser sched')
  end.

(** *** calculate_lrc *)
Definition calculate_lrc (data : bytes) : Z :=
  let lrc := fold_left (fun lrc b => Z.land (lrc + byte_val b) 0xFF) data 0 in
  Z.land (Z.lnot lrc + 1) 0xFF.

(** [f"{n:02X}"] for a non-negative [n] (an LRC is masked with 0xFF). *)
Fixpoint hex_digits (fuel : nat) (n : N) (acc : string) : string :=
  match fuel with
  | O => acc
  | S fuel' =>
      let acc' := String (hex_digit true (n mod 16)%N) acc in
      if (n / 16 =? 0)%N then acc' else hex_digits fuel' (n / 16)%N acc'
  end.

Definition format_02X (n : Z) : string :=
  let s := hex_digits (S (N.size_nat (Z.to_N n))) (Z.to_N n) EmptyString in
  if (String.length s <? 2)%nat then String "0"%char s else s.

(** *** get_ser_response *)
Record config : Type := mkConfig {
  fixed_fields : string;
  sleep : nat;             (* milliseconds *)
  parse : string
}.

Definition command_config : list (string * config) :=
  [ ("get_data"%string, mkConfig "03 00 FB 0E 04 00 00" 200 "hex");
    ("get_resultant_data"%string, mkConfig "03 00 FB F0 03 00 00" 200 "force") ].

Fixpoint lookup (command : string) (table : list (string * config)) : option config :=
  match table with
  | [] => None
  | (k, v) :: rest => if String.eqb k command then Some v else lookup command rest
  end.

(** Where the function stopped; the last one is the fall-through after
    [data_field] has been cut out. *)
Inductive stop : Type :=
| UnknownCommand
| BadDataLength
| RequestLrcError
| SendFailed
| NoReply
| HeadMismatch
| LengthShort
| LrcMismatch
| StatusError
| StatusIndexError
| ZeroReturnLen
| DataOverrun
| Extracted (data_field : bytes).

(** The request frame as text, as assembled between "构建请求帧" and
    [full_req_frame]; [None] for the caught [ValueError]. *)
Definition full_req_frame (fixed : string) (data_length : Z) : M (option string) :=
  read_len <- to_bytes2_le data_length ;;
  let read_len_hex := hex read_len in
  let data4_to_12 := (fixed ++ read_len_hex)%string in
  body <- fromhex data4_to_12 ;;
  length_bytes <- to_bytes2_le (len body) ;;
  let length_hex := hex length_bytes in
  let req_frame_without_lrc := ("55AA" ++ length_hex ++ data4_to_12)%string in
  match fromhex req_frame_without_lrc with
  | inl _ => ret None
  | inr req_bytes_without_lrc =>
      let lrc_hex := format_02X (calculate_lrc req_bytes_without_lrc) in
      ret (Some (req_frame_without_lrc ++ lrc_hex)%string)
  end.

(** The checks made on the received frame, from "验证帧头" to the end of
    the function.  Each result pairs the place where the function stopped
    with the value its [return] statement carries. *)
Definition check_response (response : bytes) : M (stop * option string) :=
  let resp_len := len response in
  if negb (bytes_eqb (slice 0 2 response) [xaa; x55]) then ret (HeadMismatch, None)
  else
    let resp_length_val := from_bytes_le (slice 2 4 response) in
    let lrc_pos := 4 + resp_length_val in
    if lrc_pos >=? resp_len then ret (LengthShort, None)
    else
      let resp_lrc_calc := calculate_lrc (slice 0 (Z.to_nat lrc_pos) response) in
      resp_lrc_actual <- index response (Z.to_nat lrc_pos) ;;
      if negb (resp_lrc_calc =? resp_lrc_actual) then ret (LrcMismatch, None)
      else
        match index response 13 with
        | inl _ => ret (StatusIndexError, None)
        | inr status =>
            if negb (status =? 0) then ret (StatusError, None)
            else
              let return_len := from_bytes_le (slice 11 13 response) in
              if return_len <=? 0 then ret (ZeroReturnLen, None)
              else
                let data_start := 14%nat in
                let data_end := 14 + return_len in
                if data_end >? resp_len then ret (DataOverrun, None)
                else
                  let data_field := slice data_start (Z.to_nat data_end) response in
                  ret (Extracted data_field, None)
        end.

Definition get_ser_response (ser : Serial) (command : string) (data_length : Z)
    : M (stop * option string) * Serial :=
  match lookup command command_config with
  | None => (ret (UnknownCommand, None), ser)
  | Some config =>
      let fixed := remove_spaces (fixed_fields config) in
      if data_length <=? 0 then (ret (BadDataLength, None), ser)
      else
        match full_req_frame fixed data_length with
        | inl e => (raise e, ser)
        | inr None => (ret (RequestLrcError, None), ser)
        | inr (Some frame) =>
            let '(sent, ser1) := send_hex_data ser frame in
            if negb sent then (ret (SendFailed, None), ser1)
            else
              let '(got, ser2) := read_serial_response ser1 500 in
              match got with
              | None => (ret (NoReply, None), ser2)
              | Some response =>
                  let '(response', ser3) :=
                    if len response <? 18 then
                      let '(more, s) := read_all ser2 in (response ++ more, s)
                    else (response, ser2) in
                  (check_response response', ser3)
              end
        end
  end.

End Usb.

(** ** Reference notions taken from the protocol description *)
Module Protocol.
Import Py.

(** The plain sum of the bytes of a sequence. *)
Definition byte_sum (bs : bytes) : Z :=
  fold_right (fun b s => byte_val b + s) 0 bs.

(** The checksum as the description words it. *)
Definition lrc (bs : bytes) : Z := (- byte_sum bs) mod 256.

(** Checksum validity in the description's words: the LRC of the declared
    frame extent, [8 + data_len] bytes, against the byte that follows it. *)
Definition declared_lrc_offset (response : bytes) : nat :=
  (8 + Z.to_nat (from_bytes_le (slice 6 8 response)))%nat.

Definition lrc_valid_declared (response : bytes) : bool :=
  match nth_error response (declared_lrc_offset response) with
  | Some c => lrc (firstn (declared_lrc_offset response) response) =? byte_val c
  | None => false
  end.

(** The loop test of [read_serial_data] still passes at poll number [k]
    (counted from 0) of a schedule, for a loop that has not been left
    through [break] before: no silence has used up the time-out. *)
Fixpoint poll_reached (timeout elapsed : nat) (sched : list bytes) (k : nat) : bool :=
  match k with
  | O => (elapsed <? timeout)%nat
  | S k' =>
      (elapsed <? timeout)%nat
      && match sched with
         | [] => poll_reached timeout (elapsed + Hand.POLL_MS) [] k'
         | chunk :: sched' =>
             poll_reached timeout
               (if truthy chunk then Hand.SETTLE_MS + Hand.POLL_MS
                else elapsed + Hand.POLL_MS)%nat
               sched' k'
         end
  end.

(** The receive buffer after polls 0..k of a schedule. *)
Definition accumulated (sched : list bytes) (k : nat) : bytes :=
  List.concat (firstn (S k) sched).

(** A register address fits 16 bits. *)
Definition is_reg_addr (a : Z) : Prop := 0 <= a < 65536.

End Protocol.

(** ** Concrete frames and ports used to exercise the statements *)
Module Samples.
Import Py.

(** An error response: function byte 0x83. *)
Definition error_response : bytes :=
  [xaa; x55; x00; x83; x00; x00; x0f; x00; x01; x02].

(** A complete read response carrying one payload byte and its LRC. *)
Definition read_response : bytes :=
  [xaa; x55; x00; x03; x00; x00; x01; x00; x42; xbb].

(** The header of a read response with no payload, checksum not yet added. *)
Definition response_header : bytes :=
  [xaa; x55; x00; x03; x00; x00; x00; x00].

Definition short_buffer : bytes := [xaa; x55; x00].

(** A port on which [read_response] is waiting. *)
Definition answering_port : Serial := mkSerial false 64 [] [read_response].

(** A port that is silent at the first poll, then delivers a stray byte
    and the head split over two chunks. *)
Definition trickling_port : Serial :=
  mkSerial false 64 [] [[]; [x01; xaa]; [x55; x02]; [x03]].

Definition silent_port : Serial := mkSerial false 64 [] [].

End Samples.

(** * Properties *)

(** ** Bytes and integers *)
Section PyFacts.
Import Py.

Lemma byte_val_range (b : byte) : 0 <= byte_val b < 256.
Proof.
  unfold byte_val. pose proof (Byte.to_N_bounded b). lia.
Qed.

Lemma land_255 (x : Z) : Z.land x 0xFF = x mod 256.
Proof.
  change 0xFF with (Z.ones 8). rewrite Z.land_ones by lia. reflexivity.
Qed.

Lemma lnot_succ (x : Z) : Z.lnot x + 1 = - x.
Proof. unfold Z.lnot. lia. Qed.

Lemma opp_mod_idemp (x : Z) : (- (x mod 256)) mod 256 = (- x) mod 256.
Proof.
  change (- (x mod 256)) with (0 - x mod 256).
  rewrite Zminus_mod_idemp_r. reflexivity.
Qed.

(** Every value in 0..255 is the value of exactly one byte. *)
Lemma to_bytes1_ok (n : Z) :
  0 <= n < 256 -> exists b, to_bytes1 n = ret [b] /\ byte_val b = n.
Proof.
  intros Hn. unfold to_bytes1.
  replace ((0 <=? n) && (n <? 256)) with true
    by (symmetry; apply andb_true_iff; split; [apply Z.leb_le | apply Z.ltb_lt]; lia).
  destruct (Byte.of_N (Z.to_N n)) as [b|] eqn:E.
  - exists b. split; [reflexivity|].
    apply Byte.to_of_N in E. unfold byte_val. rewrite E. lia.
  - apply Byte.of_N_None_iff in E. lia.
Qed.

Lemma to_bytes2_le_ok (n : Z) :
  0 <= n < 65536 ->
  exists lo hi, to_bytes2_le n = ret [lo; hi]
             /\ byte_val lo = n mod 256 /\ byte_val hi = n / 256.
Proof.
  intros Hn. unfold to_bytes2_le.
  replace ((0 <=? n) && (n <? 65536)) with true
    by (symmetry; apply andb_true_iff; split; [apply Z.leb_le | apply Z.ltb_lt]; lia).
  assert (0 <= n mod 256 < 256) by (apply Z.mod_pos_bound; lia).
  assert (0 <= n / 256 < 256)
    by (split; [apply Z.div_pos | apply Z.div_lt_upper_bound]; lia).
  destruct (Byte.of_N (Z.to_N (n mod 256))) as [lo|] eqn:El;
    [| apply Byte.of_N_None_iff in El; lia].
  destruct (Byte.of_N (Z.to_N (n / 256))) as [hi|] eqn:Eh;
    [| apply Byte.of_N_None_iff in Eh; lia].
  exists lo, hi. split; [reflexivity|].
  apply Byte.to_of_N in El, Eh. unfold byte_val. rewrite El, Eh. lia.
Qed.

Lemma to_bytes2_le_fails (n : Z) :
  ~ 0 <= n < 65536 -> to_bytes2_le n = raise OverflowError.
Proof.
  intros Hn. unfold to_bytes2_le.
  destruct ((0 <=? n) && (n <? 65536)) eqn:E; [|reflexivity].
  apply andb_true_iff in E as [H1 H2].
  apply Z.leb_le in H1. apply Z.ltb_lt in H2. lia.
Qed.

Lemma geb_true (a b : Z) : b <= a -> (a >=? b) = true.
Proof. intros H. rewrite Z.geb_leb. apply Z.leb_le. exact H. Qed.

Lemma geb_false (a b : Z) : a < b -> (a >=? b) = false.
Proof. intros H. rewrite Z.geb_leb. apply Z.leb_gt. exact H. Qed.

Lemma len_app (x y : bytes) : len (x ++ y) = len x + len y.
Proof. unfold len. rewrite length_app. lia. Qed.

Lemma len_nonneg (x : bytes) : 0 <= len x.
Proof. unfold len. lia. Qed.

Lemma drop_last_snoc (bs : bytes) (c : byte) : drop_last (bs ++ [c]) = bs.
Proof. apply removelast_last. Qed.

Lemma index_last_snoc (bs : bytes) (c : byte) :
  index_last (bs ++ [c]) = ret (byte_val c).
Proof.
  destruct bs as [|b t]; [reflexivity|].
  cbn [app index_last]. now rewrite last_last.
Qed.

End PyFacts.

(** ** The checksum unit *)
Section Checksum.
Import Py Protocol.

Lemma lrc_accumulate (data : bytes) :
  forall acc, 0 <= acc < 256 ->
    fold_left (fun s b => Z.land (s + byte_val b) 0xFF) data acc
    = (acc + byte_sum data) mod 256.
Proof.
  induction data as [|b data IH]; intros acc Hacc; cbn [fold_left byte_sum fold_right].
  - rewrite Z.add_0_r, Z.mod_small; lia.
  - rewrite IH by (rewrite land_255; apply Z.mod_pos_bound; lia).
    rewrite land_255, Zplus_mod_idemp_l. f_equal.
    fold (byte_sum data). lia.
Qed.

Lemma calc_lrc_body_eq (data : bytes) : Hand.calc_lrc_body data = ret (lrc data).
Proof.
  unfold Hand.calc_lrc_body, lrc.
  rewrite lrc_accumulate by lia.
  rewrite lnot_succ, land_255, Z.add_0_l, opp_mod_idemp. reflexivity.
Qed.

Lemma calc_lrc_eq (data : bytes) : Hand.calc_lrc data = lrc data.
Proof. unfold Hand.calc_lrc. now rewrite calc_lrc_body_eq. Qed.

Lemma calculate_lrc_eq (data : bytes) : Usb.calculate_lrc data = lrc data.
Proof.
  unfold Usb.calculate_lrc, lrc.
  rewrite lrc_accumulate by lia.
  rewrite lnot_succ, land_255, Z.add_0_l, opp_mod_idemp. reflexivity.
Qed.

Lemma lrc_range (data : bytes) : 0 <= lrc data < 256.
Proof. unfold lrc. apply Z.mod_pos_bound. lia. Qed.

(** The checksum always fits the one byte the builder appends. *)
Lemma calc_lrc_byte (data : bytes) :
  exists c, to_bytes1 (Hand.calc_lrc data) = ret [c] /\ byte_val c = Hand.calc_lrc data.
Proof.
  apply to_bytes1_ok. rewrite calc_lrc_eq. apply lrc_range.
Qed.

(** C1: for every byte sequence the checksum of either script is
    [(-(sum of the bytes)) mod 256], the two's-complement negation of the
    8-bit wraparound sum; it lies in 0..255, the body never raises, and
    [calc_lrc] and [calculate_lrc] agree. *)
Theorem lrc_is_negated_byte_sum (b : bytes) :
  Hand.calc_lrc_body b = ret ((- byte_sum b) mod 256)
  /\ Hand.calc_lrc b = (- byte_sum b) mod 256
  /\ Usb.calculate_lrc b = (- byte_sum b) mod 256
  /\ Hand.calc_lrc b = (- (byte_sum b mod 256)) mod 256
  /\ 0 <= Hand.calc_lrc b <= 255
  /\ Hand.calc_lrc b = Usb.calculate_lrc b.
Proof.
  pose proof (lrc_range b) as Hr. unfold lrc in Hr.
  split; [apply calc_lrc_body_eq|].
  split; [apply calc_lrc_eq|].
  split; [apply calculate_lrc_eq|].
  split; [rewrite calc_lrc_eq, opp_mod_idemp; reflexivity|].
  split; [rewrite calc_lrc_eq; unfold lrc; lia|].
  now rewrite calc_lrc_eq, calculate_lrc_eq.
Qed.

End Checksum.

(** ** The frame builder *)
Section Builder.
Import Py Protocol.

(** C3: the builder reproduces the two reference commands, as text and
    as the bytes put on the line. *)
Theorem build_request_frame_examples :
  Hand.build_request_frame Hand.FUNC_WRITE 0x0017 1 [x01]
    = Some "55AA00101700010001D8"%string
  /\ Hand.request_frame_bytes Hand.FUNC_WRITE 0x0017 1 [x01]
    = ret [x55; xaa; x00; x10; x17; x00; x01; x00; x01; xd8]
  /\ Hand.build_request_frame Hand.FUNC_READ 0x0000 15 []
    = Some "55AA000300000F00EF"%string
  /\ Hand.request_frame_bytes Hand.FUNC_READ 0x0000 15 []
    = ret [x55; xaa; x00; x03; x00; x00; x0f; x00; xef]
  /\ fromhex "55AA00101700010001D8"
    = ret [x55; xaa; x00; x10; x17; x00; x01; x00; x01; xd8]
  /\ fromhex "55AA000300000F00EF"
    = ret [x55; xaa; x00; x03; x00; x00; x0f; x00; xef].
Proof. repeat split; vm_compute; reflexivity. Qed.

(** What the builder returns whenever its three integer arguments fit
    their fields. *)
Lemma request_frame_bytes_ok (fc reg dl : Z) (wd : bytes) :
  0 <= fc < 256 -> 0 <= reg < 65536 -> 0 <= dl < 65536 ->
  exists f r0 r1 d0 d1 c,
    Hand.request_frame_bytes fc reg dl wd
      = ret ((x55 :: xaa :: x00 :: f :: r0 :: r1 :: d0 :: d1 :: wd) ++ [c])
    /\ byte_val f = fc
    /\ byte_val r0 + 256 * byte_val r1 = reg
    /\ byte_val d0 + 256 * byte_val d1 = dl
    /\ byte_val c = Hand.calc_lrc (x55 :: xaa :: x00 :: f :: r0 :: r1 :: d0 :: d1 :: wd).
Proof.
  intros Hfc Hreg Hdl. unfold Hand.request_frame_bytes.
  destruct (to_bytes2_le_ok reg Hreg) as (r0 & r1 & -> & Hr0 & Hr1).
  destruct (to_bytes2_le_ok dl Hdl) as (d0 & d1 & -> & Hd0 & Hd1).
  destruct (to_bytes1_ok fc Hfc) as (f & -> & Hf).
  cbn [bind ret Hand.REQ_HEAD Hand.RESERVED app].
  destruct (calc_lrc_byte (x55 :: xaa :: x00 :: f :: r0 :: r1 :: d0 :: d1 :: wd))
    as (c & -> & Hc).
  exists f, r0, r1, d0, d1, c. cbn [bind ret].
  repeat split; auto.
  - rewrite Hr0, Hr1. pose proof (Z.div_mod reg 256). lia.
  - rewrite Hd0, Hd1. pose proof (Z.div_mod dl 256). lia.
Qed.

(** Any frame the builder returns is some body followed by that body's
    checksum, and the body has the eight header bytes. *)
Lemma request_frame_bytes_shape (fc reg dl : Z) (wd frame : bytes) :
  Hand.request_frame_bytes fc reg dl wd = ret frame ->
  exists body c, frame = body ++ [c]
              /\ byte_val c = Hand.calc_lrc body
              /\ len body = 8 + len wd.
Proof.
  unfold Hand.request_frame_bytes. intros H.
  destruct (to_bytes2_le reg) as [e|rb] eqn:Er; [discriminate|].
  destruct (to_bytes2_le dl) as [e|db] eqn:Ed; [discriminate|].
  destruct (to_bytes1 fc) as [e|fb] eqn:Ef; [discriminate|].
  cbn [bind] in H.
  set (body := Hand.REQ_HEAD ++ Hand.RESERVED ++ fb ++ rb ++ db ++ wd) in *.
  destruct (calc_lrc_byte body) as (c & Hc & Hv).
  rewrite Hc in H. cbn [bind ret] in H. injection H as <-.
  exists body, c. repeat split; auto.
  unfold to_bytes2_le in Er, Ed. unfold to_bytes1 in Ef.
  destruct ((0 <=? reg) && (reg <? 65536)); [|discriminate].
  destruct ((0 <=? dl) && (dl <? 65536)); [|discriminate].
  destruct ((0 <=? fc) && (fc <? 256)); [|discriminate].
  destruct (Byte.of_N (Z.to_N (reg mod 256))); [|discriminate].
  destruct (Byte.of_N (Z.to_N (reg / 256))); [|discriminate].
  destruct (Byte.of_N (Z.to_N (dl mod 256))); [|discriminate].
  destruct (Byte.of_N (Z.to_N (dl / 256))); [|discriminate].
  destruct (Byte.of_N (Z.to_N fc)); [|discriminate].
  injection Er as <-. injection Ed as <-. injection Ef as <-.
  subst body. unfold len. cbn [Hand.REQ_HEAD Hand.RESERVED app List.length]. lia.
Qed.

(** Any frame the builder returns starts with the request head. *)
Lemma request_frame_bytes_head (fc reg dl : Z) (wd frame : bytes) :
  Hand.request_frame_bytes fc reg dl wd = ret frame ->
  slice 0 2 frame = Hand.REQ_HEAD.
Proof.
  unfold Hand.request_frame_bytes. intros H.
  destruct (to_bytes2_le reg) as [e|rb]; [discriminate|].
  destruct (to_bytes2_le dl) as [e|db]; [discriminate|].
  destruct (to_bytes1 fc) as [e|fb]; [discriminate|].
  cbn [bind] in H.
  destruct (to_bytes1 (Hand.calc_lrc
              (Hand.REQ_HEAD ++ Hand.RESERVED ++ fb ++ rb ++ db ++ wd))) as [e|c];
    [discriminate|].
  cbn [bind ret] in H. injection H as <-. reflexivity.
Qed.

End Builder.

(** ** The frame parser *)
Section Parser.
Import Py Protocol.

Lemma index_in_range (r : bytes) (i : nat) :
  (i < List.length r)%nat ->
  exists b, nth_error r i = Some b /\ index r i = ret (byte_val b).
Proof.
  intros Hi. unfold index.
  destruct (nth_error r i) as [b|] eqn:E.
  - exists b. auto.
  - apply nth_error_None in E. lia.
Qed.

Lemma index_last_nonempty (r : bytes) :
  r <> [] -> exists b, index_last r = ret (byte_val b) /\ r = drop_last r ++ [b].
Proof.
  intros Hr. destruct r as [|a t]; [congruence|].
  exists (last t a). split; [reflexivity|].
  unfold drop_last.
  rewrite (app_removelast_last a Hr) at 1.
  f_equal. f_equal. destruct t; [reflexivity|].
  cbn [last]. destruct t; reflexivity.
Qed.

Lemma parse_response_short (r : bytes) :
  len r < 8 -> Hand.parse_response r = inl Hand.FrameTooShort.
Proof.
  intros H. unfold Hand.parse_response, Hand.parse_response_body.
  replace (len r <? 8) with true by (symmetry; apply Z.ltb_lt; lia).
  reflexivity.
Qed.

(** With eight bytes or more every indexed read of the parser succeeds. *)
Lemma parse_response_long (r : bytes) :
  8 <= len r ->
  exists b2 b3 lrc_recv,
    nth_error r 2 = Some b2 /\ nth_error r 3 = Some b3
    /\ (if len r >=? 9 then index_last r else ret 0) = ret lrc_recv
    /\ Hand.parse_response r
       = if negb (bytes_eqb (slice 0 2 r) Hand.RESP_HEAD_GENERAL)
         then inl Hand.BadHead
         else Hand.decode r (byte_val b2) (byte_val b3) lrc_recv.
Proof.
  intros H. unfold len in H.
  destruct (index_in_range r 2) as (b2 & N2 & I2); [lia|].
  destruct (index_in_range r 3) as (b3 & N3 & I3); [lia|].
  assert (exists lrc_recv, (if len r >=? 9 then index_last r else ret 0) = ret lrc_recv)
    as (lrc_recv & HL).
  { destruct (len r >=? 9); [|eauto].
    destruct (index_last_nonempty r) as (b & -> & _); [|eauto].
    intros ->. cbn in H. lia. }
  exists b2, b3, lrc_recv. repeat split; auto.
  unfold Hand.parse_response, Hand.parse_response_body.
  replace (len r <? 8) with false by (symmetry; apply Z.ltb_ge; unfold len; lia).
  destruct (negb (bytes_eqb (slice 0 2 r) Hand.RESP_HEAD_GENERAL)); [reflexivity|].
  rewrite I2, I3. cbn [bind ret]. rewrite HL. reflexivity.
Qed.

Lemma decode_not_exception (r : bytes) (rsv fc lrc_recv : Z) (e : exn) :
  Hand.decode r rsv fc lrc_recv <> inl (Hand.ParseException e).
Proof.
  unfold Hand.decode.
  destruct (negb (Z.land fc 128 =? 0)); [discriminate|].
  destruct (negb ((fc =? Hand.FUNC_READ) || (fc =? Hand.FUNC_WRITE))); [discriminate|].
  destruct (Hand.verify_lrc r lrc_recv). discriminate.
Qed.

Lemma decode_error (r : bytes) (rsv fc lrc_recv : Z) :
  Z.land fc 0x80 <> 0 ->
  Hand.decode r rsv fc lrc_recv
  = inr (Hand.mkParsed true rsv fc (from_bytes_le (slice 4 6 r))
           (from_bytes_le (slice 6 8 r))
           (if len r >? 8 then len r - 9 else 0)
           [] false 0 lrc_recv (Some (Z.land fc 0x7F))).
Proof.
  intros H. unfold Hand.decode.
  replace (Z.land fc 128 =? 0) with false by (symmetry; apply Z.eqb_neq; exact H).
  reflexivity.
Qed.

Lemma decode_normal (r : bytes) (rsv fc lrc_recv : Z) :
  fc = Hand.FUNC_READ \/ fc = Hand.FUNC_WRITE ->
  Hand.decode r rsv fc lrc_recv
  = inr (Hand.mkParsed false rsv fc (from_bytes_le (slice 4 6 r))
           (from_bytes_le (slice 6 8 r))
           (if len r >? 8 then len r - 9 else 0)
           (Hand.extract_data r (from_bytes_le (slice 6 8 r)))
           (snd (Hand.verify_lrc r lrc_recv))
           (fst (Hand.verify_lrc r lrc_recv))
           lrc_recv None).
Proof.
  intros H. unfold Hand.decode.
  destruct (Hand.verify_lrc r lrc_recv) as [c v].
  destruct H as [-> | ->]; reflexivity.
Qed.

Lemma parse_response_device_error_eq (r : bytes) (f : byte) :
  8 <= len r ->
  slice 0 2 r = [xaa; x55] ->
  nth_error r 3 = Some f ->
  Z.land (byte_val f) 0x80 <> 0 ->
  exists p,
    Hand.parse_response r = inr p
    /\ Hand.is_error p = true
    /\ Hand.error_code p = Some (Z.land (byte_val f) 0x7F).
Proof.
  intros Hlen Hhead Hf Hbit.
  destruct (parse_response_long r Hlen) as (b2 & b3 & lrc_recv & _ & N3 & _ & ->).
  rewrite Hhead.
  replace (bytes_eqb [xaa; x55] Hand.RESP_HEAD_GENERAL) with true by reflexivity.
  cbn [negb]. assert (b3 = f) as -> by congruence.
  rewrite decode_error by exact Hbit.
  eexists. repeat split.
Qed.

(** C4: a buffer of at least eight bytes that starts AA 55 and whose
    function byte has bit 0x80 set is reported as a device error with code
    [function & 0x7F], and no payload is cut out of it. *)
Theorem parse_response_device_error (r : bytes) (f : byte) :
  8 <= len r ->
  slice 0 2 r = [xaa; x55] ->
  nth_error r 3 = Some f ->
  Z.land (byte_val f) 0x80 <> 0 ->
  exists p,
    Hand.parse_response r = inr p
    /\ Hand.returned (Hand.parse_response r) = Some p
    /\ Hand.is_error p = true
    /\ Hand.error_code p = Some (Z.land (byte_val f) 0x7F)
    /\ Hand.func_code p = byte_val f
    /\ Hand.data p = []
    /\ Hand.lrc_valid p = false.
Proof.
  intros Hlen Hhead Hf Hbit.
  destruct (parse_response_long r Hlen) as (b2 & b3 & lrc_recv & _ & N3 & _ & ->).
  rewrite Hhead. cbn [negb bytes_eqb Hand.RESP_HEAD_GENERAL].
  replace (bytes_eqb [xaa; x55] [xaa; x55]) with true by reflexivity.
  cbn [negb]. assert (b3 = f) as -> by congruence.
  rewrite decode_error by exact Hbit.
  eexists. repeat split.
Qed.

(** C5: fewer than eight bytes give the too-short failure, and on no
    buffer at all does an indexed read of the parser leave its bounds:
    neither the body raises nor is the exception handler's result ever
    produced. *)
Theorem parse_response_total (r : bytes) :
  (len r < 8 ->
     Hand.parse_response r = inl Hand.FrameTooShort
     /\ Hand.returned (Hand.parse_response r) = None)
  /\ (exists v, Hand.parse_response_body r = ret v)
  /\ (forall e, Hand.parse_response_body r <> raise e)
  /\ (forall e, Hand.parse_response r <> inl (Hand.ParseException e)).
Proof.
  assert (Hbody : exists v, Hand.parse_response_body r = ret v).
  { unfold Hand.parse_response_body.
    destruct (len r <? 8) eqn:E; [eauto|]. apply Z.ltb_ge in E.
    destruct (negb (bytes_eqb (slice 0 2 r) Hand.RESP_HEAD_GENERAL)); [eauto|].
    destruct (parse_response_long r E) as (b2 & b3 & lrc_recv & N2 & N3 & HL & _).
    unfold index. rewrite N2, N3. cbn [bind ret]. rewrite HL. cbn [bind ret]. eauto. }
  split; [|split; [|split]].
  - intros H. rewrite parse_response_short by exact H. auto.
  - exact Hbody.
  - intros e. destruct Hbody as (v & ->). discriminate.
  - intros e. destruct (Z_lt_le_dec (len r) 8) as [H|H].
    + rewrite parse_response_short by exact H. discriminate.
    + destruct (parse_response_long r H) as (b2 & b3 & lrc_recv & _ & _ & _ & ->).
      destruct (negb _); [discriminate|]. apply decode_not_exception.
Qed.

End Parser.

(** ** Hexadecimal text *)
Section Hex.
Import Py.

Lemma fromhex_hex_of_byte (upper : bool) (b : byte) (s : string) :
  fromhex (hex_of_byte upper b ++ s)
  = bind (fromhex s) (fun bs => ret (b :: bs)).
Proof. destruct upper, b; reflexivity. Qed.

Lemma fromhex_hex_with_app (upper : bool) (bs : bytes) (s : string) :
  fromhex (hex_with upper bs ++ s)
  = bind (fromhex s) (fun t => ret (bs ++ t)).
Proof.
  induction bs as [|b bs IH]; cbn [hex_with].
  - cbn [String.append app]. destruct (fromhex s); reflexivity.
  - replace ((hex_of_byte upper b ++ hex_with upper bs) ++ s)%string
      with (hex_of_byte upper b ++ (hex_with upper bs ++ s))%string
      by (unfold hex_of_byte; reflexivity).
    rewrite fromhex_hex_of_byte, IH.
    destruct (fromhex s); reflexivity.
Qed.

Lemma append_empty (s : string) : (s ++ "")%string = s.
Proof. induction s as [|c s IH]; cbn; [reflexivity | now rewrite IH]. Qed.

(** What [hex] writes, [fromhex] reads back. *)
Lemma fromhex_hex_with (upper : bool) (bs : bytes) :
  fromhex (hex_with upper bs) = ret bs.
Proof.
  rewrite <- (append_empty (hex_with upper bs)), fromhex_hex_with_app.
  cbn [fromhex bind ret]. now rewrite app_nil_r.
Qed.

End Hex.

(** ** Checksum verification inside the parser *)
Section ParserChecksum.
Import Py Protocol.

Lemma from_bytes_le_nonneg (bs : bytes) : 0 <= from_bytes_le bs.
Proof.
  induction bs as [|b bs IH]; cbn [from_bytes_le]; [lia|].
  pose proof (byte_val_range b). lia.
Qed.

Lemma verify_lrc_short (r : bytes) (lrc_recv : Z) :
  len r < 9 -> Hand.verify_lrc r lrc_recv = (0, false).
Proof.
  intros H. unfold Hand.verify_lrc.
  replace (len r >=? 9) with false by (symmetry; apply geb_false; lia).
  reflexivity.
Qed.

Lemma verify_lrc_long (r : bytes) (lrc_recv : Z) :
  9 <= len r ->
  Hand.verify_lrc r lrc_recv = (lrc (drop_last r), lrc (drop_last r) =? lrc_recv).
Proof.
  intros H. unfold Hand.verify_lrc.
  replace (len r >=? 9) with true by (symmetry; apply geb_true; lia).
  now rewrite calc_lrc_eq.
Qed.

(** The comparison succeeds on any sequence that ends in the checksum of
    what precedes it, provided it is long enough to be compared at all. *)
Lemma verify_lrc_snoc (body : bytes) (c : byte) :
  8 <= len body -> byte_val c = Hand.calc_lrc body ->
  Hand.verify_lrc (body ++ [c]) (byte_val c) = (byte_val c, true).
Proof.
  intros Hl Hc.
  rewrite verify_lrc_long by (rewrite len_app; unfold len at 2; cbn; lia).
  rewrite drop_last_snoc, <- calc_lrc_eq, <- Hc, Z.eqb_refl. reflexivity.
Qed.

Lemma firstn_snoc_short (n : nat) (body : bytes) (c : byte) :
  (n <= List.length body)%nat -> firstn n (body ++ [c]) = firstn n body.
Proof.
  intros H. rewrite firstn_app.
  replace (n - List.length body)%nat with 0%nat by lia.
  cbn [firstn]. apply app_nil_r.
Qed.

(** C9 (as the code has it): a general response that gets past the head
    and function checks is always returned, whatever the checksum; the
    LRC is taken over every byte but the last one received and compared
    with that last byte, provided at least nine bytes arrived; this is the
    declared extent [8 + data_len] exactly when the buffer holds
    [8 + data_len + 1] bytes. *)
Theorem parse_response_lrc_step (r : bytes) (b3 : byte) :
  8 <= len r ->
  slice 0 2 r = [xaa; x55] ->
  nth_error r 3 = Some b3 ->
  byte_val b3 = Hand.FUNC_READ \/ byte_val b3 = Hand.FUNC_WRITE ->
  exists p,
    Hand.parse_response r = inr p
    /\ Hand.returned (Hand.parse_response r) = Some p
    /\ Hand.is_error p = false
    /\ Hand.func_code p = byte_val b3
    /\ Hand.reg_addr p = from_bytes_le (slice 4 6 r)
    /\ Hand.data_len p = from_bytes_le (slice 6 8 r)
    /\ Hand.data p = Hand.extract_data r (Hand.data_len p)
    /\ (len r < 9 -> Hand.lrc_valid p = false /\ Hand.lrc_calc p = 0)
    /\ (9 <= len r ->
          exists c, r = drop_last r ++ [c]
                 /\ Hand.lrc_recv p = byte_val c
                 /\ Hand.lrc_calc p = lrc (drop_last r)
                 /\ Hand.lrc_valid p = (lrc (drop_last r) =? byte_val c))
    /\ (len r = 8 + Hand.data_len p + 1 ->
          Hand.lrc_valid p = lrc_valid_declared r).
Proof.
  intros Hlen Hhead N3 Hfc.
  destruct (parse_response_long r Hlen) as (b2 & b3' & lrc_recv & _ & N3' & HL & E).
  assert (b3' = b3) as -> by congruence.
  rewrite Hhead in E.
  replace (negb (bytes_eqb [xaa; x55] Hand.RESP_HEAD_GENERAL)) with false in E
    by reflexivity.
  rewrite decode_normal in E by exact Hfc.
  eexists. split; [exact E|]. rewrite E. cbn [Hand.returned Hand.is_error
    Hand.func_code Hand.reg_addr Hand.data_len Hand.data Hand.lrc_valid
    Hand.lrc_calc Hand.lrc_recv].
  assert (Hlong : 9 <= len r ->
            exists c, r = drop_last r ++ [c] /\ lrc_recv = byte_val c).
  { intros H9.
    replace (len r >=? 9) with true in HL by (symmetry; apply geb_true; lia).
    destruct (index_last_nonempty r) as (c & Hc & Hr).
    - intros ->. cbn in H9. lia.
    - exists c. split; [exact Hr|]. rewrite Hc in HL. now injection HL as <-. }
  repeat (split; [reflexivity|]).
  split; [|split].
  - intros H. now rewrite verify_lrc_short by exact H.
  - intros H9. destruct (Hlong H9) as (c & Hr & ->).
    exists c. rewrite verify_lrc_long by exact H9. auto.
  - intros Hexact.
    pose proof (from_bytes_le_nonneg (slice 6 8 r)) as Hd.
    assert (H9 : 9 <= len r) by lia.
    destruct (Hlong H9) as (c & Hr & ->).
    rewrite verify_lrc_long by exact H9. cbn [snd].
    unfold lrc_valid_declared, declared_lrc_offset.
    assert (Hoff : (8 + Z.to_nat (from_bytes_le (slice 6 8 r)))%nat
                   = List.length (drop_last r)).
    { apply (f_equal (@List.length byte)) in Hr.
      rewrite length_app in Hr. cbn [List.length] in Hr. unfold len in Hexact. lia. }
    rewrite Hoff.
    assert (Hn : nth_error r (List.length (drop_last r)) = Some c).
    { rewrite Hr at 1. rewrite nth_error_app2, Nat.sub_diag by lia. reflexivity. }
    assert (Hf : firstn (List.length (drop_last r)) r = drop_last r).
    { rewrite Hr at 2. rewrite firstn_app, Nat.sub_diag, firstn_all.
      cbn [firstn]. apply app_nil_r. }
    rewrite Hn, Hf. reflexivity.
Qed.

(** C9, as worded, fails: a complete and correct frame followed by one
    more received byte has a valid checksum over its declared extent of
    [8 + data_len] bytes, but the parser sums the first ten bytes, compares
    with the eleventh and reports a mismatch. *)
Lemma lrc_range_ignores_declared_extent :
  Hand.parse_response [xaa; x55; x00; x03; x00; x00; x01; x00; x42; xbb; x07]
    = inr (Hand.mkParsed false 0 3 0 1 2 [x42] false 0 7 None)
  /\ declared_lrc_offset [xaa; x55; x00; x03; x00; x00; x01; x00; x42; xbb; x07] = 9%nat
  /\ lrc [xaa; x55; x00; x03; x00; x00; x01; x00; x42] = 0xBB
  /\ lrc_valid_declared [xaa; x55; x00; x03; x00; x00; x01; x00; x42; xbb; x07] = true.
Proof. repeat split; vm_compute; reflexivity. Qed.

(** C2 (as the code has it): a sequence extended by its own checksum
    passes the comparison "LRC of all bytes but the last = the last byte";
    every frame the builder returns is at least nine bytes long and passes
    the parser's comparison step; [parse_response] reports [lrc_valid] on
    every response-headed body of eight bytes or more with a read or write
    function byte that is extended by its checksum; and every frame the
    builder returns is itself turned away by [parse_response] at the head
    check, so that no [lrc_valid] is produced for it, which holds as well
    for the bytes read back from every text [build_request_frame]
    returns. *)
Theorem lrc_append_is_valid :
  (forall b : bytes,
     exists c, to_bytes1 (Hand.calc_lrc b) = ret [c]
            /\ index_last (b ++ [c]) = ret (byte_val c)
            /\ Hand.calc_lrc (drop_last (b ++ [c])) = byte_val c)
  /\ (forall fc reg dl wd frame,
        Hand.request_frame_bytes fc reg dl wd = ret frame ->
        9 <= len frame
        /\ exists c, index_last frame = ret (byte_val c)
                  /\ Hand.calc_lrc (drop_last frame) = byte_val c
                  /\ Hand.verify_lrc frame (byte_val c) = (byte_val c, true))
  /\ (forall body b3,
        8 <= len body ->
        slice 0 2 body = [xaa; x55] ->
        nth_error body 3 = Some b3 ->
        byte_val b3 = Hand.FUNC_READ \/ byte_val b3 = Hand.FUNC_WRITE ->
        exists c p, to_bytes1 (Hand.calc_lrc body) = ret [c]
                 /\ Hand.parse_response (body ++ [c]) = inr p
                 /\ Hand.lrc_valid p = true
                 /\ Hand.lrc_calc p = Hand.lrc_recv p)
  /\ (forall fc reg dl wd frame,
        Hand.request_frame_bytes fc reg dl wd = ret frame ->
        Hand.parse_response frame = inl Hand.BadHead
        /\ Hand.returned (Hand.parse_response frame) = None
        /\ forall p, Hand.parse_response frame <> inr p)
  /\ (forall fc reg dl wd text,
        Hand.build_request_frame fc reg dl wd = Some text ->
        exists frame,
          fromhex text = ret frame
          /\ Hand.request_frame_bytes fc reg dl wd = ret frame
          /\ Hand.parse_response frame = inl Hand.BadHead
          /\ Hand.returned (Hand.parse_response frame) = None).
Proof.
  assert (Hbad : forall fc reg dl wd frame,
            Hand.request_frame_bytes fc reg dl wd = ret frame ->
            Hand.parse_response frame = inl Hand.BadHead).
  { intros fc reg dl wd frame H.
    destruct (request_frame_bytes_shape _ _ _ _ _ H) as (body & c & Hf & _ & Hl).
    pose proof (len_nonneg wd).
    assert (H8 : 8 <= len frame)
      by (rewrite Hf, len_app; unfold len at 2; cbn [List.length]; lia).
    destruct (parse_response_long frame H8) as (b2 & b3 & lrc_recv & _ & _ & _ & ->).
    rewrite (request_frame_bytes_head _ _ _ _ _ H). reflexivity. }
  split; [|split; [|split; [|split]]].
  4: { intros fc reg dl wd frame H.
       rewrite (Hbad _ _ _ _ _ H).
       split; [reflexivity|]. split; [reflexivity | discriminate]. }
  4: { intros fc reg dl wd text H.
       unfold Hand.build_request_frame in H.
       destruct (Hand.request_frame_bytes fc reg dl wd) as [e|frame] eqn:F;
         cbn [bind ret try_except] in H; [discriminate|].
       exists frame.
       assert (text = hex_upper frame) as -> by (unfold ret in H; congruence).
       split; [apply fromhex_hex_with|]. split; [reflexivity|].
       rewrite (Hbad _ _ _ _ _ F). split; reflexivity. }
  - intros b. destruct (calc_lrc_byte b) as (c & Hc & Hv).
    exists c. rewrite index_last_snoc, drop_last_snoc. auto.
  - intros fc reg dl wd frame H.
    destruct (request_frame_bytes_shape _ _ _ _ _ H) as (body & c & -> & Hc & Hl).
    pose proof (len_nonneg wd).
    split; [rewrite len_app; unfold len at 2; cbn [List.length]; lia|].
    exists c. rewrite index_last_snoc, drop_last_snoc.
    rewrite verify_lrc_snoc by (auto; lia). auto.
  - intros body b3 Hlen Hhead N3 Hfc.
    destruct (calc_lrc_byte body) as (c & Hc & Hv).
    assert (Hl : 8 <= len (body ++ [c])) by (rewrite len_app; pose proof (len_nonneg [c]); lia).
    destruct (parse_response_long _ Hl) as (b2 & b3' & lrc_recv & _ & N3' & HL & E).
    assert (Hbody : (8 <= List.length body)%nat) by (unfold len in Hlen; lia).
    rewrite nth_error_app1 in N3' by lia.
    assert (b3' = b3) as -> by congruence.
    unfold slice in E, Hhead. cbn [skipn Nat.sub] in E, Hhead.
    rewrite firstn_snoc_short, Hhead in E by lia.
    replace (negb (bytes_eqb [xaa; x55] Hand.RESP_HEAD_GENERAL)) with false in E
      by reflexivity.
    replace (len (body ++ [c]) >=? 9) with true in HL
      by (symmetry; apply geb_true; rewrite len_app; unfold len at 2;
          cbn [List.length]; lia).
    rewrite index_last_snoc in HL. injection HL as <-.
    rewrite decode_normal in E by exact Hfc.
    rewrite verify_lrc_snoc in E by auto.
    exists c. eexists. split; [exact Hc|]. split; [exact E|]. split; reflexivity.
Qed.

(** C2, as worded, fails on its last part: the builder's frame starts
    55 AA, so [parse_response] turns it away at the head check and there
    is no [lrc_valid] to read. *)
Lemma built_frame_is_not_parsed :
  Hand.request_frame_bytes Hand.FUNC_READ 0 15 []
    = ret [x55; xaa; x00; x03; x00; x00; x0f; x00; xef]
  /\ Hand.parse_response [x55; xaa; x00; x03; x00; x00; x0f; x00; xef]
    = inl Hand.BadHead
  /\ Hand.returned (Hand.parse_response [x55; xaa; x00; x03; x00; x00; x0f; x00; xef])
    = None.
Proof. repeat split; vm_compute; reflexivity. Qed.

End ParserChecksum.

(** ** The byte-stream reader *)
Section Reader.
Import Py Protocol.

Lemma starts_with_length (sub bs : bytes) :
  starts_with sub bs = true -> (List.length sub <= List.length bs)%nat.
Proof.
  revert bs. induction sub as [|s sub IH]; intros bs H; cbn [List.length]; [lia|].
  destruct bs as [|b bs]; cbn [starts_with List.length] in *; [discriminate|].
  apply andb_true_iff in H as [_ H]. apply IH in H. lia.
Qed.

Lemma find_starts_with (sub : bytes) :
  forall bs pos, find sub bs = Some pos -> starts_with sub (skipn pos bs) = true.
Proof.
  induction bs as [|b bs IH]; intros pos H; cbn [find] in H.
  - destruct (starts_with sub []) eqn:E; [|discriminate].
    injection H as <-. exact E.
  - destruct (starts_with sub (b :: bs)) eqn:E.
    + injection H as <-. exact E.
    + destruct (find sub bs) as [q|]; [|discriminate].
      injection H as <-. cbn [skipn]. apply IH. reflexivity.
Qed.

Lemma find_is_first (sub : bytes) :
  forall bs pos, find sub bs = Some pos ->
    forall j, (j < pos)%nat -> starts_with sub (skipn j bs) = false.
Proof.
  induction bs as [|b bs IH]; intros pos H j Hj; cbn [find] in H.
  - destruct (starts_with sub []); [|discriminate]. injection H as <-. lia.
  - destruct (starts_with sub (b :: bs)) eqn:E.
    + injection H as <-. lia.
    + destruct (find sub bs) as [q|] eqn:F; [|discriminate].
      injection H as <-. destruct j as [|j]; [exact E|].
      cbn [skipn]. apply (IH q); [reflexivity | lia].
Qed.

Lemma contains_find (sub bs : bytes) :
  contains sub bs = true -> exists pos, find sub bs = Some pos.
Proof.
  unfold contains. destruct (find sub bs) as [pos|]; [eauto | discriminate].
Qed.

Lemma truthy_false (bs : bytes) : truthy bs = false -> bs = [].
Proof. destruct bs; [reflexivity | discriminate]. Qed.

Lemma accumulated_cons (chunk : bytes) (sched : list bytes) (recv : bytes) (k : nat) :
  recv ++ accumulated (chunk :: sched) (S k) = (recv ++ chunk) ++ accumulated sched k.
Proof. unfold accumulated. cbn [firstn List.concat]. apply app_assoc. Qed.

Lemma accumulated_first (chunk : bytes) (sched : list bytes) (recv : bytes) :
  recv ++ accumulated (chunk :: sched) 0 = recv ++ chunk.
Proof. unfold accumulated. cbn [firstn List.concat]. now rewrite app_nil_r. Qed.

Lemma accumulated_nil (recv : bytes) (k : nat) : recv ++ accumulated [] k = recv.
Proof. unfold accumulated. cbn [firstn List.concat]. apply app_nil_r. Qed.

(** The loop invariant: the buffer does not hold the head yet; the loop
    leaves through [break] at the first poll whose chunk completes it. *)
Lemma read_loop_breaks_at_head (timeout : nat) (h : bytes) :
  truthy h = true ->
  forall sched elapsed recv polls k,
    contains h recv = false ->
    poll_reached timeout elapsed sched k = true ->
    (forall j, (j < k)%nat -> contains h (recv ++ accumulated sched j) = false) ->
    contains h (recv ++ accumulated sched k) = true ->
    Hand.read_loop timeout (Some h) elapsed recv polls sched
    = (Hand.from_head (Some h) (recv ++ accumulated sched k),
       (polls + S k)%nat, skipn (S k) sched).
Proof.
  intros Hh. induction sched as [|chunk sched IH];
    intros elapsed recv polls k Hinv Hreach Hbefore Hnow.
  - rewrite accumulated_nil in Hnow. congruence.
  - assert (Ht : (elapsed <? timeout)%nat = true).
    { destruct k; cbn [poll_reached] in Hreach;
        [exact Hreach | apply andb_true_iff in Hreach; tauto]. }
    cbn [Hand.read_loop]. rewrite Ht.
    destruct (truthy chunk) eqn:Hc.
    + unfold Hand.head_seen. rewrite Hh. cbn [andb].
      destruct (contains h (recv ++ chunk)) eqn:Hs.
      * destruct k as [|k].
        -- rewrite accumulated_first. f_equal. f_equal. lia.
        -- specialize (Hbefore 0%nat ltac:(lia)).
           rewrite accumulated_first in Hbefore. congruence.
      * destruct k as [|k].
        -- rewrite accumulated_first in Hnow. congruence.
        -- cbn [poll_reached] in Hreach. rewrite Ht, Hc in Hreach.
           rewrite accumulated_cons.
           rewrite (IH _ (recv ++ chunk) (S polls) k Hs Hreach).
           ++ f_equal. f_equal. lia.
           ++ intros j Hj. rewrite <- accumulated_cons. apply Hbefore. lia.
           ++ rewrite <- accumulated_cons. exact Hnow.
    + apply truthy_false in Hc. subst chunk.
      destruct k as [|k].
      * rewrite accumulated_first, app_nil_r in Hnow. congruence.
      * cbn [poll_reached truthy] in Hreach. rewrite Ht in Hreach.
        rewrite accumulated_cons, app_nil_r.
        rewrite (IH _ recv (S polls) k Hinv Hreach).
        -- f_equal. f_equal. lia.
        -- intros j Hj. specialize (Hbefore (S j) ltac:(lia)).
           now rewrite accumulated_cons, app_nil_r in Hbefore.
        -- now rewrite accumulated_cons, app_nil_r in Hnow.
Qed.

(** C7: if the chunk delivered at poll [k] is the first to complete the
    two-byte head in the accumulated buffer, and the read is still running
    at that poll, then [read_serial_data] returns at that very poll,
    whatever is left of the time-out and of the schedule, and returns the
    accumulated bytes from the first occurrence of the head on. *)
Theorem read_serial_data_returns_at_head
    (ser : Serial) (timeout : nat) (h : bytes) (k : nat) :
  List.length h = 2%nat ->
  poll_reached timeout 0 (rx ser) k = true ->
  (forall j, (j < k)%nat -> contains h (accumulated (rx ser) j) = false) ->
  contains h (accumulated (rx ser) k) = true ->
  let out := Hand.read_serial_data ser timeout (Some h) in
  Hand.rd_polls out = S k
  /\ rx (Hand.rd_serial out) = skipn (S k) (rx ser)
  /\ exists pos,
       find h (accumulated (rx ser) k) = Some pos
       /\ Hand.rd_data out = Some (skipn pos (accumulated (rx ser) k))
       /\ starts_with h (skipn pos (accumulated (rx ser) k)) = true
       /\ (forall j, (j < pos)%nat ->
             starts_with h (skipn j (accumulated (rx ser) k)) = false).
Proof.
  intros Hlen Hreach Hbefore Hnow out.
  assert (Hh : truthy h = true) by (destruct h; [discriminate | reflexivity]).
  assert (Hnil : contains h [] = false).
  { destruct h as [|a [|b t]]; try discriminate. reflexivity. }
  pose proof (read_loop_breaks_at_head timeout h Hh (rx ser) 0%nat [] 0%nat k
                Hnil Hreach Hbefore Hnow) as E.
  cbn [app] in E.
  destruct (contains_find _ _ Hnow) as (pos & Hpos).
  pose proof (find_starts_with _ _ _ Hpos) as Hsw.
  subst out. unfold Hand.read_serial_data. rewrite E.
  unfold Hand.from_head. rewrite Hpos. unfold slice_from.
  cbn [Hand.rd_polls Hand.rd_serial Hand.rd_data set_rx rx].
  split; [reflexivity|]. split; [reflexivity|].
  exists pos. split; [reflexivity|].
  split; [|split; [exact Hsw | exact (find_is_first _ _ _ Hpos)]].
  apply starts_with_length in Hsw. rewrite Hlen in Hsw.
  destruct (skipn pos (accumulated (rx ser) k)); [cbn in Hsw; lia | reflexivity].
Qed.

End Reader.

(** ** Register access *)
Section RegisterAccess.
Import Py Protocol.

Lemma build_request_frame_some (fc reg dl : Z) (wd frame : bytes) :
  Hand.request_frame_bytes fc reg dl wd = ret frame ->
  Hand.build_request_frame fc reg dl wd = Some (hex_upper frame).
Proof. unfold Hand.build_request_frame. now intros ->. Qed.

Lemma firstn_same_length {A} (n : nat) (l : list A) :
  List.length (firstn n l) = List.length l -> firstn n l = l.
Proof.
  intros H. rewrite length_firstn in H. apply firstn_all2. lia.
Qed.

(** A command that is reported as sent went out whole. *)
Lemma send_hex_cmd_sent (ser ser' : Serial) (frame : bytes) :
  Hand.send_hex_cmd ser (hex_upper frame) = (true, ser') ->
  ser' = mkSerial (tx_fault ser) (tx_room ser) (outbox ser ++ frame) (rx ser)
  /\ tx_fault ser = false.
Proof.
  unfold Hand.send_hex_cmd, hex_upper. rewrite fromhex_hex_with.
  unfold write. destruct (tx_fault ser); [discriminate|].
  cbn [ret].
  destruct (negb (len (firstn (tx_room ser) frame) =? len frame)) eqn:E; [discriminate|].
  intros [= <-]. split; [|reflexivity].
  apply negb_false_iff, Z.eqb_eq in E. unfold len in E.
  rewrite firstn_same_length by lia. reflexivity.
Qed.

Lemma read_serial_data_outbox (ser : Serial) (timeout : nat) (h : option bytes) :
  outbox (Hand.rd_serial (Hand.read_serial_data ser timeout h)) = outbox ser.
Proof.
  unfold Hand.read_serial_data.
  destruct (Hand.read_loop timeout h 0 [] 0 (rx ser)) as [[recv polls] sched].
  reflexivity.
Qed.

Lemma in_range_test (lo hi n : Z) :
  lo <= n <= hi -> negb ((lo <=? n) && (n <=? hi)) = false.
Proof.
  intros H. apply negb_false_iff, andb_true_iff.
  split; apply Z.leb_le; lia.
Qed.

Lemma out_of_range_test (lo hi n : Z) :
  ~ lo <= n <= hi -> negb ((lo <=? n) && (n <=? hi)) = true.
Proof.
  intros H. apply negb_true_iff, andb_false_iff.
  destruct (Z_le_dec lo n); [right | left]; apply Z.leb_gt; lia.
Qed.

(** The read request for an in-bounds length and a 16-bit address. *)
Lemma read_request_built (reg read_len : Z) :
  1 <= read_len <= 512 -> is_reg_addr reg ->
  exists frame,
    Hand.request_frame_bytes Hand.FUNC_READ reg read_len [] = ret frame
    /\ Hand.build_request_frame Hand.FUNC_READ reg read_len [] = Some (hex_upper frame)
    /\ Hand.string_truthy (hex_upper frame) = true
    /\ len frame = 9
    /\ slice 0 2 frame = Hand.REQ_HEAD
    /\ index frame 3 = ret Hand.FUNC_READ
    /\ from_bytes_le (slice 4 6 frame) = reg
    /\ from_bytes_le (slice 6 8 frame) = read_len.
Proof.
  intros Hl Hr. unfold is_reg_addr in Hr.
  destruct (request_frame_bytes_ok Hand.FUNC_READ reg read_len [])
    as (f & r0 & r1 & d0 & d1 & c & E & Hf & Hreg & Hdl & _);
    [unfold Hand.FUNC_READ; lia | lia | lia |].
  eexists. split; [exact E|].
  split; [apply build_request_frame_some; exact E|].
  split; [reflexivity|]. split; [reflexivity|]. split; [reflexivity|].
  split; [cbn; now rewrite Hf|].
  cbn [app slice skipn firstn Nat.sub from_bytes_le]. lia.
Qed.

(** The write request for an in-bounds payload and a 16-bit address. *)
Lemma write_request_built (reg : Z) (write_data : bytes) :
  1 <= len write_data <= 10 -> is_reg_addr reg ->
  exists frame,
    Hand.request_frame_bytes Hand.FUNC_WRITE reg (len write_data) write_data = ret frame
    /\ Hand.build_request_frame Hand.FUNC_WRITE reg (len write_data) write_data
       = Some (hex_upper frame)
    /\ Hand.string_truthy (hex_upper frame) = true
    /\ len frame = 9 + len write_data
    /\ slice 0 2 frame = Hand.REQ_HEAD
    /\ index frame 3 = ret Hand.FUNC_WRITE
    /\ from_bytes_le (slice 4 6 frame) = reg
    /\ from_bytes_le (slice 6 8 frame) = len write_data
    /\ firstn (List.length write_data) (skipn 8 frame) = write_data.
Proof.
  intros Hl Hr. unfold is_reg_addr in Hr.
  destruct (request_frame_bytes_ok Hand.FUNC_WRITE reg (len write_data) write_data)
    as (f & r0 & r1 & d0 & d1 & c & E & Hf & Hreg & Hdl & _);
    [unfold Hand.FUNC_WRITE; lia | lia | lia |].
  eexists. split; [exact E|].
  split; [apply build_request_frame_some; exact E|].
  split; [reflexivity|].
  split; [rewrite len_app; unfold len; cbn [List.length]; lia|].
  split; [reflexivity|].
  split; [cbn; now rewrite Hf|].
  cbn [app slice skipn firstn Nat.sub from_bytes_le].
  split; [lia|]. split; [lia|].
  rewrite firstn_app, Nat.sub_diag, firstn_all. cbn [firstn]. apply app_nil_r.
Qed.

(** C6 (as the code has it): for an in-bounds length and a 16-bit
    address [read_register] sends the built read request, reads with the
    general-response head and the command time-out, parses, and fails
    when nothing arrived, when the parser turned the buffer away, when the
    function byte has its top bit set, and when the function code is not
    the read code; otherwise it returns exactly the decoded payload,
    also when the parsed [lrc_valid] flag is false. *)
Theorem read_register_outcomes (ser : Serial) (reg read_len : Z) :
  1 <= read_len <= 512 -> is_reg_addr reg ->
  exists frame,
    Hand.request_frame_bytes Hand.FUNC_READ reg read_len [] = ret frame
    /\ let sent := Hand.send_hex_cmd ser (hex_upper frame) in
       let rd := Hand.read_serial_data (snd sent) Hand.TIMEOUT_CMD
                   (Some Hand.RESP_HEAD_GENERAL) in
       let result := fst (Hand.read_register ser reg read_len) in
       (fst sent = false -> result = inl Hand.SendFailed)
       /\ (fst sent = true ->
             outbox (snd (Hand.read_register ser reg read_len)) = outbox ser ++ frame
             /\ snd (Hand.read_register ser reg read_len) = Hand.rd_serial rd
             /\ (Hand.rd_data rd = None -> result = inl Hand.NoResponse)
             /\ (forall resp, Hand.rd_data rd = Some resp ->
                   (forall f, Hand.parse_response resp = inl f ->
                      result = inl (Hand.ProtocolError f))
                   /\ (len resp < 8 ->
                         result = inl (Hand.ProtocolError Hand.FrameTooShort))
                   /\ (forall b3,
                         8 <= len resp -> slice 0 2 resp = [xaa; x55] ->
                         nth_error resp 3 = Some b3 ->
                         Z.land (byte_val b3) 0x80 <> 0 ->
                         result = inl (Hand.DeviceError
                                         (Some (Z.land (byte_val b3) 0x7F))))
                   /\ (forall p, Hand.parse_response resp = inr p ->
                         Hand.is_error p = false ->
                         Hand.func_code p <> Hand.FUNC_READ ->
                         result = inl (Hand.WrongFunction (Hand.func_code p)))
                   /\ (forall p, Hand.parse_response resp = inr p ->
                         Hand.is_error p = false ->
                         Hand.func_code p = Hand.FUNC_READ ->
                         result = inr (Hand.data p)
                         /\ Hand.read_value result = Some (Hand.data p))
                   /\ (forall p, Hand.parse_response resp = inr p ->
                         Hand.is_error p = false ->
                         Hand.func_code p = Hand.FUNC_READ ->
                         Hand.lrc_valid p = false ->
                         result = inr (Hand.data p)))).
Proof.
  intros Hl Hr.
  destruct (read_request_built reg read_len Hl Hr) as (frame & E & B & T & _).
  exists frame. split; [exact E|]. cbv zeta.
  unfold Hand.read_register.
  rewrite in_range_test by lia. rewrite B, T. cbn [negb].
  destruct (Hand.send_hex_cmd ser (hex_upper frame)) as [sent ser1] eqn:S.
  cbn [fst snd]. destruct sent; cbn [negb].
  2: { split; [reflexivity | discriminate]. }
  split; [discriminate|]. intros _.
  destruct (send_hex_cmd_sent _ _ _ S) as [Hser1 _].
  set (rd := Hand.read_serial_data ser1 Hand.TIMEOUT_CMD (Some Hand.RESP_HEAD_GENERAL)).
  assert (Hout : outbox (Hand.rd_serial rd) = outbox ser ++ frame).
  { subst rd. rewrite read_serial_data_outbox, Hser1. reflexivity. }
  destruct (Hand.rd_data rd) as [resp|] eqn:D.
  2: { cbn [fst snd]. repeat split; auto; discriminate. }
  assert (Hgood : forall p, Hand.parse_response resp = inr p ->
            Hand.is_error p = false -> Hand.func_code p = Hand.FUNC_READ ->
            fst (match Hand.parse_response resp with
                 | inl f => (inl (Hand.ProtocolError f), Hand.rd_serial rd)
                 | inr p =>
                     if Hand.is_error p
                     then (inl (Hand.DeviceError (Hand.error_code p)), Hand.rd_serial rd)
                     else if negb (Hand.func_code p =? Hand.FUNC_READ)
                          then (inl (Hand.WrongFunction (Hand.func_code p)),
                                Hand.rd_serial rd)
                          else (inr (Hand.data p), Hand.rd_serial rd)
                 end) = inr (Hand.data p)).
  { intros p -> -> ->. reflexivity. }
  split; [|split; [|split; [discriminate|]]].
  - destruct (Hand.parse_response resp) as [f|p]; [exact Hout|].
    destruct (Hand.is_error p); [exact Hout|].
    destruct (negb _); exact Hout.
  - destruct (Hand.parse_response resp) as [f|p]; [reflexivity|].
    destruct (Hand.is_error p); [reflexivity|].
    destruct (negb _); reflexivity.
  - intros resp' [= <-].
    split; [|split; [|split; [|split; [|split]]]].
    + intros f ->. reflexivity.
    + intros H. rewrite parse_response_short by exact H. reflexivity.
    + intros b3 H8 Hh N3 Hbit.
      destruct (parse_response_device_error_eq resp b3 H8 Hh N3 Hbit) as (p & -> & He & Hc).
      rewrite He, Hc. reflexivity.
    + intros p -> -> Hfc. apply Z.eqb_neq in Hfc. rewrite Hfc. reflexivity.
    + intros p Hp He Hfc. rewrite (Hgood p Hp He Hfc). auto.
    + intros p Hp He Hfc _. exact (Hgood p Hp He Hfc).
Qed.

(** C6, as worded, fails on the checksum: a read response whose last
    byte is not the LRC of the others is parsed with [lrc_valid] false,
    and [read_register] returns its payload all the same. *)
Lemma read_register_ignores_bad_lrc :
  Hand.parse_response [xaa; x55; x00; x03; x00; x00; x01; x00; x42; xff]
    = inr (Hand.mkParsed false 0 3 0 1 1 [x42] false 0xBB 0xFF None)
  /\ Hand.read_register
       (mkSerial false 64 [] [[xaa; x55; x00; x03; x00; x00; x01; x00; x42; xff]]) 0 1
     = (inr [x42],
        mkSerial false 64 [x55; xaa; x00; x03; x00; x00; x01; x00; xfd] []).
Proof. split; vm_compute; reflexivity. Qed.

(** Break down every [match] and [if] left in the goal. *)
Ltac split_branches :=
  repeat match goal with
         | |- context [match ?x with _ => _ end] => destruct x eqn:?
         end.

(** C8: a read whose length is outside 1..512 and a write whose payload
    length is outside 1..10 are refused with the invalid-length failure
    before anything is built or sent; inside the bounds that failure does
    not occur, the frame is built with the length field holding the
    requested length unchanged, and it is that frame that goes out. *)
Theorem request_length_bounds :
  (forall ser reg read_len,
     ~ 1 <= read_len <= 512 ->
     Hand.read_register ser reg read_len = (inl Hand.InvalidLength, ser)
     /\ Hand.read_value (fst (Hand.read_register ser reg read_len)) = None)
  /\ (forall ser reg write_data is_auto_push,
        ~ 1 <= len write_data <= 10 ->
        Hand.write_register ser reg write_data is_auto_push
          = (inl Hand.InvalidLength, ser)
        /\ Hand.write_value (fst (Hand.write_register ser reg write_data is_auto_push))
           = false)
  /\ (forall ser reg read_len,
        1 <= read_len <= 512 -> is_reg_addr reg ->
        exists frame,
          Hand.request_frame_bytes Hand.FUNC_READ reg read_len [] = ret frame
          /\ Hand.build_request_frame Hand.FUNC_READ reg read_len []
             = Some (hex_upper frame)
          /\ from_bytes_le (slice 6 8 frame) = read_len
          /\ fst (Hand.read_register ser reg read_len) <> inl Hand.InvalidLength
          /\ fst (Hand.read_register ser reg read_len) <> inl Hand.BuildFailed
          /\ (fst (Hand.send_hex_cmd ser (hex_upper frame)) = true ->
                outbox (snd (Hand.read_register ser reg read_len))
                = outbox ser ++ frame))
  /\ (forall ser reg write_data is_auto_push,
        1 <= len write_data <= 10 -> is_reg_addr reg ->
        exists frame,
          Hand.request_frame_bytes Hand.FUNC_WRITE reg (len write_data) write_data
            = ret frame
          /\ Hand.build_request_frame Hand.FUNC_WRITE reg (len write_data) write_data
             = Some (hex_upper frame)
          /\ from_bytes_le (slice 6 8 frame) = len write_data
          /\ firstn (List.length write_data) (skipn 8 frame) = write_data
          /\ fst (Hand.write_register ser reg write_data is_auto_push)
             <> inl Hand.InvalidLength
          /\ fst (Hand.write_register ser reg write_data is_auto_push)
             <> inl Hand.BuildFailed
          /\ (fst (Hand.send_hex_cmd ser (hex_upper frame)) = true ->
                outbox (snd (Hand.write_register ser reg write_data is_auto_push))
                = outbox ser ++ frame)).
Proof.
  split; [|split; [|split]].
  - intros ser reg read_len H. unfold Hand.read_register.
    rewrite out_of_range_test by exact H. auto.
  - intros ser reg write_data is_auto_push H. unfold Hand.write_register.
    cbv zeta. rewrite out_of_range_test by exact H. auto.
  - intros ser reg read_len Hl Hr.
    destruct (read_request_built reg read_len Hl Hr)
      as (frame & E & B & T & _ & _ & _ & _ & Hdl).
    exists frame. split; [exact E|]. split; [exact B|]. split; [exact Hdl|].
    unfold Hand.read_register.
    rewrite in_range_test by lia. rewrite B, T. cbn [negb].
    destruct (Hand.send_hex_cmd ser (hex_upper frame)) as [sent ser1] eqn:S.
    cbn [fst]. destruct sent; cbn [negb].
    2: { repeat split; discriminate. }
    destruct (send_hex_cmd_sent _ _ _ S) as [Hser1 _].
    pose proof (read_serial_data_outbox ser1 Hand.TIMEOUT_CMD
                  (Some Hand.RESP_HEAD_GENERAL)) as Hout.
    rewrite Hser1 in Hout at 2. cbn [outbox] in Hout.
    split; [|split]; [| |intros _]; split_branches; cbn [fst snd];
      try discriminate; exact Hout.
  - intros ser reg write_data is_auto_push Hl Hr.
    destruct (write_request_built reg write_data Hl Hr)
      as (frame & E & B & T & _ & _ & _ & _ & Hdl & Hwd).
    exists frame. split; [exact E|]. split; [exact B|].
    split; [exact Hdl|]. split; [exact Hwd|].
    unfold Hand.write_register. cbv zeta.
    rewrite in_range_test by lia. rewrite B, T. cbn [negb].
    destruct (Hand.send_hex_cmd ser (hex_upper frame)) as [sent ser1] eqn:S.
    cbn [fst]. destruct sent; cbn [negb].
    2: { repeat split; discriminate. }
    destruct (send_hex_cmd_sent _ _ _ S) as [Hser1 _].
    pose proof (read_serial_data_outbox ser1 Hand.TIMEOUT_CMD
                  (Some (if is_auto_push then Hand.RESP_HEAD_AUTO_PUSH
                         else Hand.RESP_HEAD_GENERAL))) as Hout.
    rewrite Hser1 in Hout at 2. cbn [outbox] in Hout.
    split; [|split]; [| |intros _]; split_branches; cbn [fst snd];
      try discriminate; exact Hout.
Qed.

End RegisterAccess.

(** ** The single exchange of the Usb script *)
Section UsbExchange.
Import Py Protocol.

(** Both configured commands carry seven fixed bytes. *)
Lemma lookup_fixed (command : string) (cfg : Usb.config) :
  Usb.lookup command Usb.command_config = Some cfg ->
  exists fb, remove_spaces (Usb.fixed_fields cfg) = hex_with true fb
          /\ len fb = 7.
Proof.
  unfold Usb.command_config. cbn [Usb.lookup].
  destruct (String.eqb "get_data" command).
  - intros [= <-]. exists [x03; x00; xfb; x0e; x04; x00; x00]. split; reflexivity.
  - destruct (String.eqb "get_resultant_data" command); [|discriminate].
    intros [= <-]. exists [x03; x00; xfb; xf0; x03; x00; x00]. split; reflexivity.
Qed.

Lemma full_req_frame_ok (fb : bytes) (data_length : Z) :
  len fb = 7 -> 0 < data_length <= 65535 ->
  exists frame, Usb.full_req_frame (hex_with true fb) data_length = ret (Some frame).
Proof.
  intros Hfb Hd. unfold Usb.full_req_frame.
  destruct (to_bytes2_le_ok data_length) as (lo & hi & -> & _); [lia|].
  cbn [bind ret]. unfold hex.
  rewrite fromhex_hex_with_app, fromhex_hex_with. cbn [bind ret].
  rewrite len_app, Hfb.
  change (to_bytes2_le (7 + len [lo; hi])) with (ret [x09; x00]).
  cbn [bind ret].
  change "55AA"%string with (hex_with true [x55; xaa]).
  rewrite !fromhex_hex_with_app, fromhex_hex_with. cbn [bind ret].
  eauto.
Qed.

Lemma full_req_frame_overflow (fixed : string) (data_length : Z) :
  65535 < data_length -> Usb.full_req_frame fixed data_length = raise OverflowError.
Proof.
  intros H. unfold Usb.full_req_frame.
  rewrite to_bytes2_le_fails by lia. reflexivity.
Qed.

(** Every path through the checks on the received frame ends in a
    [return None], the fall-through after [data_field] included, and the
    one unguarded indexed read is in range. *)
Lemma check_response_none (response : bytes) :
  exists st, Usb.check_response response = ret (st, None).
Proof.
  unfold Usb.check_response.
  destruct (negb (bytes_eqb (slice 0 2 response) [xaa; x55])); [eauto|].
  destruct (4 + from_bytes_le (slice 2 4 response) >=? len response) eqn:E; [eauto|].
  pose proof (from_bytes_le_nonneg (slice 2 4 response)) as Hn.
  rewrite Z.geb_leb in E. apply Z.leb_gt in E.
  destruct (index_in_range response (Z.to_nat (4 + from_bytes_le (slice 2 4 response))))
    as (c & _ & ->); [unfold len in E; lia|].
  cbn [bind ret].
  destruct (negb _); [eauto|].
  destruct (index response 13) as [e|status]; [eauto|].
  destruct (negb _); [eauto|].
  destruct (_ <=? 0); [eauto|].
  destruct (_ >? _); eauto.
Qed.

(** C10 (as the code has it): [get_ser_response] never hands a value
    other than [None] to its caller.  Whenever it returns it returns
    [None]; a response passing every check has its data field cut out and
    dropped.  For every known command with a [data_length] above 65535 it
    does not return: the conversion to two bytes raises [OverflowError]
    before anything is sent.  On a port whose incoming data come to an
    end and whose reads do not raise (the port model used here) nothing
    else raises, and the function does return for every command name and
    every [data_length] up to 65535. *)
Theorem get_ser_response_yields_none (ser : Serial) (command : string) (data_length : Z) :
  (forall st v, fst (Usb.get_ser_response ser command data_length) = ret (st, v) ->
     v = None)
  /\ (data_length <= 65535 \/ Usb.lookup command Usb.command_config = None ->
        exists st, fst (Usb.get_ser_response ser command data_length) = ret (st, None))
  /\ (forall e, fst (Usb.get_ser_response ser command data_length) = raise e ->
        e = OverflowError /\ 65535 < data_length
        /\ Usb.get_ser_response ser command data_length = (raise OverflowError, ser))
  /\ Usb.get_ser_response
       (mkSerial false 64 []
          [[xaa; x55; x0c; x00; x03; x00; xfb; xf0; x03; x00; x00;
            x02; x00; x00; x11; x22; xcf]])
       "get_resultant_data" 2
     = (ret (Usb.Extracted [x11; x22], None),
        mkSerial false 64
          [x55; xaa; x09; x00; x03; x00; xfb; xf0; x03; x00; x00; x02; x00; x05] [])
  /\ (Usb.lookup command Usb.command_config <> None -> 65535 < data_length ->
        Usb.get_ser_response ser command data_length = (raise OverflowError, ser)).
Proof.
  assert (Hraise :
    Usb.lookup command Usb.command_config <> None -> 65535 < data_length ->
    Usb.get_ser_response ser command data_length = (raise OverflowError, ser)).
  { intros Hl Hd. unfold Usb.get_ser_response.
    destruct (Usb.lookup command Usb.command_config) as [cfg|]; [|congruence].
    replace (data_length <=? 0) with false by (symmetry; apply Z.leb_gt; lia).
    rewrite full_req_frame_overflow by lia. reflexivity. }
  assert (Hcases :
    (exists st, fst (Usb.get_ser_response ser command data_length) = ret (st, None))
    \/ (65535 < data_length
        /\ Usb.lookup command Usb.command_config <> None
        /\ Usb.get_ser_response ser command data_length = (raise OverflowError, ser))).
  { unfold Usb.get_ser_response.
    destruct (Usb.lookup command Usb.command_config) as [cfg|] eqn:L;
      [|left; solve [eexists; reflexivity]].
    destruct (data_length <=? 0) eqn:E0; [left; solve [eexists; reflexivity]|].
    apply Z.leb_gt in E0.
    destruct (lookup_fixed _ _ L) as (fb & -> & Hfb).
    destruct (Z_le_dec data_length 65535) as [Hd|Hd].
    - left. destruct (full_req_frame_ok fb data_length Hfb) as (frame & ->); [lia|].
      unfold ret at 1. cbv iota.
      destruct (Usb.send_hex_data ser frame) as [sent ser1].
      destruct sent; cbn [negb]; [|solve [eexists; reflexivity]].
      destruct (Usb.read_serial_response ser1 500) as [got ser2].
      destruct got as [response|]; [|solve [eexists; reflexivity]].
      destruct (len response <? 18).
      + destruct (Usb.read_all ser2) as [more s]. cbn [fst]. apply check_response_none.
      + cbn [fst]. apply check_response_none.
    - right. rewrite full_req_frame_overflow by lia.
      unfold raise at 1. cbv iota.
      split; [lia|]. split; [congruence | reflexivity]. }
  split; [|split; [|split; [|split]]].
  - intros st v H. destruct Hcases as [(st' & E) | (_ & _ & E)]; rewrite E in H.
    + now injection H as _ <-.
    + discriminate.
  - intros H. destruct Hcases as [E | (Hd & Hl & _)]; [exact E|].
    destruct H; [lia | congruence].
  - intros e H. destruct Hcases as [(st' & E) | (Hd & _ & E)]; rewrite E in H.
    + discriminate.
    + cbn [fst] in H. injection H as <-. auto.
  - vm_compute. reflexivity.
  - exact Hraise.
Qed.

(** C10, as worded, fails for a length that does not fit two bytes: the
    function does not return [None] there, it raises. *)
Lemma get_ser_response_can_raise :
  Usb.get_ser_response (mkSerial false 64 [] []) "get_data" 65536
  = (raise OverflowError, mkSerial false 64 [] []).
Proof. vm_compute. reflexivity. Qed.

End UsbExchange.

(** ** The statements above at concrete frames and ports *)
Section Instances.
Import Py Protocol Samples.

(** Decide a closed side condition by evaluation. *)
Ltac evaluate :=
  first [ reflexivity
        | vm_compute; reflexivity
        | vm_compute; discriminate
        | unfold is_reg_addr, len; cbn [List.length]; lia ].

Lemma lrc_append_is_valid_witness :
  (Hand.request_frame_bytes Hand.FUNC_READ 0 15 []
     = ret [x55; xaa; x00; x03; x00; x00; x0f; x00; xef]
   /\ 9 <= len [x55; xaa; x00; x03; x00; x00; x0f; x00; xef]
   /\ Hand.parse_response [x55; xaa; x00; x03; x00; x00; x0f; x00; xef]
      = inl Hand.BadHead)
  /\ (Hand.build_request_frame Hand.FUNC_READ 0 15 [] = Some "55AA000300000F00EF"%string
      /\ exists frame,
           fromhex "55AA000300000F00EF" = ret frame
           /\ Hand.parse_response frame = inl Hand.BadHead)
  /\ (8 <= len response_header
      /\ slice 0 2 response_header = [xaa; x55]
      /\ nth_error response_header 3 = Some x03
      /\ (byte_val x03 = Hand.FUNC_READ \/ byte_val x03 = Hand.FUNC_WRITE))
  /\ exists c p, to_bytes1 (Hand.calc_lrc response_header) = ret [c]
                /\ Hand.parse_response (response_header ++ [c]) = inr p
                /\ Hand.lrc_valid p = true
                /\ Hand.lrc_calc p = Hand.lrc_recv p.
Proof.
  assert (E : Hand.request_frame_bytes Hand.FUNC_READ 0 15 []
              = ret [x55; xaa; x00; x03; x00; x00; x0f; x00; xef]) by evaluate.
  assert (T : Hand.build_request_frame Hand.FUNC_READ 0 15 []
              = Some "55AA000300000F00EF"%string) by evaluate.
  split; [split; [exact E|split]|split; [split; [exact T|]|split]].
  - apply (proj1 (proj2 lrc_append_is_valid) Hand.FUNC_READ 0 15 []). exact E.
  - apply (proj1 (proj2 (proj2 (proj2 lrc_append_is_valid))) Hand.FUNC_READ 0 15 []).
    exact E.
  - destruct (proj2 (proj2 (proj2 (proj2 lrc_append_is_valid))) _ _ _ _ _ T)
      as (frame & Hf & _ & Hp & _).
    exists frame. split; assumption.
  - repeat split; try evaluate. left. evaluate.
  - apply (proj1 (proj2 (proj2 lrc_append_is_valid)) response_header x03); try evaluate.
    left. evaluate.
Defined.

Lemma parse_response_device_error_witness :
  (8 <= len error_response
   /\ slice 0 2 error_response = [xaa; x55]
   /\ nth_error error_response 3 = Some x83
   /\ Z.land (byte_val x83) 0x80 <> 0)
  /\ exists p,
       Hand.parse_response error_response = inr p
       /\ Hand.returned (Hand.parse_response error_response) = Some p
       /\ Hand.is_error p = true
       /\ Hand.error_code p = Some (Z.land (byte_val x83) 0x7F)
       /\ Hand.func_code p = byte_val x83
       /\ Hand.data p = []
       /\ Hand.lrc_valid p = false.
Proof.
  split.
  - repeat split; evaluate.
  - apply (parse_response_device_error error_response x83); evaluate.
Defined.

Lemma parse_response_total_witness :
  len short_buffer < 8
  /\ Hand.parse_response short_buffer = inl Hand.FrameTooShort
  /\ Hand.returned (Hand.parse_response short_buffer) = None.
Proof.
  split; [evaluate|].
  apply (proj1 (parse_response_total short_buffer)). evaluate.
Defined.

Lemma parse_response_lrc_step_witness :
  (8 <= len read_response
   /\ slice 0 2 read_response = [xaa; x55]
   /\ nth_error read_response 3 = Some x03
   /\ (byte_val x03 = Hand.FUNC_READ \/ byte_val x03 = Hand.FUNC_WRITE))
  /\ exists p,
       Hand.parse_response read_response = inr p
       /\ Hand.is_error p = false
       /\ Hand.func_code p = byte_val x03
       /\ Hand.data p = Hand.extract_data read_response (Hand.data_len p)
       /\ (len read_response = 8 + Hand.data_len p + 1 ->
             Hand.lrc_valid p = lrc_valid_declared read_response).
Proof.
  split.
  - repeat split; try evaluate. left. evaluate.
  - destruct (parse_response_lrc_step read_response x03)
      as (p & E & _ & He & Hf & _ & _ & Hd & _ & _ & Hx); try evaluate.
    + left. evaluate.
    + exists p. repeat split; assumption.
Defined.

Lemma read_serial_data_returns_at_head_witness :
  (List.length Hand.RESP_HEAD_GENERAL = 2%nat
   /\ poll_reached Hand.TIMEOUT_CMD 0 (rx trickling_port) 2 = true
   /\ (forall j, (j < 2)%nat ->
         contains Hand.RESP_HEAD_GENERAL (accumulated (rx trickling_port) j) = false)
   /\ contains Hand.RESP_HEAD_GENERAL (accumulated (rx trickling_port) 2) = true)
  /\ Hand.rd_polls (Hand.read_serial_data trickling_port Hand.TIMEOUT_CMD
                      (Some Hand.RESP_HEAD_GENERAL)) = 3%nat
  /\ rx (Hand.rd_serial (Hand.read_serial_data trickling_port Hand.TIMEOUT_CMD
                           (Some Hand.RESP_HEAD_GENERAL))) = [[x03]].
Proof.
  assert (Hbefore : forall j, (j < 2)%nat ->
            contains Hand.RESP_HEAD_GENERAL (accumulated (rx trickling_port) j) = false).
  { intros j Hj. destruct j as [|[|j]]; [reflexivity | reflexivity | lia]. }
  split.
  - repeat split; try evaluate. exact Hbefore.
  - destruct (read_serial_data_returns_at_head trickling_port Hand.TIMEOUT_CMD
                Hand.RESP_HEAD_GENERAL 2) as (Hp & Hr & _); try evaluate.
    + exact Hbefore.
    + split; [exact Hp | exact Hr].
Defined.

Lemma read_register_outcomes_witness :
  (1 <= 1 <= 512 /\ is_reg_addr 0)
  /\ Hand.parse_response read_response
     = inr (Hand.mkParsed false 0 3 0 1 1 [x42] true 0xBB 0xBB None)
  /\ fst (Hand.read_register answering_port 0 1) = inr [x42]
  /\ outbox (snd (Hand.read_register answering_port 0 1))
     = [x55; xaa; x00; x03; x00; x00; x01; x00; xfd].
Proof.
  split; [split; evaluate|]. split; [evaluate|].
  destruct (read_register_outcomes answering_port 0 1) as (frame & E & _ & H);
    [evaluate | evaluate |].
  vm_compute in E. injection E as <-.
  destruct (H eq_refl) as (Hout & _ & _ & Hresp).
  split; [|exact Hout].
  destruct (Hresp read_response eq_refl) as (_ & _ & _ & _ & Hgood & _).
  exact (proj1 (Hgood (Hand.mkParsed false 0 3 0 1 1 [x42] true 0xBB 0xBB None)
                  eq_refl eq_refl eq_refl)).
Defined.

Lemma request_length_bounds_witness :
  (~ 1 <= 0 <= 512
   /\ Hand.read_register silent_port 0 0 = (inl Hand.InvalidLength, silent_port))
  /\ (~ 1 <= len [] <= 10
      /\ Hand.write_register silent_port 0x17 [] true
         = (inl Hand.InvalidLength, silent_port))
  /\ ((1 <= 15 <= 512 /\ is_reg_addr 0)
      /\ fst (Hand.read_register silent_port 0 15) <> inl Hand.InvalidLength)
  /\ ((1 <= len [x01] <= 10 /\ is_reg_addr 0x17)
      /\ fst (Hand.write_register silent_port 0x17 [x01] true)
         <> inl Hand.InvalidLength).
Proof.
  destruct request_length_bounds as (R & W & RI & WI).
  split; [|split; [|split]].
  - split; [evaluate|]. apply R. evaluate.
  - split; [evaluate|]. apply W. evaluate.
  - split; [split; evaluate|].
    destruct (RI silent_port 0 15) as (frame & _ & _ & _ & H & _);
      [evaluate | evaluate | exact H].
  - split; [split; evaluate|].
    destruct (WI silent_port 0x17 [x01] true) as (frame & _ & _ & _ & _ & H & _);
      [evaluate | evaluate | exact H].
Defined.

Lemma get_ser_response_yields_none_witness :
  ((32 <= 65535 \/ Usb.lookup "get_data" Usb.command_config = None)
   /\ exists st, fst (Usb.get_ser_response silent_port "get_data" 32) = ret (st, None))
  /\ (fst (Usb.get_ser_response silent_port "get_data" 65536) = raise OverflowError
      /\ 65535 < 65536)
  /\ (65535 < 70000
      /\ Usb.get_ser_response answering_port "get_resultant_data" 70000
         = (raise OverflowError, answering_port)).
Proof.
  split; [|split].
  - assert (H : 32 <= 65535 \/ Usb.lookup "get_data" Usb.command_config = None)
      by (left; evaluate).
    split; [exact H|].
    exact (proj1 (proj2 (get_ser_response_yields_none silent_port "get_data" 32)) H).
  - split; [evaluate|].
    destruct (proj1 (proj2 (proj2
                (get_ser_response_yields_none silent_port "get_data" 65536)))
                OverflowError) as (_ & H & _); [evaluate | exact H].
  - assert (H : 65535 < 70000) by evaluate.
    split; [exact H|].
    apply (proj2 (proj2 (proj2 (proj2
             (get_ser_response_yields_none answering_port "get_resultant_data" 70000)))));
      [discriminate | exact H].
Defined.

End Instances.

(** * Further properties of the two scripts *)

(** ** What the checksum detects and what it does not *)
Section ChecksumLaws.
Import Py Protocol.

Lemma byte_sum_app (a b : bytes) : byte_sum (a ++ b) = byte_sum a + byte_sum b.
Proof.
  induction a as [|x a IH]; [reflexivity|].
  change (byte_sum ((x :: a) ++ b)) with (byte_val x + byte_sum (a ++ b)).
  change (byte_sum (x :: a)) with (byte_val x + byte_sum a).
  lia.
Qed.

Lemma byte_sum_single (c : byte) : byte_sum [c] = byte_val c.
Proof. cbn. lia. Qed.

Lemma byte_val_inj (x y : byte) : byte_val x = byte_val y -> x = y.
Proof.
  unfold byte_val. intros H. apply N2Z.inj in H.
  assert (E : Some x = Some y) by (rewrite <- !Byte.of_to_N, H; reflexivity).
  now injection E.
Qed.

(** Two byte values that are congruent modulo 256 are equal. *)
Lemma byte_val_congruent (x y : byte) (s : Z) :
  (- (s + byte_val x)) mod 256 = (- (s + byte_val y)) mod 256 -> x = y.
Proof.
  intros H. apply byte_val_inj.
  pose proof (byte_val_range x). pose proof (byte_val_range y).
  revert H. Z.div_mod_to_equations. lia.
Qed.

(** X1: the LRC of a sequence is 0 exactly when its last byte is the LRC of
    the bytes before it: a receiver may sum the whole frame. *)
Theorem lrc_of_extended_is_zero (b : bytes) (c : byte) :
  (Hand.calc_lrc (b ++ [c]) = 0 <-> byte_val c = Hand.calc_lrc b)
  /\ (Usb.calculate_lrc (b ++ [c]) = 0 <-> byte_val c = Usb.calculate_lrc b).
Proof.
  rewrite ?calc_lrc_eq, ?calculate_lrc_eq. unfold lrc.
  rewrite byte_sum_app, byte_sum_single.
  pose proof (byte_val_range c).
  split; split; intros H0; revert H0; Z.div_mod_to_equations; lia.
Qed.

(** X2: changing one byte of a sequence always changes its LRC, so a frame in
    which a single byte before the checksum was altered never passes the
    parser's comparison. *)
Theorem lrc_detects_single_byte_change (pre post : bytes) (x y c : byte) :
  x <> y ->
  Hand.calc_lrc (pre ++ x :: post) <> Hand.calc_lrc (pre ++ y :: post)
  /\ Usb.calculate_lrc (pre ++ x :: post) <> Usb.calculate_lrc (pre ++ y :: post)
  /\ (byte_val c = Hand.calc_lrc (pre ++ x :: post) ->
      snd (Hand.verify_lrc ((pre ++ y :: post) ++ [c]) (byte_val c)) = false).
Proof.
  intros Hxy.
  assert (Hne : lrc (pre ++ x :: post) <> lrc (pre ++ y :: post)).
  { unfold lrc. rewrite !byte_sum_app.
    change (x :: post) with ([x] ++ post). change (y :: post) with ([y] ++ post).
    rewrite !byte_sum_app, !byte_sum_single. intros H. apply Hxy.
    apply (byte_val_congruent x y (byte_sum pre + byte_sum post)).
    replace (byte_sum pre + byte_sum post + byte_val x)
      with (byte_sum pre + (byte_val x + byte_sum post)) by lia.
    replace (byte_sum pre + byte_sum post + byte_val y)
      with (byte_sum pre + (byte_val y + byte_sum post)) by lia.
    exact H. }
  rewrite ?calc_lrc_eq, ?calculate_lrc_eq.
  split; [exact Hne|]. split; [exact Hne|].
  intros Hc. unfold Hand.verify_lrc.
  destruct (len ((pre ++ y :: post) ++ [c]) >=? 9); [|reflexivity].
  cbn [snd]. rewrite drop_last_snoc, calc_lrc_eq, Hc.
  apply Z.eqb_neq. congruence.
Qed.

Lemma lrc_detects_single_byte_change_witness :
  x42 <> x43
  /\ Hand.calc_lrc ([xaa; x55] ++ x42 :: [x00]) <> Hand.calc_lrc ([xaa; x55] ++ x43 :: [x00]).
Proof.
  assert (H : x42 <> x43) by discriminate.
  split; [exact H|].
  exact (proj1 (lrc_detects_single_byte_change [xaa; x55] [x00] x42 x43 x00 H)).
Defined.

(** X3: the LRC does not depend on the order of the bytes: a frame whose bytes
    were rearranged carries the same checksum. *)
Theorem lrc_ignores_byte_order (b b' : bytes) :
  Permutation b b' ->
  Hand.calc_lrc b = Hand.calc_lrc b' /\ Usb.calculate_lrc b = Usb.calculate_lrc b'.
Proof.
  intros HP. rewrite ?calc_lrc_eq, ?calculate_lrc_eq. unfold lrc.
  assert (E : byte_sum b = byte_sum b').
  { induction HP as [|x l l' _ IH|x y l|l l' l'' _ IH1 _ IH2].
    - reflexivity.
    - change (byte_val x + byte_sum l = byte_val x + byte_sum l'). lia.
    - change (byte_val y + (byte_val x + byte_sum l)
              = byte_val x + (byte_val y + byte_sum l)). lia.
    - congruence. }
  now rewrite E.
Qed.

Lemma lrc_ignores_byte_order_witness :
  Permutation [x01; x02; x03] [x03; x01; x02]
  /\ Hand.calc_lrc [x01; x02; x03] = Hand.calc_lrc [x03; x01; x02].
Proof.
  assert (H : Permutation [x01; x02; x03] [x03; x01; x02]).
  { apply Permutation_sym. apply (Permutation_cons_app [x01; x02] [] x03).
    apply Permutation_refl. }
  split; [exact H|].
  exact (proj1 (lrc_ignores_byte_order _ _ H)).
Defined.

End ChecksumLaws.

(** ** The request frame *)
Section RequestFrame.
Import Py Protocol.

Lemma to_bytes1_fails (n : Z) : ~ 0 <= n < 256 -> to_bytes1 n = raise OverflowError.
Proof.
  intros Hn. unfold to_bytes1.
  destruct ((0 <=? n) && (n <? 256)) eqn:E; [|reflexivity].
  apply andb_true_iff in E as [H1 H2].
  apply Z.leb_le in H1. apply Z.ltb_lt in H2. lia.
Qed.

Lemma hex_with_length (upper : bool) (bs : bytes) :
  String.length (hex_with upper bs) = (2 * List.length bs)%nat.
Proof.
  induction bs as [|b bs IH]; [reflexivity|].
  cbn [hex_with hex_of_byte String.append String.length List.length].
  rewrite IH. lia.
Qed.

(** The builder raises exactly when one of its integers does not fit its
    field. *)
Lemma request_frame_bytes_defined (fc reg dl : Z) (wd : bytes) :
  (exists frame, Hand.request_frame_bytes fc reg dl wd = ret frame)
  <-> (0 <= fc < 256 /\ 0 <= reg < 65536 /\ 0 <= dl < 65536).
Proof.
  split.
  - intros (frame & H). unfold Hand.request_frame_bytes in H.
    destruct (Z_le_dec 0 reg), (Z_lt_dec reg 65536);
      try (rewrite (to_bytes2_le_fails reg) in H by lia; discriminate).
    destruct (to_bytes2_le_ok reg) as (r0 & r1 & Er & _); [lia|].
    rewrite Er in H. cbn [bind ret] in H.
    destruct (Z_le_dec 0 dl), (Z_lt_dec dl 65536);
      try (rewrite (to_bytes2_le_fails dl) in H by lia; discriminate).
    destruct (to_bytes2_le_ok dl) as (d0 & d1 & Ed & _); [lia|].
    rewrite Ed in H. cbn [bind ret] in H.
    destruct (Z_le_dec 0 fc), (Z_lt_dec fc 256);
      try (rewrite (to_bytes1_fails fc) in H by lia; discriminate).
    lia.
  - intros (Hfc & Hreg & Hdl).
    destruct (request_frame_bytes_ok fc reg dl wd Hfc Hreg Hdl)
      as (f & r0 & r1 & d0 & d1 & c & E & _).
    eauto.
Qed.

(** X4: [build_request_frame] returns [None] exactly when the function
    code does not fit one byte or the address or the length field does not
    fit two; otherwise it returns upper-case hex text of [2 * (9 + len
    write_data)] characters from which [bytes.fromhex] recovers the frame.
    The length field is not compared with the payload. *)
Theorem build_request_frame_none_iff (fc reg dl : Z) (wd : bytes) :
  (Hand.build_request_frame fc reg dl wd = None
   <-> ~ (0 <= fc < 256 /\ 0 <= reg < 65536 /\ 0 <= dl < 65536))
  /\ (forall s, Hand.build_request_frame fc reg dl wd = Some s ->
        exists frame,
          Hand.request_frame_bytes fc reg dl wd = ret frame
          /\ s = hex_upper frame
          /\ fromhex s = ret frame
          /\ String.length s = (2 * (9 + List.length wd))%nat).
Proof.
  pose proof (request_frame_bytes_defined fc reg dl wd) as [Hd1 Hd2].
  unfold Hand.build_request_frame.
  destruct (Hand.request_frame_bytes fc reg dl wd) as [e|frame] eqn:E;
    cbn [bind ret try_except].
  - split; [|discriminate].
    split; [|reflexivity]. intros _ Hr.
    destruct (Hd2 Hr) as (frame & Hf). discriminate.
  - split.
    + split; [discriminate|]. intros Hn. exfalso. apply Hn. apply Hd1. eauto.
    + intros s [= <-]. exists frame. split; [reflexivity|]. split; [reflexivity|].
      split; [apply fromhex_hex_with|].
      unfold hex_upper. rewrite hex_with_length.
      destruct (request_frame_bytes_shape _ _ _ _ _ E) as (body & c & -> & _ & Hl).
      rewrite length_app. cbn [List.length]. unfold len in Hl. lia.
Qed.

Lemma build_request_frame_none_iff_witness :
  Hand.build_request_frame Hand.FUNC_READ 65536 1 [] = None
  /\ exists frame,
       Hand.request_frame_bytes Hand.FUNC_WRITE 0x17 1 [x01] = ret frame
       /\ fromhex "55AA00101700010001D8" = ret frame.
Proof.
  split.
  - apply (proj1 (build_request_frame_none_iff Hand.FUNC_READ 65536 1 [])).
    intros (_ & H & _). lia.
  - destruct (proj2 (build_request_frame_none_iff Hand.FUNC_WRITE 0x17 1 [x01])
                "55AA00101700010001D8"%string eq_refl) as (frame & E & _ & F & _).
    exists frame. split; assumption.
Defined.

(** X5: every frame the builder returns is laid out as head 55 AA, a zero
    byte, the function code, the address and the length little-endian, the
    payload, and the LRC of all that; each field reads back as the argument
    it was built from. *)
Theorem request_frame_layout (fc reg dl : Z) (wd frame : bytes) :
  Hand.request_frame_bytes fc reg dl wd = ret frame ->
  slice 0 3 frame = [x55; xaa; x00]
  /\ index frame 3 = ret fc
  /\ from_bytes_le (slice 4 6 frame) = reg
  /\ from_bytes_le (slice 6 8 frame) = dl
  /\ slice 8 (8 + List.length wd) frame = wd
  /\ len frame = 9 + len wd
  /\ index_last frame = ret (Hand.calc_lrc (drop_last frame)).
Proof.
  intros H.
  destruct (proj1 (request_frame_bytes_defined fc reg dl wd)) as (Hfc & Hreg & Hdl);
    [eauto|].
  destruct (request_frame_bytes_ok fc reg dl wd Hfc Hreg Hdl)
    as (f & r0 & r1 & d0 & d1 & c & E & Hf & Hr & Hd & Hc).
  rewrite E in H. injection H as <-.
  split; [reflexivity|].
  split; [cbn; now rewrite Hf|].
  split; [cbn [app slice skipn firstn Nat.sub from_bytes_le]; lia|].
  split; [cbn [app slice skipn firstn Nat.sub from_bytes_le]; lia|].
  split.
  { unfold slice. cbn [app skipn].
    replace (8 + List.length wd - 8)%nat with (List.length wd) by lia.
    rewrite firstn_app, Nat.sub_diag, firstn_all. cbn [firstn]. apply app_nil_r. }
  split; [unfold len; cbn [app List.length]; rewrite ?length_app;
          cbn [List.length]; lia|].
  change (x55 :: xaa :: x00 :: f :: r0 :: r1 :: d0 :: d1 :: wd ++ [c])
    with ((x55 :: xaa :: x00 :: f :: r0 :: r1 :: d0 :: d1 :: wd) ++ [c]).
  rewrite index_last_snoc, drop_last_snoc. now rewrite Hc.
Qed.

Lemma request_frame_layout_witness :
  Hand.request_frame_bytes Hand.FUNC_READ 0x0102 15 []
    = ret [x55; xaa; x00; x03; x02; x01; x0f; x00; xec]
  /\ from_bytes_le (slice 4 6 [x55; xaa; x00; x03; x02; x01; x0f; x00; xec]) = 0x0102
  /\ from_bytes_le (slice 6 8 [x55; xaa; x00; x03; x02; x01; x0f; x00; xec]) = 15.
Proof.
  assert (E : Hand.request_frame_bytes Hand.FUNC_READ 0x0102 15 []
              = ret [x55; xaa; x00; x03; x02; x01; x0f; x00; xec])
    by (vm_compute; reflexivity).
  split; [exact E|].
  destruct (request_frame_layout _ _ _ _ _ E) as (_ & _ & Hr & Hd & _).
  split; assumption.
Defined.

End RequestFrame.

(** ** Decoding general responses *)
Section ResponseDecoding.
Import Py Protocol.

Lemma removelast_firstn_len {A} (l : list A) :
  removelast l = firstn (List.length l - 1) l.
Proof.
  destruct l as [|a l] using rev_ind; [reflexivity|].
  rewrite removelast_last, length_app. cbn [List.length].
  replace (List.length l + 1 - 1)%nat with (List.length l) by lia.
  rewrite firstn_app, Nat.sub_diag, firstn_all. cbn [firstn].
  now rewrite app_nil_r.
Qed.

Lemma skipn_removelast {A} (n : nat) (l : list A) :
  skipn n (removelast l) = firstn (List.length l - 1 - n) (skipn n l).
Proof.
  rewrite removelast_firstn_len. apply skipn_firstn_comm.
Qed.

(** What the payload step cuts out, for any buffer and declared length. *)
Lemma extract_data_prefix (r : bytes) (dl : Z) :
  0 <= dl ->
  exists n, Hand.extract_data r dl = firstn n (skipn 8 r)
         /\ len (Hand.extract_data r dl) <= dl
         /\ (len (Hand.extract_data r dl) = dl <-> dl = 0 \/ 8 + dl + 1 <= len r).
Proof.
  intros Hdl. unfold Hand.extract_data.
  destruct (dl >? 0) eqn:Epos.
  - rewrite Z.gtb_ltb in Epos. apply Z.ltb_lt in Epos.
    destruct (len r >=? 8 + dl + 1) eqn:Elen; cbn [andb].
    + rewrite Z.geb_leb in Elen. apply Z.leb_le in Elen.
      unfold slice.
      replace (8 + Z.to_nat dl - 8)%nat with (Z.to_nat dl) by lia.
      exists (Z.to_nat dl). split; [reflexivity|].
      assert (L : len (firstn (Z.to_nat dl) (skipn 8 r)) = dl).
      { unfold len in *. rewrite length_firstn, length_skipn. lia. }
      rewrite L. split; [lia|]. split; intros _; [right; lia | reflexivity].
    + rewrite Z.geb_leb in Elen. apply Z.leb_gt in Elen.
      destruct (len r >? 8) eqn:E8.
      * rewrite Z.gtb_ltb in E8. apply Z.ltb_lt in E8.
        unfold slice_to_last. rewrite skipn_removelast.
        exists (List.length r - 1 - 8)%nat. split; [reflexivity|].
        assert (L : len (firstn (List.length r - 1 - 8) (skipn 8 r)) = len r - 9).
        { unfold len in *. rewrite length_firstn, length_skipn. lia. }
        rewrite L. split; [lia|]. split; lia.
      * rewrite Z.gtb_ltb in E8. apply Z.ltb_ge in E8.
        exists 0%nat. split; [reflexivity|]. unfold len in *. cbn [List.length].
        split; [lia|]. split; lia.
  - rewrite Z.gtb_ltb in Epos. apply Z.ltb_ge in Epos. cbn [andb].
    exists 0%nat. split; [reflexivity|]. unfold len in *. cbn [List.length].
    split; [lia|]. split; [left|]; lia.
Qed.

(** Whatever [parse_response] accepts started with the general head. *)
Lemma parse_response_accepts_head (r : bytes) (p : Hand.parsed) :
  Hand.parse_response r = inr p ->
  8 <= len r /\ slice 0 2 r = Hand.RESP_HEAD_GENERAL.
Proof.
  intros H. destruct (Z_lt_le_dec (len r) 8) as [Hs|Hl].
  - rewrite parse_response_short in H by exact Hs. discriminate.
  - split; [exact Hl|].
    destruct (parse_response_long r Hl) as (b2 & b3 & lrc_recv & _ & _ & _ & E).
    rewrite E in H.
    destruct (bytes_eqb (slice 0 2 r) Hand.RESP_HEAD_GENERAL) eqn:B;
      [|discriminate].
    unfold bytes_eqb in B.
    destruct (list_eq_dec Byte.byte_eq_dec (slice 0 2 r) Hand.RESP_HEAD_GENERAL);
      [assumption | discriminate].
Qed.

(** X6: the payload [parse_response] returns is always a prefix of the
    bytes that follow the eight header bytes and is never longer than the
    declared length; in a non-error result it has the declared length
    exactly when that length is zero or the buffer holds the whole frame,
    checksum byte included. *)
Theorem parse_response_payload_bounds (r : bytes) (p : Hand.parsed) :
  Hand.parse_response r = inr p ->
  (exists n, Hand.data p = firstn n (skipn 8 r))
  /\ 0 <= len (Hand.data p) <= Hand.data_len p
  /\ (Hand.is_error p = false ->
      (len (Hand.data p) = Hand.data_len p
       <-> Hand.data_len p = 0 \/ 8 + Hand.data_len p + 1 <= len r)).
Proof.
  intros H.
  destruct (parse_response_accepts_head r p H) as [Hl Hh].
  destruct (parse_response_long r Hl) as (b2 & b3 & lrc_recv & _ & _ & _ & E).
  rewrite E, Hh in H.
  replace (negb (bytes_eqb Hand.RESP_HEAD_GENERAL Hand.RESP_HEAD_GENERAL))
    with false in H by reflexivity.
  pose proof (from_bytes_le_nonneg (slice 6 8 r)) as Hdl.
  unfold Hand.decode in H.
  destruct (negb (Z.land (byte_val b3) 128 =? 0)).
  - injection H as <-. cbn [Hand.data Hand.data_len Hand.is_error].
    split; [exists 0%nat; reflexivity|].
    split; [unfold len; cbn [List.length]; lia | discriminate].
  - destruct (negb _); [discriminate|].
    destruct (Hand.verify_lrc r lrc_recv) as [c v].
    injection H as <-. cbn [Hand.data Hand.data_len Hand.is_error].
    destruct (extract_data_prefix r _ Hdl) as (n & Hn & Hle & Hiff).
    split; [eauto|]. split; [pose proof (len_nonneg (Hand.extract_data r
      (from_bytes_le (slice 6 8 r)))); lia|].
    intros _. exact Hiff.
Qed.

Lemma parse_response_payload_bounds_witness :
  Hand.parse_response [xaa; x55; x00; x03; x00; x00; x03; x00; x41; x42]
    = inr (Hand.mkParsed false 0 3 0 3 1 [x41] false 0xBA 0x42 None)
  /\ 0 <= len [x41] <= 3.
Proof.
  assert (E : Hand.parse_response [xaa; x55; x00; x03; x00; x00; x03; x00; x41; x42]
              = inr (Hand.mkParsed false 0 3 0 3 1 [x41] false 0xBA 0x42 None))
    by (vm_compute; reflexivity).
  split; [exact E|].
  exact (proj1 (proj2 (parse_response_payload_bounds _ _ E))).
Defined.

(** X7: a complete general response is decoded to exactly what it encodes:
    the reserved byte, the function code, the address and the length read
    little-endian, the payload, and a checksum reported valid. *)
Theorem parse_response_round_trip
    (rsv f r0 r1 d0 d1 c : byte) (payload : bytes) :
  byte_val f = Hand.FUNC_READ \/ byte_val f = Hand.FUNC_WRITE ->
  byte_val d0 + 256 * byte_val d1 = len payload ->
  byte_val c
    = Hand.calc_lrc (xaa :: x55 :: rsv :: f :: r0 :: r1 :: d0 :: d1 :: payload) ->
  Hand.parse_response
    ((xaa :: x55 :: rsv :: f :: r0 :: r1 :: d0 :: d1 :: payload) ++ [c])
  = inr (Hand.mkParsed false (byte_val rsv) (byte_val f)
           (byte_val r0 + 256 * byte_val r1) (len payload) (len payload)
           payload true (byte_val c) (byte_val c) None).
Proof.
  intros Hf Hd Hc.
  set (body := xaa :: x55 :: rsv :: f :: r0 :: r1 :: d0 :: d1 :: payload).
  assert (Hb : 8 <= len body)
    by (subst body; unfold len; cbn [List.length]; lia).
  assert (Hlen : len (body ++ [c]) = 8 + len payload + 1)
    by (rewrite len_app; subst body; unfold len; cbn [List.length]; lia).
  pose proof (len_nonneg payload) as Hp.
  destruct (parse_response_long (body ++ [c])) as (b2 & b3 & lrc_recv & N2 & N3 & HL & E);
    [lia|].
  subst body. cbn [app nth_error] in N2, N3.
  injection N2 as <-. injection N3 as <-.
  set (body := xaa :: x55 :: rsv :: f :: r0 :: r1 :: d0 :: d1 :: payload) in *.
  rewrite E. clear E.
  replace (negb (bytes_eqb (slice 0 2 (body ++ [c])) Hand.RESP_HEAD_GENERAL))
    with false by reflexivity.
  replace (len (body ++ [c]) >=? 9) with true in HL
    by (symmetry; apply geb_true; lia).
  rewrite index_last_snoc in HL. injection HL as <-.
  rewrite decode_normal by exact Hf.
  rewrite verify_lrc_snoc by assumption. cbn [fst snd].
  assert (Hs46 : from_bytes_le (slice 4 6 (body ++ [c]))
                 = byte_val r0 + 256 * byte_val r1)
    by (subst body; cbn [app slice skipn firstn Nat.sub from_bytes_le]; lia).
  assert (Hs68 : from_bytes_le (slice 6 8 (body ++ [c])) = len payload)
    by (subst body; cbn [app slice skipn firstn Nat.sub from_bytes_le]; lia).
  rewrite Hs46, Hs68, Hlen.
  replace (8 + len payload + 1 >? 8) with true
    by (symmetry; rewrite Z.gtb_ltb; apply Z.ltb_lt; lia).
  replace (8 + len payload + 1 - 9) with (len payload) by lia.
  assert (Hx : Hand.extract_data (body ++ [c]) (len payload) = payload).
  { unfold Hand.extract_data. rewrite Hlen.
    replace (8 + len payload + 1 >=? 8 + len payload + 1) with true
      by (symmetry; apply geb_true; lia).
    destruct (len payload >? 0) eqn:Epos; cbn [andb].
    - unfold slice. subst body. cbn [app skipn].
      replace (8 + Z.to_nat (len payload) - 8)%nat with (List.length payload)
        by (unfold len; lia).
      rewrite firstn_app, Nat.sub_diag, firstn_all. cbn [firstn]. apply app_nil_r.
    - rewrite Z.gtb_ltb in Epos. apply Z.ltb_ge in Epos.
      destruct payload; [reflexivity|]. unfold len in Epos. cbn [List.length] in Epos. lia. }
  rewrite Hx. reflexivity.
Qed.

Lemma parse_response_round_trip_witness :
  ((byte_val x03 = Hand.FUNC_READ \/ byte_val x03 = Hand.FUNC_WRITE)
   /\ byte_val x02 + 256 * byte_val x00 = len [x41; x42]
   /\ byte_val x63
      = Hand.calc_lrc (xaa :: x55 :: x00 :: x03 :: x16 :: x00 :: x02 :: x00 :: [x41; x42]))
  /\ Hand.parse_response
       ((xaa :: x55 :: x00 :: x03 :: x16 :: x00 :: x02 :: x00 :: [x41; x42]) ++ [x63])
     = inr (Hand.mkParsed false (byte_val x00) (byte_val x03)
              (byte_val x16 + 256 * byte_val x00) (len [x41; x42]) (len [x41; x42])
              [x41; x42] true (byte_val x63) (byte_val x63) None).
Proof.
  assert (H1 : byte_val x03 = Hand.FUNC_READ \/ byte_val x03 = Hand.FUNC_WRITE)
    by (left; reflexivity).
  assert (H2 : byte_val x02 + 256 * byte_val x00 = len [x41; x42]) by reflexivity.
  assert (H3 : byte_val x63
               = Hand.calc_lrc (xaa :: x55 :: x00 :: x03 :: x16 :: x00 :: x02 :: x00
                                  :: [x41; x42])) by (vm_compute; reflexivity).
  split; [auto|].
  exact (parse_response_round_trip x00 x03 x16 x00 x02 x00 x63 [x41; x42] H1 H2 H3).
Defined.

End ResponseDecoding.

(** ** Decoding auto-push frames *)
Section AutoPushDecoding.
Import Py Protocol.

(** The payload step of the two auto-push parsers. *)
Lemma auto_payload_prefix (r : bytes) (vdl : Z) :
  let valid_data :=
    if vdl >? 0 then
      if 6 + vdl <=? len r - 1 then slice 6 (Z.to_nat (6 + vdl)) r
      else slice_to_last 6 r
    else [] in
  (exists n, valid_data = firstn n (skipn 6 r))
  /\ (6 + vdl + 1 <= len r -> len valid_data = Z.max 0 vdl).
Proof.
  cbv zeta. destruct (vdl >? 0) eqn:Epos.
  - rewrite Z.gtb_ltb in Epos. apply Z.ltb_lt in Epos.
    destruct (6 + vdl <=? len r - 1) eqn:Ele.
    + apply Z.leb_le in Ele. unfold slice.
      split; [eauto|]. intros _.
      unfold len in *. rewrite length_firstn, length_skipn. lia.
    + apply Z.leb_gt in Ele. unfold slice_to_last. rewrite skipn_removelast.
      split; [eauto|]. lia.
  - rewrite Z.gtb_ltb in Epos. apply Z.ltb_ge in Epos.
    split; [exists 0%nat; reflexivity|]. intros _. unfold len. cbn [List.length]. lia.
Qed.

(** With seven bytes or more the three indexed reads succeed. *)
Lemma auto_reads_in_range (r : bytes) :
  7 <= len r ->
  exists b2 b5 c,
    index r 2 = ret (byte_val b2) /\ nth_error r 5 = Some b5
    /\ index r 5 = ret (byte_val b5)
    /\ (if len r >=? 7 then index_last r else ret 0) = ret (byte_val c)
    /\ r = drop_last r ++ [c].
Proof.
  intros H. unfold len in H.
  destruct (index_in_range r 2) as (b2 & _ & I2); [lia|].
  destruct (index_in_range r 5) as (b5 & N5 & I5); [lia|].
  destruct (index_last_nonempty r) as (c & Hc & Hr).
  { intros ->. cbn in H. lia. }
  exists b2, b5, c. rewrite geb_true by (unfold len; lia). auto.
Qed.

(** X8: [parse_auto_push_data] decodes exactly as [parse_auto_response]
    does, on every buffer: the same failure, or the same fields, to which it
    adds the expected length and whether the decoded data length equals it
    (never so when no expected length is given). *)
Theorem parse_auto_push_data_agrees (data : bytes) (expected_length : Z) :
  Hand.parse_auto_push_data data expected_length
  = match Hand.parse_auto_response data with
    | inl f => inl f
    | inr a =>
        inr (Hand.mkPush (Hand.head a) (Hand.a_reserved a) (Hand.valid_frame_len a)
               (Hand.a_error_code a) (Hand.valid_data a) (Hand.valid_data_len a)
               expected_length
               (if expected_length >? 0
                then Hand.valid_data_len a =? expected_length else false)
               (Hand.a_lrc_valid a) (Hand.a_lrc_calc a) (Hand.a_lrc_recv a))
    end.
Proof.
  unfold Hand.parse_auto_push_data, Hand.parse_auto_response,
    Hand.parse_auto_push_data_body, Hand.parse_auto_response_body.
  change Hand.AUTO_PUSH_FRAME_HEAD with Hand.RESP_HEAD_AUTO_PUSH.
  destruct (len data <? 7); [reflexivity|].
  destruct (negb (bytes_eqb (slice 0 2 data) Hand.RESP_HEAD_AUTO_PUSH)); [reflexivity|].
  destruct (index data 2) as [e|rsv]; [reflexivity|].
  destruct (index data 5) as [e|err]; [reflexivity|].
  cbn [bind].
  destruct (if len data >=? 7 then index_last data else ret 0) as [e|lrc_recv];
    [reflexivity|].
  cbn [bind].
  destruct (len data >=? 6 + (from_bytes_le (slice 3 5 data) - 1) + 1); reflexivity.
Qed.

Lemma parse_auto_response_short (r : bytes) :
  len r < 7 -> Hand.parse_auto_response r = inl Hand.FrameTooShort.
Proof.
  intros H. unfold Hand.parse_auto_response, Hand.parse_auto_response_body.
  replace (len r <? 7) with true by (symmetry; apply Z.ltb_lt; lia). reflexivity.
Qed.

(** The result for seven bytes or more, written out. *)
Lemma parse_auto_response_long (r : bytes) :
  7 <= len r ->
  exists b2 b5 c,
    nth_error r 5 = Some b5
    /\ Hand.parse_auto_response r
       = if negb (bytes_eqb (slice 0 2 r) Hand.RESP_HEAD_AUTO_PUSH)
         then inl Hand.BadHead
         else
           let vdl := from_bytes_le (slice 3 5 r) - 1 in
           let '(lrc_calc, lrc_valid) :=
             if len r >=? 6 + vdl + 1
             then (Hand.calc_lrc (drop_last r),
                   Hand.calc_lrc (drop_last r) =? byte_val c)
             else (0, false) in
           inr (Hand.mkAuto (hex (slice 0 2 r)) (byte_val b2)
                  (from_bytes_le (slice 3 5 r)) (byte_val b5)
                  (if vdl >? 0 then
                     if 6 + vdl <=? len r - 1
                     then slice 6 (Z.to_nat (6 + vdl)) r
                     else slice_to_last 6 r
                   else [])
                  vdl lrc_valid lrc_calc (byte_val c)).
Proof.
  intros H. destruct (auto_reads_in_range r H) as (b2 & b5 & c & I2 & N5 & I5 & IL & _).
  exists b2, b5, c. split; [exact N5|].
  unfold Hand.parse_auto_response, Hand.parse_auto_response_body.
  replace (len r <? 7) with false by (symmetry; apply Z.ltb_ge; lia).
  destruct (negb (bytes_eqb (slice 0 2 r) Hand.RESP_HEAD_AUTO_PUSH)); [reflexivity|].
  rewrite I2, I5. cbn [bind ret]. rewrite IL. cbn [bind ret].
  destruct (len r >=? 6 + (from_bytes_le (slice 3 5 r) - 1) + 1); reflexivity.
Qed.

Lemma parse_auto_response_bad_head (r : bytes) :
  7 <= len r -> slice 0 2 r <> [xaa; x56] ->
  Hand.parse_auto_response r = inl Hand.BadHead.
Proof.
  intros H Hh. destruct (parse_auto_response_long r H) as (b2 & b5 & c & _ & ->).
  unfold bytes_eqb.
  destruct (list_eq_dec Byte.byte_eq_dec (slice 0 2 r) Hand.RESP_HEAD_AUTO_PUSH);
    [contradiction | reflexivity].
Qed.

Lemma parse_auto_push_data_bad_head (r : bytes) (n : Z) :
  7 <= len r -> slice 0 2 r <> [xaa; x56] ->
  Hand.parse_auto_push_data r n = inl Hand.BadHead.
Proof.
  intros H Hh. unfold Hand.parse_auto_push_data, Hand.parse_auto_push_data_body.
  replace (len r <? 7) with false by (symmetry; apply Z.ltb_ge; lia).
  unfold bytes_eqb.
  destruct (list_eq_dec Byte.byte_eq_dec (slice 0 2 r) Hand.AUTO_PUSH_FRAME_HEAD);
    [contradiction | reflexivity].
Qed.

(** The error code of an accepted auto-push frame is its byte at offset 5. *)
Lemma parse_auto_response_error_code (r : bytes) (b5 : byte) :
  7 <= len r -> slice 0 2 r = [xaa; x56] -> nth_error r 5 = Some b5 ->
  exists a, Hand.parse_auto_response r = inr a /\ Hand.a_error_code a = byte_val b5.
Proof.
  intros H Hh N5. destruct (parse_auto_response_long r H) as (b2 & b5' & c & N5' & ->).
  assert (b5' = b5) as -> by congruence.
  rewrite Hh.
  replace (negb (bytes_eqb [xaa; x56] Hand.RESP_HEAD_AUTO_PUSH)) with false
    by reflexivity.
  cbv zeta. destruct (len r >=? _); eexists; split; reflexivity.
Qed.

(** X9: the auto-push parsers never raise.  Fewer than seven bytes and a
    head other than AA 56 are turned away; any other buffer is decoded, with
    the error code taken from offset 5 and the data length one less than the
    little-endian length at offsets 3..4.  The data returned is a prefix of
    what follows offset 6, and the checksum is reported valid only for a
    buffer that holds the whole declared frame. *)
Theorem parse_auto_response_total (r : bytes) :
  (len r < 7 -> Hand.parse_auto_response r = inl Hand.FrameTooShort)
  /\ (7 <= len r -> slice 0 2 r <> [xaa; x56] ->
        Hand.parse_auto_response r = inl Hand.BadHead)
  /\ (forall b5, 7 <= len r -> slice 0 2 r = [xaa; x56] -> nth_error r 5 = Some b5 ->
        exists a,
          Hand.parse_auto_response r = inr a
          /\ Hand.a_error_code a = byte_val b5
          /\ Hand.valid_frame_len a = from_bytes_le (slice 3 5 r)
          /\ Hand.valid_data_len a = Hand.valid_frame_len a - 1
          /\ (exists n, Hand.valid_data a = firstn n (skipn 6 r))
          /\ (Hand.a_lrc_valid a = true ->
                6 + Hand.valid_data_len a + 1 <= len r
                /\ len (Hand.valid_data a) = Z.max 0 (Hand.valid_data_len a)))
  /\ (forall e, Hand.parse_auto_response r <> inl (Hand.ParseException e)).
Proof.
  split; [apply parse_auto_response_short|].
  split; [apply parse_auto_response_bad_head|]. split.
  - intros b5 H Hh N5.
    destruct (parse_auto_response_long r H) as (b2 & b5' & c & N5' & ->).
    assert (b5' = b5) as -> by congruence.
    rewrite Hh.
    replace (negb (bytes_eqb [xaa; x56] Hand.RESP_HEAD_AUTO_PUSH)) with false
      by reflexivity.
    cbv zeta.
    pose proof (auto_payload_prefix r (from_bytes_le (slice 3 5 r) - 1)) as [Hpre Hfull].
    cbv zeta in Hpre, Hfull.
    destruct (len r >=? 6 + (from_bytes_le (slice 3 5 r) - 1) + 1) eqn:Eg.
    + eexists. split; [reflexivity|].
      cbn [Hand.a_error_code Hand.valid_frame_len Hand.valid_data_len
           Hand.valid_data Hand.a_lrc_valid].
      rewrite Z.geb_leb in Eg. apply Z.leb_le in Eg.
      repeat (split; [reflexivity|]). split; [exact Hpre|].
      intros _. split; [lia | apply Hfull; lia].
    + eexists. split; [reflexivity|].
      cbn [Hand.a_error_code Hand.valid_frame_len Hand.valid_data_len
           Hand.valid_data Hand.a_lrc_valid].
      repeat (split; [reflexivity|]). split; [exact Hpre | discriminate].
  - intros e. destruct (Z_lt_le_dec (len r) 7) as [H|H].
    + rewrite parse_auto_response_short by exact H. discriminate.
    + destruct (parse_auto_response_long r H) as (b2 & b5 & c & _ & ->).
      destruct (negb _); [discriminate|]. cbv zeta.
      destruct (len r >=? _); discriminate.
Qed.

Lemma parse_auto_response_total_witness :
  len [xaa; x56; x00] < 7
  /\ Hand.parse_auto_response [xaa; x56; x00] = inl Hand.FrameTooShort.
Proof.
  assert (H : len [xaa; x56; x00] < 7) by (vm_compute; reflexivity).
  split; [exact H|].
  exact (proj1 (parse_auto_response_total [xaa; x56; x00]) H).
Defined.

(** X10: a complete auto-push frame is decoded to exactly what it encodes:
    the reserved byte, the frame length read little-endian, the error code,
    the data (one byte fewer than the frame length says) and a checksum
    reported valid. *)
Theorem parse_auto_response_round_trip
    (rsv l0 l1 err c : byte) (payload : bytes) :
  byte_val l0 + 256 * byte_val l1 = len payload + 1 ->
  byte_val c = Hand.calc_lrc (xaa :: x56 :: rsv :: l0 :: l1 :: err :: payload) ->
  Hand.parse_auto_response ((xaa :: x56 :: rsv :: l0 :: l1 :: err :: payload) ++ [c])
  = inr (Hand.mkAuto "aa56" (byte_val rsv) (len payload + 1) (byte_val err)
           payload (len payload) true (byte_val c) (byte_val c)).
Proof.
  intros Hl Hc.
  set (body := xaa :: x56 :: rsv :: l0 :: l1 :: err :: payload) in *.
  pose proof (len_nonneg payload) as Hp.
  assert (Hlen : len (body ++ [c]) = 6 + len payload + 1)
    by (rewrite len_app; subst body; unfold len; cbn [List.length]; lia).
  unfold Hand.parse_auto_response, Hand.parse_auto_response_body.
  replace (len (body ++ [c]) <? 7) with false by (symmetry; apply Z.ltb_ge; lia).
  replace (len (body ++ [c]) >=? 7) with true by (symmetry; apply geb_true; lia).
  rewrite index_last_snoc.
  replace (negb (bytes_eqb (slice 0 2 (body ++ [c])) Hand.RESP_HEAD_AUTO_PUSH))
    with false by reflexivity.
  replace (index (body ++ [c]) 2) with (ret (A:=Z) (byte_val rsv)) by reflexivity.
  replace (index (body ++ [c]) 5) with (ret (A:=Z) (byte_val err)) by reflexivity.
  cbn [bind ret try_except].
  assert (Hs : from_bytes_le (slice 3 5 (body ++ [c])) = len payload + 1)
    by (subst body; cbn [app slice skipn firstn Nat.sub from_bytes_le]; lia).
  rewrite Hs, Hlen, drop_last_snoc, <- Hc, Z.eqb_refl.
  replace (len payload + 1 - 1) with (len payload) by lia.
  replace (6 + len payload + 1 >=? 6 + len payload + 1) with true
    by (symmetry; apply geb_true; lia).
  replace (6 + len payload <=? 6 + len payload + 1 - 1) with true
    by (symmetry; apply Z.leb_le; lia).
  replace (hex (slice 0 2 (body ++ [c]))) with "aa56"%string by reflexivity.
  assert (Hx : (if len payload >? 0
                then slice 6 (Z.to_nat (6 + len payload)) (body ++ [c])
                else []) = payload).
  { destruct (len payload >? 0) eqn:Epos.
    - unfold slice. subst body. cbn [app skipn].
      replace (Z.to_nat (6 + len payload) - 6)%nat with (List.length payload)
        by (unfold len; lia).
      rewrite firstn_app, Nat.sub_diag, firstn_all. cbn [firstn]. apply app_nil_r.
    - rewrite Z.gtb_ltb in Epos. apply Z.ltb_ge in Epos.
      destruct payload; [reflexivity|]. unfold len in Epos.
      cbn [List.length] in Epos. lia. }
  rewrite Hx. reflexivity.
Qed.

Lemma parse_auto_response_round_trip_witness :
  (byte_val x03 + 256 * byte_val x00 = len [x11; x22] + 1
   /\ byte_val xca = Hand.calc_lrc (xaa :: x56 :: x00 :: x03 :: x00 :: x00 :: [x11; x22]))
  /\ Hand.parse_auto_response
       ((xaa :: x56 :: x00 :: x03 :: x00 :: x00 :: [x11; x22]) ++ [xca])
     = inr (Hand.mkAuto "aa56" (byte_val x00) (len [x11; x22] + 1) (byte_val x00)
              [x11; x22] (len [x11; x22]) true (byte_val xca) (byte_val xca)).
Proof.
  assert (H1 : byte_val x03 + 256 * byte_val x00 = len [x11; x22] + 1) by reflexivity.
  assert (H2 : byte_val xca
               = Hand.calc_lrc (xaa :: x56 :: x00 :: x03 :: x00 :: x00 :: [x11; x22]))
    by (vm_compute; reflexivity).
  split; [auto|].
  exact (parse_auto_response_round_trip x00 x03 x00 x00 xca [x11; x22] H1 H2).
Defined.

(** X11: no buffer is accepted by both [parse_response] and the auto-push
    parsers: a response read under the wrong kind of head is turned away. *)
Theorem parsers_accept_disjoint_frames (r : bytes) :
  (forall p, Hand.parse_response r = inr p ->
     Hand.parse_auto_response r = inl Hand.BadHead
     /\ forall n, Hand.parse_auto_push_data r n = inl Hand.BadHead)
  /\ (forall a, Hand.parse_auto_response r = inr a ->
        Hand.parse_response r
        = inl (if len r <? 8 then Hand.FrameTooShort else Hand.BadHead)).
Proof.
  split.
  - intros p H. destruct (parse_response_accepts_head r p H) as [Hl Hh].
    assert (Hne : slice 0 2 r <> [xaa; x56]) by (rewrite Hh; discriminate).
    split; [|intros n]; [apply parse_auto_response_bad_head
                        | apply parse_auto_push_data_bad_head]; auto; lia.
  - intros a H.
    destruct (Z_lt_le_dec (len r) 7) as [Hs|Hl].
    { rewrite (parse_auto_response_short r Hs) in H. discriminate. }
    assert (Hh : slice 0 2 r = [xaa; x56]).
    { destruct (list_eq_dec Byte.byte_eq_dec (slice 0 2 r) [xaa; x56]) as [E|E];
        [exact E|].
      rewrite (parse_auto_response_bad_head r Hl E) in H. discriminate. }
    destruct (Z_lt_le_dec (len r) 8) as [H7|H8].
    + rewrite parse_response_short by exact H7.
      replace (len r <? 8) with true by (symmetry; apply Z.ltb_lt; lia). reflexivity.
    + destruct (parse_response_long r H8) as (b2 & b3 & lrc_recv & _ & _ & _ & ->).
      rewrite Hh.
      replace (len r <? 8) with false by (symmetry; apply Z.ltb_ge; lia). reflexivity.
Qed.

Lemma parsers_accept_disjoint_frames_witness :
  Hand.parse_response Samples.read_response
    = inr (Hand.mkParsed false 0 3 0 1 1 [x42] true 0xBB 0xBB None)
  /\ Hand.parse_auto_response Samples.read_response = inl Hand.BadHead.
Proof.
  assert (E : Hand.parse_response Samples.read_response
              = inr (Hand.mkParsed false 0 3 0 1 1 [x42] true 0xBB 0xBB None))
    by (vm_compute; reflexivity).
  split; [exact E|].
  exact (proj1 (proj1 (parsers_accept_disjoint_frames Samples.read_response) _ E)).
Defined.

End AutoPushDecoding.

(** ** Reading from the port *)
Section ReaderLaws.
Import Py Protocol.

Lemma read_loop_silence (timeout : nat) (head : option bytes) (recv : bytes) :
  forall sched elapsed polls,
    Forall (fun chunk => chunk = []) sched ->
    Hand.read_loop timeout head elapsed recv polls sched
    = (recv, (polls + (timeout - elapsed))%nat, skipn (timeout - elapsed) sched).
Proof.
  induction sched as [|chunk sched IH]; intros elapsed polls Hs; cbn [Hand.read_loop].
  - destruct (elapsed <? timeout)%nat eqn:E.
    + now rewrite skipn_nil.
    + apply Nat.ltb_ge in E. rewrite skipn_nil.
      replace (timeout - elapsed)%nat with 0%nat by lia. now rewrite Nat.add_0_r.
  - inversion Hs as [|c s Hc Hs']; subst.
    destruct (elapsed <? timeout)%nat eqn:E.
    + apply Nat.ltb_lt in E. cbn [truthy]. rewrite IH by exact Hs'.
      unfold Hand.POLL_MS.
      replace (timeout - elapsed)%nat with (S (timeout - (elapsed + 1)))%nat by lia.
      cbn [skipn]. f_equal. f_equal. lia.
    + apply Nat.ltb_ge in E.
      replace (timeout - elapsed)%nat with 0%nat by lia.
      cbn [skipn]. now rewrite Nat.add_0_r.
Qed.

(** X12: on a port where nothing arrives [read_serial_data] gives up with
    [None] after exactly as many polls as the time-out has milliseconds,
    with or without an expected head. *)
Theorem read_serial_data_silence
    (ser : Serial) (timeout : nat) (head : option bytes) :
  Forall (fun chunk => chunk = []) (rx ser) ->
  Hand.rd_data (Hand.read_serial_data ser timeout head) = None
  /\ Hand.rd_polls (Hand.read_serial_data ser timeout head) = timeout
  /\ rx (Hand.rd_serial (Hand.read_serial_data ser timeout head))
     = skipn timeout (rx ser).
Proof.
  intros Hs. unfold Hand.read_serial_data.
  rewrite read_loop_silence by exact Hs.
  rewrite Nat.sub_0_r. auto.
Qed.

Lemma read_serial_data_silence_witness :
  Forall (fun chunk : bytes => chunk = []) [[]; []; []]
  /\ Hand.rd_data (Hand.read_serial_data (mkSerial false 64 [] [[]; []; []]) 2 None)
     = None
  /\ Hand.rd_polls (Hand.read_serial_data (mkSerial false 64 [] [[]; []; []]) 2 None)
     = 2%nat
  /\ rx (Hand.rd_serial
           (Hand.read_serial_data (mkSerial false 64 [] [[]; []; []]) 2 None))
     = [[]].
Proof.
  assert (H : Forall (fun chunk : bytes => chunk = []) [[]; []; []])
    by (repeat constructor).
  split; [exact H|].
  exact (read_serial_data_silence (mkSerial false 64 [] [[]; []; []]) 2 None H).
Defined.



Lemma contains_nil (h : bytes) : truthy h = true -> contains h [] = false.
Proof. destruct h; [discriminate | reflexivity]. Qed.

Lemma read_loop_head_alignment (timeout : nat) (h : bytes) :
  truthy h = true ->
  forall sched elapsed recv polls,
    contains h recv = false ->
    let d := fst (fst (Hand.read_loop timeout (Some h) elapsed recv polls sched)) in
    starts_with h d = true \/ contains h d = false.
Proof.
  intros Hh. induction sched as [|chunk sched IH]; intros elapsed recv polls Hinv;
    cbn [Hand.read_loop]; cbv zeta.
  - destruct (elapsed <? timeout)%nat; cbn [fst]; auto.
  - destruct (elapsed <? timeout)%nat; [|cbn [fst]; auto].
    destruct (truthy chunk) eqn:Hc.
    + unfold Hand.head_seen. rewrite Hh. cbn [andb].
      destruct (contains h (recv ++ chunk)) eqn:Hs.
      * cbn [fst]. left. unfold Hand.from_head, slice_from.
        destruct (contains_find _ _ Hs) as (pos & F). rewrite F.
        apply (find_starts_with _ _ _ F).
      * apply (IH _ _ _ Hs).
    + apply (IH _ _ _ Hinv).
Qed.

(** X14: with an expected head, what [read_serial_data] returns is never
    empty and either starts with the head or does not contain it anywhere:
    the head is never left in the middle of the returned buffer. *)
Theorem read_serial_data_head_alignment
    (ser : Serial) (timeout : nat) (h d : bytes) :
  truthy h = true ->
  Hand.rd_data (Hand.read_serial_data ser timeout (Some h)) = Some d ->
  d <> [] /\ (starts_with h d = true \/ contains h d = false).
Proof.
  intros Hh Hd.
  pose proof (read_loop_head_alignment timeout h Hh (rx ser) 0%nat [] 0%nat
                (contains_nil h Hh)) as Ha.
  cbv zeta in Ha. unfold Hand.read_serial_data in Hd.
  destruct (Hand.read_loop timeout (Some h) 0 [] 0 (rx ser)) as [[recv polls] sched'].
  cbn [fst Hand.rd_data] in *.
  destruct recv as [|b recv]; [discriminate|].
  cbn [truthy] in Hd. injection Hd as <-. split; [discriminate | exact Ha].
Qed.

Lemma read_serial_data_head_alignment_witness :
  (truthy Hand.RESP_HEAD_GENERAL = true
   /\ Hand.rd_data (Hand.read_serial_data
                      (mkSerial false 64 [] [[x01; x02]]) 50 (Some Hand.RESP_HEAD_GENERAL))
      = Some [x01; x02])
  /\ ([x01; x02] <> [] /\ (starts_with Hand.RESP_HEAD_GENERAL [x01; x02] = true
                           \/ contains Hand.RESP_HEAD_GENERAL [x01; x02] = false)).
Proof.
  assert (H1 : truthy Hand.RESP_HEAD_GENERAL = true) by reflexivity.
  assert (H2 : Hand.rd_data (Hand.read_serial_data
                 (mkSerial false 64 [] [[x01; x02]]) 50 (Some Hand.RESP_HEAD_GENERAL))
               = Some [x01; x02]) by (vm_compute; reflexivity).
  split; [auto|].
  exact (read_serial_data_head_alignment _ _ _ _ H1 H2).
Defined.




End ReaderLaws.

(** ** Sending and writing *)
Section WriteAccess.
Import Py Protocol.

(** What [send_hex_cmd] does with well-formed text on a working port. *)
Lemma send_hex_cmd_working (ser : Serial) (s : string) (frame : bytes) :
  fromhex s = ret frame -> tx_fault ser = false ->
  Hand.send_hex_cmd ser s
  = ((List.length frame <=? tx_room ser)%nat,
     mkSerial false (tx_room ser) (outbox ser ++ firstn (tx_room ser) frame) (rx ser)).
Proof.
  intros Hs Hf. unfold Hand.send_hex_cmd, write. rewrite Hs, Hf. cbn [ret].
  unfold len. rewrite length_firstn.
  destruct (List.length frame <=? tx_room ser)%nat eqn:E.
  - apply Nat.leb_le in E.
    replace (Z.of_nat (Nat.min (tx_room ser) (List.length frame))
             =? Z.of_nat (List.length frame)) with true
      by (symmetry; apply Z.eqb_eq; lia).
    reflexivity.
  - apply Nat.leb_gt in E.
    replace (Z.of_nat (Nat.min (tx_room ser) (List.length frame))
             =? Z.of_nat (List.length frame)) with false
      by (symmetry; apply Z.eqb_neq; lia).
    reflexivity.
Qed.

Lemma send_hex_cmd_faulty (ser : Serial) (s : string) (frame : bytes) :
  fromhex s = ret frame -> tx_fault ser = true ->
  Hand.send_hex_cmd ser s = (false, ser).
Proof.
  intros Hs Hf. unfold Hand.send_hex_cmd, write. now rewrite Hs, Hf.
Qed.

(** X16: both scripts refuse text that is not hexadecimal and a faulty port
    without writing anything.  On a working port both hand the same bytes to
    the line, as many as the port takes; [send_hex_cmd] reports success
    exactly when the whole command went out, [send_hex_data] reports success
    even after a short write.  Neither touches the incoming data. *)
Theorem send_outcomes (ser : Serial) (s : string) :
  (forall e, fromhex s = raise e ->
     Hand.send_hex_cmd ser s = (false, ser) /\ Usb.send_hex_data ser s = (false, ser))
  /\ (forall frame, fromhex s = ret frame -> tx_fault ser = true ->
        Hand.send_hex_cmd ser s = (false, ser) /\ Usb.send_hex_data ser s = (false, ser))
  /\ (forall frame, fromhex s = ret frame -> tx_fault ser = false ->
        (fst (Hand.send_hex_cmd ser s) = true
         <-> (List.length frame <= tx_room ser)%nat)
        /\ fst (Usb.send_hex_data ser s) = true
        /\ snd (Hand.send_hex_cmd ser s) = snd (Usb.send_hex_data ser s)
        /\ outbox (snd (Hand.send_hex_cmd ser s))
           = outbox ser ++ firstn (tx_room ser) frame
        /\ rx (snd (Hand.send_hex_cmd ser s)) = rx ser).
Proof.
  split; [|split].
  - intros e H. unfold Hand.send_hex_cmd, Usb.send_hex_data. rewrite H. auto.
  - intros frame Hs Hf. split; [apply (send_hex_cmd_faulty _ _ _ Hs Hf)|].
    unfold Usb.send_hex_data, write. now rewrite Hs, Hf.
  - intros frame Hs Hf. rewrite (send_hex_cmd_working _ _ _ Hs Hf).
    unfold Usb.send_hex_data, write. rewrite Hs, Hf.
    cbn [ret fst snd outbox rx].
    split; [apply Nat.leb_le|]. auto.
Qed.

Lemma send_outcomes_witness :
  (fromhex "55AA000300000F00EF" = ret [x55; xaa; x00; x03; x00; x00; x0f; x00; xef]
   /\ tx_fault (mkSerial false 4 [] []) = false)
  /\ fst (Usb.send_hex_data (mkSerial false 4 [] []) "55AA000300000F00EF") = true
  /\ outbox (snd (Hand.send_hex_cmd (mkSerial false 4 [] []) "55AA000300000F00EF"))
     = [] ++ firstn 4 [x55; xaa; x00; x03; x00; x00; x0f; x00; xef].
Proof.
  assert (H1 : fromhex "55AA000300000F00EF"
               = ret [x55; xaa; x00; x03; x00; x00; x0f; x00; xef])
    by (vm_compute; reflexivity).
  assert (H2 : tx_fault (mkSerial false 4 [] []) = false) by reflexivity.
  split; [auto|].
  destruct (proj2 (proj2 (send_outcomes (mkSerial false 4 [] []) "55AA000300000F00EF"))
              _ H1 H2) as (_ & Hu & _ & Ho & _).
  split; [exact Hu | exact Ho].
Defined.

Lemma send_hex_cmd_whole (ser : Serial) (frame : bytes) :
  tx_fault ser = false -> (List.length frame <= tx_room ser)%nat ->
  Hand.send_hex_cmd ser (hex_upper frame)
  = (true, mkSerial false (tx_room ser) (outbox ser ++ frame) (rx ser)).
Proof.
  intros Hf Hr. unfold Hand.send_hex_cmd, hex_upper, write.
  rewrite fromhex_hex_with, Hf. cbn [ret].
  rewrite firstn_all2 by exact Hr. now rewrite Z.eqb_refl.
Qed.

Lemma byte_val_zero (b : byte) : byte_val b = 0 <-> b = x00.
Proof.
  split; [|now intros ->].
  intros H. apply byte_val_inj. rewrite H. reflexivity.
Qed.

(** A little-endian number is zero exactly when all its bytes are. *)
Lemma from_bytes_le_zero (bs : bytes) :
  from_bytes_le bs = 0 <-> Forall (fun b => b = x00) bs.
Proof.
  induction bs as [|b bs IH]; cbn [from_bytes_le].
  - split; [constructor | reflexivity].
  - pose proof (byte_val_range b). pose proof (from_bytes_le_nonneg bs).
    split.
    + intros H1. constructor; [apply byte_val_zero | apply IH]; lia.
    + intros HF. inversion HF as [|? ? Hb Hbs]; subst.
      apply IH in Hbs. rewrite Hbs. reflexivity.
Qed.

(** X17: an ordinary write succeeds exactly when the write response carries
    no status byte other than zero (no status byte at all counts as
    success); otherwise it is rejected with the status read little-endian.
    The response's checksum and address play no part. *)
Theorem write_register_status
    (ser : Serial) (reg : Z) (write_data resp : bytes) (p : Hand.parsed) :
  1 <= len write_data <= 10 -> is_reg_addr reg ->
  exists frame,
    Hand.request_frame_bytes Hand.FUNC_WRITE reg (len write_data) write_data = ret frame
    /\ (fst (Hand.send_hex_cmd ser (hex_upper frame)) = true ->
        Hand.rd_data (Hand.read_serial_data (snd (Hand.send_hex_cmd ser (hex_upper frame)))
                        Hand.TIMEOUT_CMD (Some Hand.RESP_HEAD_GENERAL)) = Some resp ->
        Hand.parse_response resp = inr p ->
        Hand.is_error p = false ->
        Hand.func_code p = Hand.FUNC_WRITE ->
        (fst (Hand.write_register ser reg write_data false) = inr tt
         <-> Forall (fun b => b = x00) (Hand.data p))
        /\ (~ Forall (fun b => b = x00) (Hand.data p) ->
            fst (Hand.write_register ser reg write_data false)
            = inl (Hand.WriteRejected (from_bytes_le (Hand.data p))))).
Proof.
  intros Hl Hr.
  destruct (write_request_built reg write_data Hl Hr) as (frame & E & B & T & _).
  exists frame. split; [exact E|].
  unfold Hand.write_register. cbv zeta.
  rewrite in_range_test by lia. rewrite B, T. cbn [negb].
  destruct (Hand.send_hex_cmd ser (hex_upper frame)) as [sent ser1].
  cbn [fst snd]. intros -> Hd Hp He Hfc. cbn [negb].
  rewrite Hd, Hp, He, Hfc. cbn [negb Z.eqb Hand.FUNC_WRITE Pos.eqb].
  pose proof (from_bytes_le_zero (Hand.data p)) as Hz.
  destruct (len (Hand.data p) >? 0) eqn:Epos; cbn [andb].
  - destruct (from_bytes_le (Hand.data p) =? 0) eqn:Ez; cbn [negb fst].
    + apply Z.eqb_eq in Ez. apply Hz in Ez. split; [tauto|]. contradiction.
    + apply Z.eqb_neq in Ez. split; [|reflexivity].
      split; [discriminate|]. intros HF. apply Hz in HF. contradiction.
  - cbn [fst]. rewrite Z.gtb_ltb in Epos. apply Z.ltb_ge in Epos.
    assert (Hnil : Hand.data p = []).
    { destruct (Hand.data p); [reflexivity|]. unfold len in Epos.
      cbn [List.length] in Epos. lia. }
    rewrite Hnil. split; [split; [constructor | reflexivity]|].
    intros Hn. exfalso. apply Hn. constructor.
Qed.

Lemma write_register_status_witness :
  (1 <= len [x05] <= 10 /\ is_reg_addr 0x16)
  /\ Hand.parse_response [xaa; x55; x00; x10; x16; x00; x01; x00; x00; x00]
     = inr (Hand.mkParsed false 0 16 22 1 1 [x00] false 218 0 None)
  /\ fst (Hand.write_register
            (mkSerial false 64 [] [[xaa; x55; x00; x10; x16; x00; x01; x00; x00; x00]])
            0x16 [x05] false) = inr tt.
Proof.
  assert (H1 : 1 <= len [x05] <= 10) by (unfold len; cbn [List.length]; lia).
  assert (H2 : is_reg_addr 0x16) by (unfold is_reg_addr; lia).
  split; [auto|]. split; [vm_compute; reflexivity|].
  destruct (write_register_status
              (mkSerial false 64 [] [[xaa; x55; x00; x10; x16; x00; x01; x00; x00; x00]])
              0x16 [x05] [xaa; x55; x00; x10; x16; x00; x01; x00; x00; x00]
              (Hand.mkParsed false 0 16 22 1 1 [x00] false 218 0 None) H1 H2)
    as (frame & E & H).
  vm_compute in E. injection E as <-.
  destruct (H eq_refl eq_refl eq_refl eq_refl eq_refl) as [Hiff _].
  apply Hiff. repeat constructor.
Defined.

(** X18: an auto-push write succeeds exactly when the byte at offset 5 of
    the AA 56 response, the error code, is zero, and is otherwise rejected
    with that code; neither the checksum nor the declared length of the
    response is consulted. *)
Theorem write_register_auto_push_status
    (ser : Serial) (reg : Z) (write_data resp : bytes) (b5 : byte) :
  1 <= len write_data <= 10 -> is_reg_addr reg ->
  exists frame,
    Hand.request_frame_bytes Hand.FUNC_WRITE reg (len write_data) write_data = ret frame
    /\ (fst (Hand.send_hex_cmd ser (hex_upper frame)) = true ->
        Hand.rd_data (Hand.read_serial_data (snd (Hand.send_hex_cmd ser (hex_upper frame)))
                        Hand.TIMEOUT_CMD (Some Hand.RESP_HEAD_AUTO_PUSH)) = Some resp ->
        7 <= len resp -> slice 0 2 resp = [xaa; x56] -> nth_error resp 5 = Some b5 ->
        (fst (Hand.write_register ser reg write_data true) = inr tt <-> b5 = x00)
        /\ (b5 <> x00 ->
            fst (Hand.write_register ser reg write_data true)
            = inl (Hand.WriteRejected (byte_val b5)))).
Proof.
  intros Hl Hr.
  destruct (write_request_built reg write_data Hl Hr) as (frame & E & B & T & _).
  exists frame. split; [exact E|].
  unfold Hand.write_register. cbv zeta.
  rewrite in_range_test by lia. rewrite B, T. cbn [negb].
  destruct (Hand.send_hex_cmd ser (hex_upper frame)) as [sent ser1].
  cbn [fst snd]. intros -> Hd H7 Hh N5. cbn [negb].
  rewrite Hd.
  destruct (parse_auto_response_error_code resp b5 H7 Hh N5) as (a & -> & Hcode).
  rewrite Hcode.
  destruct (byte_val b5 =? 0) eqn:Ez; cbn [negb fst].
  - apply Z.eqb_eq, byte_val_zero in Ez. split; [tauto|]. contradiction.
  - apply Z.eqb_neq in Ez. split; [|reflexivity].
    split; [discriminate|]. intros ->. exfalso. apply Ez. reflexivity.
Qed.

Lemma write_register_auto_push_status_witness :
  (1 <= len [x01] <= 10 /\ is_reg_addr Hand.AUTO_PUSH_REG)
  /\ fst (Hand.write_register
            (mkSerial false 64 [] [[xaa; x56; x00; x01; x00; x02; x00]])
            Hand.AUTO_PUSH_REG [x01] true)
     = inl (Hand.WriteRejected (byte_val x02)).
Proof.
  assert (H1 : 1 <= len [x01] <= 10) by (unfold len; cbn [List.length]; lia).
  assert (H2 : is_reg_addr Hand.AUTO_PUSH_REG)
    by (unfold is_reg_addr, Hand.AUTO_PUSH_REG; lia).
  split; [auto|].
  destruct (write_register_auto_push_status
              (mkSerial false 64 [] [[xaa; x56; x00; x01; x00; x02; x00]])
              Hand.AUTO_PUSH_REG [x01] [xaa; x56; x00; x01; x00; x02; x00] x02 H1 H2)
    as (frame & E & H).
  vm_compute in E. injection E as <-.
  assert (H7 : 7 <= len [xaa; x56; x00; x01; x00; x02; x00])
    by (unfold len; cbn [List.length]; lia).
  destruct (H eq_refl eq_refl H7 eq_refl eq_refl) as [_ Hrej].
  apply Hrej. discriminate.
Defined.

(** X19: [disable_auto_push] only sends.  It never takes anything from the
    incoming data, reports success exactly when the port is working and takes
    all ten bytes of the command 55 AA 00 10 17 00 01 00 00 D9, and on a
    working port leaves on the line as much of that command as the port
    took. *)
Theorem disable_auto_push_only_sends (ser : Serial) :
  rx (snd (Hand.disable_auto_push ser)) = rx ser
  /\ (fst (Hand.disable_auto_push ser) = true
      <-> tx_fault ser = false /\ (10 <= tx_room ser)%nat)
  /\ (tx_fault ser = true -> snd (Hand.disable_auto_push ser) = ser)
  /\ (tx_fault ser = false ->
      outbox (snd (Hand.disable_auto_push ser))
      = outbox ser
        ++ firstn (tx_room ser) [x55; xaa; x00; x10; x17; x00; x01; x00; x00; xd9]).
Proof.
  unfold Hand.disable_auto_push.
  change (Hand.build_request_frame Hand.FUNC_WRITE Hand.AUTO_PUSH_REG 1 [x00])
    with (Some (hex_upper [x55; xaa; x00; x10; x17; x00; x01; x00; x00; xd9])).
  replace (negb (Hand.string_truthy
                   (hex_upper [x55; xaa; x00; x10; x17; x00; x01; x00; x00; xd9])))
    with false by reflexivity.
  set (cmd := [x55; xaa; x00; x10; x17; x00; x01; x00; x00; xd9]).
  assert (F : fromhex (hex_upper cmd) = ret cmd) by apply fromhex_hex_with.
  destruct (tx_fault ser) eqn:Ef.
  - rewrite (send_hex_cmd_faulty _ _ _ F Ef). cbn [fst snd].
    repeat split; auto; try discriminate. intros [H _]. discriminate.
  - rewrite (send_hex_cmd_working _ _ _ F Ef).
    change (List.length cmd) with 10%nat.
    destruct (10 <=? tx_room ser)%nat eqn:E; cbn [fst snd rx outbox].
    + apply Nat.leb_le in E. repeat split; auto; discriminate.
    + apply Nat.leb_gt in E. repeat split; auto; try discriminate.
      intros [_ H]. lia.
Qed.

Lemma disable_auto_push_only_sends_witness :
  (tx_fault Samples.answering_port = false
   /\ (10 <= tx_room Samples.answering_port)%nat)
  /\ fst (Hand.disable_auto_push Samples.answering_port) = true
  /\ rx (snd (Hand.disable_auto_push Samples.answering_port))
     = rx Samples.answering_port.
Proof.
  assert (H : tx_fault Samples.answering_port = false
              /\ (10 <= tx_room Samples.answering_port)%nat)
    by (split; [reflexivity | unfold Samples.answering_port; cbn [tx_room]; lia]).
  split; [exact H|].
  destruct (disable_auto_push_only_sends Samples.answering_port) as (Hrx & Hiff & _).
  split; [apply Hiff; exact H | exact Hrx].
Defined.

End WriteAccess.

(** ** A whole read exchange *)
Section ReadExchange.
Import Py Protocol.

Lemma byte_eqb_refl (b : byte) : Byte.eqb b b = true.
Proof. apply Byte.byte_dec_lb. reflexivity. Qed.

Lemma byte_eqb_neq (a b : byte) : a <> b -> Byte.eqb a b = false.
Proof.
  intros H. destruct (Byte.eqb a b) eqn:E; [|reflexivity].
  apply Byte.byte_dec_bl in E. contradiction.
Qed.

Lemma contains_false_find (h bs : bytes) : contains h bs = false -> find h bs = None.
Proof. unfold contains. destruct (find h bs); [discriminate | reflexivity]. Qed.

(** A two-byte head of two different bytes is found right after any run
    of bytes that does not contain it. *)
Lemma find_after_junk (a b : byte) (tail : bytes) :
  a <> b ->
  forall junk, contains [a; b] junk = false ->
    find [a; b] (junk ++ a :: b :: tail) = Some (List.length junk).
Proof.
  intros Hab. induction junk as [|j junk IH]; intros Hc.
  - cbn [app find starts_with]. now rewrite !byte_eqb_refl.
  - apply contains_false_find in Hc. cbn [find] in Hc.
    destruct (starts_with [a; b] (j :: junk)) eqn:Es; [discriminate|].
    destruct (find [a; b] junk) as [q|] eqn:Ef; [discriminate|].
    assert (Hj : contains [a; b] junk = false) by (unfold contains; now rewrite Ef).
    cbn [app find List.length].
    assert (Es' : starts_with [a; b] (j :: junk ++ a :: b :: tail) = false).
    { cbn [starts_with] in *. destruct (Byte.eqb a j); [|reflexivity].
      cbn [andb] in *. destruct junk as [|j2 junk'].
      - cbn [app]. rewrite (byte_eqb_neq b a) by congruence. reflexivity.
      - cbn [app]. exact Es. }
    rewrite Es', (IH Hj). reflexivity.
Qed.

(** The payload of a frame that arrived whole does not depend on what
    follows it in the buffer, the checksum byte included. *)
Lemma parse_response_complete_payload
    (rsv f r0 r1 d0 d1 : byte) (payload tail : bytes) :
  byte_val f = Hand.FUNC_READ \/ byte_val f = Hand.FUNC_WRITE ->
  byte_val d0 + 256 * byte_val d1 = len payload ->
  tail <> [] ->
  exists p,
    Hand.parse_response
      ((xaa :: x55 :: rsv :: f :: r0 :: r1 :: d0 :: d1 :: payload) ++ tail) = inr p
    /\ Hand.is_error p = false
    /\ Hand.func_code p = byte_val f
    /\ Hand.data p = payload.
Proof.
  intros Hf Hd Ht.
  set (r := (xaa :: x55 :: rsv :: f :: r0 :: r1 :: d0 :: d1 :: payload) ++ tail).
  pose proof (len_nonneg payload) as Hp.
  assert (Htl : 1 <= len tail).
  { destruct tail; [congruence|]. unfold len. cbn [List.length]. lia. }
  assert (Hlen : len r = 8 + len payload + len tail)
    by (subst r; rewrite len_app; unfold len; cbn [List.length]; lia).
  destruct (parse_response_long r) as (b2 & b3 & lrc_recv & _ & N3 & _ & E); [lia|].
  subst r. cbn [app nth_error] in N3. injection N3 as <-.
  set (r := (xaa :: x55 :: rsv :: f :: r0 :: r1 :: d0 :: d1 :: payload) ++ tail) in *.
  rewrite E.
  replace (negb (bytes_eqb (slice 0 2 r) Hand.RESP_HEAD_GENERAL)) with false
    by reflexivity.
  rewrite decode_normal by exact Hf.
  eexists. split; [reflexivity|].
  cbn [Hand.is_error Hand.func_code Hand.data].
  split; [reflexivity|]. split; [reflexivity|].
  assert (Hs68 : from_bytes_le (slice 6 8 r) = len payload)
    by (subst r; cbn [app slice skipn firstn Nat.sub from_bytes_le]; lia).
  rewrite Hs68. unfold Hand.extract_data.
  replace (len r >=? 8 + len payload + 1) with true by (symmetry; apply geb_true; lia).
  destruct (len payload >? 0) eqn:Epos; cbn [andb].
  - unfold slice. subst r. cbn [app skipn].
    replace (8 + Z.to_nat (len payload) - 8)%nat with (List.length payload)
      by (unfold len; lia).
    rewrite firstn_app, Nat.sub_diag, firstn_all. cbn [firstn]. apply app_nil_r.
  - rewrite Z.gtb_ltb in Epos. apply Z.ltb_ge in Epos.
    destruct payload; [reflexivity|]. unfold len in Epos.
    cbn [List.length] in Epos. lia.
Qed.

(** X20: when the port takes the request and the first data to arrive hold,
    after stray bytes free of the head, a whole read response, [read_register]
    returns exactly that response's payload.  The response's address, its
    length compared with the length asked for, its checksum byte and any
    bytes after it have no influence; the rest of the incoming data stays on
    the port. *)
Theorem read_register_end_to_end
    (ser : Serial) (reg read_len : Z) (junk payload trailing : bytes)
    (rsv r0 r1 d0 d1 c : byte) (rest : list bytes) :
  1 <= read_len <= 512 -> is_reg_addr reg ->
  tx_fault ser = false -> (9 <= tx_room ser)%nat ->
  contains [xaa; x55] junk = false ->
  byte_val d0 + 256 * byte_val d1 = len payload ->
  rx ser = (junk ++ (xaa :: x55 :: rsv :: x03 :: r0 :: r1 :: d0 :: d1 :: payload)
                 ++ c :: trailing) :: rest ->
  exists frame,
    Hand.request_frame_bytes Hand.FUNC_READ reg read_len [] = ret frame
    /\ Hand.read_register ser reg read_len
       = (inr payload, mkSerial false (tx_room ser) (outbox ser ++ frame) rest).
Proof.
  intros Hl Hr Hf Hroom Hj Hd Hrx.
  destruct (read_request_built reg read_len Hl Hr) as (frame & E & B & T & Hlen & _).
  exists frame. split; [exact E|].
  unfold Hand.read_register.
  rewrite in_range_test by lia. rewrite B, T. cbn [negb].
  rewrite send_hex_cmd_whole by (auto; unfold len in Hlen; lia).
  cbn [negb].
  set (resp := (xaa :: x55 :: rsv :: x03 :: r0 :: r1 :: d0 :: d1 :: payload)
               ++ c :: trailing) in *.
  assert (Hfind : find [xaa; x55] (junk ++ resp) = Some (List.length junk)).
  { subst resp. cbn [app]. apply find_after_junk; [discriminate | exact Hj]. }
  assert (Hread :
    Hand.read_serial_data
      (mkSerial false (tx_room ser) (outbox ser ++ frame) (rx ser))
      Hand.TIMEOUT_CMD (Some Hand.RESP_HEAD_GENERAL)
    = Hand.mkRead (Some resp) 1
        (mkSerial false (tx_room ser) (outbox ser ++ frame) rest)).
  { unfold Hand.read_serial_data. cbn [rx]. rewrite Hrx.
    cbn [Hand.read_loop Hand.TIMEOUT_CMD Nat.ltb Nat.leb app].
    assert (Htr : truthy (junk ++ resp) = true)
      by (destruct junk; subst resp; reflexivity).
    rewrite Htr. unfold Hand.head_seen, Hand.from_head, contains.
    change Hand.RESP_HEAD_GENERAL with [xaa; x55].
    rewrite Hfind. cbn [truthy andb].
    unfold slice_from. rewrite skipn_app, Nat.sub_diag, skipn_all. cbn [skipn app].
    subst resp. reflexivity. }
  rewrite Hread. cbn [Hand.rd_data Hand.rd_serial]. clear Hfind Hread. subst resp.
  destruct (parse_response_complete_payload rsv x03 r0 r1 d0 d1 payload (c :: trailing))
    as (p & -> & He & Hfc & Hdata); [left; reflexivity | exact Hd | discriminate |].
  rewrite He, Hfc, Hdata. reflexivity.
Qed.

Lemma read_register_end_to_end_witness :
  ((1 <= 2 <= 512 /\ is_reg_addr 0x16)
   /\ (tx_fault (mkSerial false 9 [] [[x07; xaa; x55; x00; x03; x99; x00; x01; x00;
                                       x42; x00; xaa]; [x01]]) = false
       /\ (9 <= 9)%nat)
   /\ contains [xaa; x55] [x07] = false
   /\ byte_val x01 + 256 * byte_val x00 = len [x42])
  /\ Hand.read_register
       (mkSerial false 9 [] [[x07; xaa; x55; x00; x03; x99; x00; x01; x00;
                              x42; x00; xaa]; [x01]]) 0x16 2
     = (inr [x42],
        mkSerial false 9 [x55; xaa; x00; x03; x16; x00; x02; x00; xe6] [[x01]]).
Proof.
  assert (H1 : 1 <= 2 <= 512) by lia.
  assert (H2 : is_reg_addr 0x16) by (unfold is_reg_addr; lia).
  assert (H3 : contains [xaa; x55] [x07] = false) by reflexivity.
  assert (H4 : byte_val x01 + 256 * byte_val x00 = len [x42]) by reflexivity.
  split; [repeat split; auto; lia|].
  destruct (read_register_end_to_end
              (mkSerial false 9 [] [[x07; xaa; x55; x00; x03; x99; x00; x01; x00;
                                     x42; x00; xaa]; [x01]])
              0x16 2 [x07] [x42] [xaa] x00 x99 x00 x01 x00 x00 [[x01]]
              H1 H2 eq_refl (Nat.le_refl 9) H3 H4 eq_refl) as (frame & E & R).
  vm_compute in E. injection E as <-. exact R.
Defined.

End ReadExchange.

(** ** The request of the Usb script and the checks on its response *)
Section UsbFrames.
Import Py Protocol.

Lemma string_append_assoc (a b c : string) :
  ((a ++ b) ++ c)%string = (a ++ (b ++ c))%string.
Proof. induction a as [|x a IH]; cbn; [reflexivity | now rewrite IH]. Qed.

Lemma format_02X_byte (c : byte) : Usb.format_02X (byte_val c) = hex_of_byte true c.
Proof. destruct c; vm_compute; reflexivity. Qed.

Lemma calculate_lrc_byte (data : bytes) :
  exists c, byte_val c = Usb.calculate_lrc data.
Proof.
  destruct (to_bytes1_ok (Usb.calculate_lrc data)) as (c & _ & Hc); [|eauto].
  rewrite calculate_lrc_eq. apply lrc_range.
Qed.

(** The request text: what it is, and what [bytes.fromhex] makes of it. *)
Lemma full_req_frame_bytes (fb : bytes) (data_length : Z) :
  len fb = 7 -> 0 < data_length <= 65535 ->
  exists lo hi c s,
    Usb.full_req_frame (hex_with true fb) data_length = ret (Some s)
    /\ fromhex s = ret ((x55 :: xaa :: x09 :: x00 :: fb) ++ [lo; hi; c])
    /\ byte_val lo + 256 * byte_val hi = data_length
    /\ byte_val c = Usb.calculate_lrc ((x55 :: xaa :: x09 :: x00 :: fb) ++ [lo; hi]).
Proof.
  intros Hfb Hd. unfold Usb.full_req_frame.
  destruct (to_bytes2_le_ok data_length) as (lo & hi & -> & Hlo & Hhi); [lia|].
  cbn [bind ret]. unfold hex.
  rewrite fromhex_hex_with_app, fromhex_hex_with. cbn [bind ret].
  rewrite len_app, Hfb.
  change (to_bytes2_le (7 + len [lo; hi])) with (ret [x09; x00]).
  cbn [bind ret].
  change "55AA"%string with (hex_with true [x55; xaa]).
  rewrite !fromhex_hex_with_app, fromhex_hex_with. cbn [bind ret].
  set (body := [x55; xaa] ++ [x09; x00] ++ fb ++ [lo; hi]).
  destruct (calculate_lrc_byte body) as (c & Hc).
  exists lo, hi, c. eexists. split; [reflexivity|].
  rewrite <- Hc, format_02X_byte.
  rewrite !string_append_assoc, !fromhex_hex_with_app.
  rewrite <- (append_empty (hex_of_byte true c)), fromhex_hex_of_byte.
  cbn [fromhex bind ret].
  split; [reflexivity|].
  split; [rewrite Hlo, Hhi; pose proof (Z.div_mod data_length 256); lia|].
  rewrite Hc. subst body. reflexivity.
Qed.

Lemma read_serial_response_outbox (ser : Serial) (timeout : nat) :
  outbox (snd (Usb.read_serial_response ser timeout)) = outbox ser.
Proof.
  unfold Usb.read_serial_response.
  destruct (Usb.response_loop timeout 100 [] (rx ser)). reflexivity.
Qed.

Lemma read_all_outbox (ser : Serial) : outbox (snd (Usb.read_all ser)) = outbox ser.
Proof. unfold Usb.read_all. destruct (rx ser); reflexivity. Qed.

(** X21: for a configured command and a length from 1 to 65535 the request of
    [get_ser_response] is the fourteen bytes 55 AA, the length 9
    little-endian, the seven fixed bytes of the command, the requested
    length little-endian, and the LRC of these thirteen; on a working port
    as many of them as the port takes are what the exchange adds to the
    line. *)
Theorem get_ser_response_request
    (ser : Serial) (command : string) (cfg : Usb.config) (data_length : Z) :
  Usb.lookup command Usb.command_config = Some cfg ->
  0 < data_length <= 65535 ->
  tx_fault ser = false ->
  exists fb lo hi c,
    fromhex (remove_spaces (Usb.fixed_fields cfg)) = ret fb
    /\ len fb = 7
    /\ byte_val lo + 256 * byte_val hi = data_length
    /\ byte_val c = Usb.calculate_lrc ((x55 :: xaa :: x09 :: x00 :: fb) ++ [lo; hi])
    /\ outbox (snd (Usb.get_ser_response ser command data_length))
       = outbox ser
         ++ firstn (tx_room ser) ((x55 :: xaa :: x09 :: x00 :: fb) ++ [lo; hi; c]).
Proof.
  intros L Hd Hf.
  destruct (lookup_fixed _ _ L) as (fb & Efix & Hfb).
  destruct (full_req_frame_bytes fb data_length Hfb Hd)
    as (lo & hi & c & s & Ereq & Ehex & Hlen & Hc).
  exists fb, lo, hi, c.
  split; [rewrite Efix; apply fromhex_hex_with|].
  split; [exact Hfb|]. split; [exact Hlen|]. split; [exact Hc|].
  unfold Usb.get_ser_response. rewrite L, Efix.
  replace (data_length <=? 0) with false by (symmetry; apply Z.leb_gt; lia).
  rewrite Ereq. unfold ret at 1. cbv iota.
  unfold Usb.send_hex_data. rewrite Ehex. unfold write. rewrite Hf. cbn [ret negb].
  set (ser1 := mkSerial false (tx_room ser) _ (rx ser)).
  pose proof (read_serial_response_outbox ser1 500) as Ho.
  destruct (Usb.read_serial_response ser1 500) as [got ser2]. cbn [snd] in Ho.
  destruct got as [response|]; [|exact Ho].
  destruct (len response <? 18).
  - pose proof (read_all_outbox ser2) as Ho2.
    destruct (Usb.read_all ser2) as [more s3]. cbn [snd] in *.
    rewrite Ho2. exact Ho.
  - exact Ho.
Qed.

Lemma get_ser_response_request_witness :
  (Usb.lookup "get_data" Usb.command_config
     = Some (Usb.mkConfig "03 00 FB 0E 04 00 00" 200 "hex")
   /\ 0 < 32 <= 65535
   /\ tx_fault Samples.silent_port = false)
  /\ exists fb lo hi c,
       fromhex (remove_spaces "03 00 FB 0E 04 00 00") = ret fb
       /\ byte_val lo + 256 * byte_val hi = 32
       /\ outbox (snd (Usb.get_ser_response Samples.silent_port "get_data" 32))
          = [] ++ firstn 64 ((x55 :: xaa :: x09 :: x00 :: fb) ++ [lo; hi; c]).
Proof.
  assert (H1 : Usb.lookup "get_data" Usb.command_config
               = Some (Usb.mkConfig "03 00 FB 0E 04 00 00" 200 "hex")) by reflexivity.
  assert (H2 : 0 < 32 <= 65535) by lia.
  split; [auto|].
  destruct (get_ser_response_request Samples.silent_port "get_data" _ 32 H1 H2 eq_refl)
    as (fb & lo & hi & c & Hfb & _ & Hl & _ & Ho).
  exists fb, lo, hi, c. auto.
Defined.

(** X22: the Usb exchange cuts a data field out of a response only after
    the head AA 55 matched, the byte at offset [4 + Length] equalled the LRC
    of everything before it, and the status byte at offset 13 was zero; the
    field then has exactly the positive number of bytes declared at offsets
    11..12 and starts at offset 14.  Even then the value carried back is
    [None]. *)
Theorem check_response_extracts_checked
    (response data_field : bytes) (v : option string) :
  Usb.check_response response = ret (Usb.Extracted data_field, v) ->
  slice 0 2 response = [xaa; x55]
  /\ 4 + from_bytes_le (slice 2 4 response) < len response
  /\ index response (Z.to_nat (4 + from_bytes_le (slice 2 4 response)))
     = ret (Usb.calculate_lrc
              (slice 0 (Z.to_nat (4 + from_bytes_le (slice 2 4 response))) response))
  /\ index response 13 = ret 0
  /\ 0 < from_bytes_le (slice 11 13 response)
  /\ len data_field = from_bytes_le (slice 11 13 response)
  /\ data_field = firstn (List.length data_field) (skipn 14 response)
  /\ v = None.
Proof.
  unfold Usb.check_response. cbv zeta.
  destruct (bytes_eqb (slice 0 2 response) [xaa; x55]) eqn:Eh; cbn [negb];
    [|discriminate].
  unfold bytes_eqb in Eh.
  destruct (list_eq_dec Byte.byte_eq_dec (slice 0 2 response) [xaa; x55]) as [Hh|];
    [|discriminate].
  set (lp := 4 + from_bytes_le (slice 2 4 response)).
  destruct (lp >=? len response) eqn:El; [discriminate|].
  rewrite Z.geb_leb in El. apply Z.leb_gt in El.
  destruct (index response (Z.to_nat lp)) as [e|actual] eqn:Ea; [discriminate|].
  cbn [bind].
  destruct (Usb.calculate_lrc (slice 0 (Z.to_nat lp) response) =? actual) eqn:Ec;
    cbn [negb]; [|discriminate].
  apply Z.eqb_eq in Ec.
  destruct (index response 13) as [e|status] eqn:Es; [discriminate|].
  destruct (status =? 0) eqn:Est; cbn [negb]; [|discriminate].
  apply Z.eqb_eq in Est. subst status.
  set (n := from_bytes_le (slice 11 13 response)).
  destruct (n <=? 0) eqn:En; [discriminate|]. apply Z.leb_gt in En.
  destruct (14 + n >? len response) eqn:Ee; [discriminate|].
  rewrite Z.gtb_ltb in Ee. apply Z.ltb_ge in Ee.
  intros H. unfold ret in H.
  assert (Hd : data_field = slice 14 (Z.to_nat (14 + n)) response) by congruence.
  assert (Hv : v = None) by congruence.
  clear H. subst data_field v.
  assert (Hlen : List.length (slice 14 (Z.to_nat (14 + n)) response) = Z.to_nat n).
  { unfold slice. rewrite length_firstn, length_skipn. unfold len in Ee. lia. }
  split; [exact Hh|]. split; [exact El|]. split; [now rewrite Ec|].
  split; [reflexivity|]. split; [exact En|].
  split; [unfold len; rewrite Hlen; lia|].
  split; [|reflexivity].
  rewrite Hlen. unfold slice. f_equal. lia.
Qed.

Lemma check_response_extracts_checked_witness :
  Usb.check_response [xaa; x55; x0c; x00; x03; x00; xfb; xf0; x03; x00; x00;
                      x02; x00; x00; x11; x22; xcf]
    = ret (Usb.Extracted [x11; x22], None)
  /\ len [x11; x22]
     = from_bytes_le (slice 11 13 [xaa; x55; x0c; x00; x03; x00; xfb; xf0; x03; x00; x00;
                                   x02; x00; x00; x11; x22; xcf]).
Proof.
  assert (E : Usb.check_response [xaa; x55; x0c; x00; x03; x00; xfb; xf0; x03; x00; x00;
                                  x02; x00; x00; x11; x22; xcf]
              = ret (Usb.Extracted [x11; x22], None)) by (vm_compute; reflexivity).
  split; [exact E|].
  destruct (check_response_extracts_checked _ _ _ E) as (_ & _ & _ & _ & _ & H & _).
  exact H.
Defined.

End UsbFrames.

(** ** The version text *)
Section VersionText.
Import Py Protocol.

Lemma lstrip_head (l : list ascii) :
  match Hand.lstrip l with
  | c :: _ => Hand.isspace c = false
  | [] => True
  end.
Proof.
  induction l as [|c l IH]; cbn [Hand.lstrip]; [exact I|].
  destruct (Hand.isspace c) eqn:E; [exact IH | exact E].
Qed.

Lemma lstrip_suffix (l : list ascii) :
  exists pre,
    l = pre ++ Hand.lstrip l /\ Forall (fun c => Hand.isspace c = true) pre.
Proof.
  induction l as [|c l (pre & IH & Hpre)]; cbn [Hand.lstrip];
    [exists []; split; [reflexivity | constructor]|].
  destruct (Hand.isspace c) eqn:E.
  - exists (c :: pre). split; [cbn [app]; now rewrite <- IH | now constructor].
  - exists []. split; [reflexivity | constructor].
Qed.

(** What [strip] keeps is a stretch of the text without white space at
    either end, and what it removes on either side is white space only. *)
Lemma strip_spec (s : string) :
  exists pre post,
    list_ascii_of_string s
    = pre ++ list_ascii_of_string (Hand.strip s) ++ post
    /\ match list_ascii_of_string (Hand.strip s) with
       | c :: _ => Hand.isspace c = false
       | [] => True
       end
    /\ match rev (list_ascii_of_string (Hand.strip s)) with
       | c :: _ => Hand.isspace c = false
       | [] => True
       end
    /\ Forall (fun c => Hand.isspace c = true) pre
    /\ Forall (fun c => Hand.isspace c = true) post.
Proof.
  unfold Hand.strip. rewrite list_ascii_of_string_of_list_ascii.
  set (L := list_ascii_of_string s).
  destruct (lstrip_suffix L) as (pre & HL & Hpre).
  destruct (lstrip_suffix (rev (Hand.lstrip L))) as (post' & HM & Hpost).
  set (R := rev (Hand.lstrip (rev (Hand.lstrip L)))).
  assert (HR : Hand.lstrip L = R ++ rev post').
  { rewrite <- (rev_involutive (Hand.lstrip L)), HM, rev_app_distr. reflexivity. }
  exists pre, (rev post'). split; [rewrite <- HR; exact HL|]. split; [|split].
  - pose proof (lstrip_head L) as Hh. rewrite HR in Hh.
    destruct R; [exact I | exact Hh].
  - subst R. rewrite rev_involutive. apply lstrip_head.
  - split; [exact Hpre|].
    apply Forall_forall. intros c Hc. apply in_rev in Hc.
    exact (proj1 (Forall_forall _ _) Hpost c Hc).
Qed.

Lemma decode_ascii_ignore_chars (bs : bytes) (c : ascii) :
  In c (list_ascii_of_string (Hand.decode_ascii_ignore bs)) ->
  (N_of_ascii c < 128)%N /\ exists b, In b bs /\ c = ascii_of_N (Byte.to_N b).
Proof.
  unfold Hand.decode_ascii_ignore. rewrite list_ascii_of_string_of_list_ascii.
  intros H. apply in_map_iff in H as (b & <- & Hb).
  apply filter_In in Hb as [Hin Hlt]. apply N.ltb_lt in Hlt.
  split; [|eauto].
  rewrite N_ascii_embedding; [exact Hlt | lia].
Qed.

(** X23: [get_device_version] yields text exactly when [read_register]
    returned a non-empty payload.  The text is "ASCII: ", a version string,
    " | 16进制: ", and the payload in upper-case hex, from which
    [bytes.fromhex] recovers the payload.  The version string is tied to the
    payload: the payload's bytes below 0x80, in order and read as
    characters, are a run of white space, then the version string, then a
    run of white space, and the version string has no white space at either
    end, which determines it.  The port is left as [read_register] left
    it. *)
Theorem get_device_version_text (ser : Serial) :
  snd (Hand.get_device_version ser)
  = snd (Hand.read_register ser Hand.VERSION_REG Hand.VERSION_DATA_LEN)
  /\ (fst (Hand.get_device_version ser) = None
      <-> forall d, fst (Hand.read_register ser Hand.VERSION_REG Hand.VERSION_DATA_LEN)
                    = inr d -> d = [])
  /\ (forall text, fst (Hand.get_device_version ser) = Some text ->
        exists d v,
          fst (Hand.read_register ser Hand.VERSION_REG Hand.VERSION_DATA_LEN) = inr d
          /\ d <> []
          /\ text = ("ASCII: " ++ v ++ " | 16进制: " ++ hex_upper d)%string
          /\ fromhex (hex_upper d) = ret d
          /\ (forall c, In c (list_ascii_of_string v) -> (N_of_ascii c < 128)%N)
          /\ match list_ascii_of_string v with
             | c :: _ => Hand.isspace c = false
             | [] => True
             end
          /\ match rev (list_ascii_of_string v) with
             | c :: _ => Hand.isspace c = false
             | [] => True
             end
          /\ exists pre post,
               map (fun b => ascii_of_N (Byte.to_N b))
                   (filter (fun b => (Byte.to_N b <? 128)%N) d)
               = pre ++ list_ascii_of_string v ++ post
               /\ Forall (fun c => Hand.isspace c = true) pre
               /\ Forall (fun c => Hand.isspace c = true) post).
Proof.
  unfold Hand.get_device_version.
  destruct (Hand.read_register ser Hand.VERSION_REG Hand.VERSION_DATA_LEN) as [r ser'].
  cbn [fst snd].
  destruct r as [f|d]; cbn [Hand.read_value fst snd].
  - split; [reflexivity|]. split; [|discriminate].
    split; [discriminate | reflexivity].
  - destruct d as [|b d]; cbn [truthy fst snd].
    + split; [reflexivity|]. split; [|discriminate].
      split; [intros _ d [= <-]; reflexivity | reflexivity].
    + split; [reflexivity|]. split.
      * split; [discriminate|]. intros H. specialize (H _ eq_refl). discriminate.
      * intros text [= <-].
        exists (b :: d), (Hand.strip (Hand.decode_ascii_ignore (b :: d))).
        split; [reflexivity|]. split; [discriminate|]. split; [reflexivity|].
        split; [apply fromhex_hex_with|].
        destruct (strip_spec (Hand.decode_ascii_ignore (b :: d)))
          as (pre & post & Hsplit & Hhead & Hlast & Hpre & Hpost).
        split; [|split; [exact Hhead|split; [exact Hlast|]]].
        -- intros c Hc.
           apply (decode_ascii_ignore_chars (b :: d) c).
           rewrite Hsplit. apply in_or_app. right. apply in_or_app. left. exact Hc.
        -- exists pre, post. split; [|split; assumption].
           rewrite <- Hsplit. unfold Hand.decode_ascii_ignore.
           rewrite list_ascii_of_string_of_list_ascii. reflexivity.
Qed.

Lemma get_device_version_text_witness :
  fst (Hand.get_device_version
         (mkSerial false 64 []
            [[xaa; x55; x00; x03; x00; x00; x04; x00; x20; x56; x31; xff; x00]]))
    = Some "ASCII: V1 | 16进制: 205631FF"%string
  /\ exists d,
       fst (Hand.read_register
              (mkSerial false 64 []
                 [[xaa; x55; x00; x03; x00; x00; x04; x00; x20; x56; x31; xff; x00]])
              Hand.VERSION_REG Hand.VERSION_DATA_LEN) = inr d
       /\ d <> [].
Proof.
  assert (E : fst (Hand.get_device_version
                     (mkSerial false 64 []
                        [[xaa; x55; x00; x03; x00; x00; x04; x00; x20; x56; x31; xff; x00]]))
              = Some "ASCII: V1 | 16进制: 205631FF"%string) by (vm_compute; reflexivity).
  split; [exact E|].
  destruct (proj2 (proj2 (get_device_version_text _)) _ E) as (d & v & Hd & Hne & _).
  exists d. split; assumption.
Defined.

End VersionText.
